(** * MDTF-diagnostics: the preprocessing pipeline, embedded and verified

    Shallow embedding of [src/util.py] (class [MultiMap]) and of
    [src/preprocessor.py] (the transform functions, the axis and calendar
    parsing of [MDTFPreprocessorBase], and the two [preprocess] drivers).

    Python exceptions are values of [exn]; a call that may raise returns a
    [result].  Dictionaries of which only lookups matter ([MultiMap],
    [ax_names], the files on disk) are [gmap]s, Python sets are [gset]s;
    dictionaries whose insertion order is kept (attributes, the variables of
    a dataset) are association lists.  What the code takes from xarray, cftime
    and metpy is modelled by the operations of the modules [xr] and [nc] and
    by the fields of [preprocessor.Runtime]. *)

From stdpp Require Import gmap strings list fin_maps fin_sets pretty sorting.
From Stdlib Require Import ZArith Ascii Permutation.

Open Scope Z_scope.
Open Scope string_scope.

(** ** Python runtime: exceptions and results *)

Module Py.

(** The exception classes the modelled code raises or lets through. *)
Inductive exn : Type :=
| KeyError
| IndexError
| TypeError
| AttributeError
| AssertionError
| FileNotFoundError
| ValueError (msg : string)
| MergeError (msg : string)
| DataPreprocessError (msg : string).

Inductive result (A : Type) : Type :=
| Ok (a : A)
| Raise (e : exn).
Arguments Ok {A} a.
Arguments Raise {A} e.

#[global] Instance result_ret : MRet result := fun _ a => Ok a.
#[global] Instance result_bind : MBind result := fun _ _ f r =>
  match r with Ok a => f a | Raise e => Raise e end.

Definition is_ok {A} (r : result A) : bool :=
  match r with Ok _ => true | Raise _ => false end.

(** A value that is either one element or a list of them: the shape of what
    [MultiMap.get_] and [MultiMap.inverse_get_] return. *)
Inductive one_or_many (A : Type) : Type :=
| One (a : A)
| Many (l : list A).
Arguments One {A} a.
Arguments Many {A} l.

(** [temp[0] if len(temp) == 1 else temp] *)
Definition unwrap_single {A} (temp : list A) : one_or_many A :=
  match temp with
  | [x] => One x
  | _ => Many temp
  end.

(** *** Python strings: [str.strip] and [str.lower]

    A string is the sequence of its code points, which are taken to be
    below 256.  [is_space] is [str.isspace] on one character: the ASCII
    white space, the separators U+001C to U+001F, U+0085 and U+00A0. *)

Definition is_space (c : ascii) : bool :=
  bool_decide (nat_of_ascii c
               ∈ [9; 10; 11; 12; 13; 28; 29; 30; 31; 32; 133; 160]%nat).

Fixpoint str_lstrip (s : string) : string :=
  match s with
  | String c s' => if is_space c then str_lstrip s' else s
  | EmptyString => EmptyString
  end.

Definition str_strip (s : string) : string :=
  String.rev (str_lstrip (String.rev (str_lstrip s))).

(** The upper-case letters below 256 are [A] to [Z] and U+00C0 to U+00DE
    without the sign U+00D7; the lower-case letter is 32 further. *)
Definition lower_ascii (c : ascii) : ascii :=
  let n := nat_of_ascii c in
  if bool_decide ((65 ≤ n ≤ 90)%nat ∨ (192 ≤ n ≤ 222)%nat ∧ n ≠ 215%nat)
  then ascii_of_nat (n + 32) else c.

Fixpoint str_lower (s : string) : string :=
  match s with
  | String c s' => String (lower_ascii c) (str_lower s')
  | EmptyString => EmptyString
  end.

(** *** Python dicts whose insertion order is kept: association lists with
    one entry per key.  [dict_set] is [d[k] = v]: an existing key keeps its
    position, a new key goes last. *)

Fixpoint dict_get {A} (k : string) (d : list (string * A)) : option A :=
  match d with
  | [] => None
  | (k', x) :: d' => if decide (k' = k) then Some x else dict_get k d'
  end.

Fixpoint dict_set {A} (k : string) (x : A) (d : list (string * A))
  : list (string * A) :=
  match d with
  | [] => [(k, x)]
  | (k', y) :: d' =>
      if decide (k' = k) then (k, x) :: d' else (k', y) :: dict_set k x d'
  end.

Definition dict_keys {A} (d : list (string * A)) : list string := fst <$> d.

(** [d[k]], raising [KeyError] *)
Definition getitem {A} (d : list (string * A)) (k : string) : result A :=
  match dict_get k d with
  | Some x => Ok x
  | None => Raise KeyError
  end.

(** [l[0]] and [l[-1]] *)
Definition first_item {A} (l : list A) : result A :=
  match l with
  | x :: _ => Ok x
  | [] => Raise IndexError
  end.

Definition last_item {A} (l : list A) : result A :=
  match last l with
  | Some x => Ok x
  | None => Raise IndexError
  end.

(** [l.remove(x)]: the first occurrence of [x] goes. *)
Fixpoint list_remove `{EqDecision A} (x : A) (l : list A) : result (list A) :=
  match l with
  | [] => Raise (ValueError "list.remove(x): x not in list")
  | y :: l' =>
      if decide (y = x) then Ok l' else l'' ← list_remove x l'; Ok (y :: l'')
  end.

(** A loop [for x in l: acc = f(acc, x)] whose body may raise. *)
Fixpoint foldM {A B} (f : B → A → result B) (l : list A) (acc : B)
  : result B :=
  match l with
  | [] => Ok acc
  | x :: l' => f acc x ≫= foldM f l'
  end.

(** [[x for x in l if p(x)]] where the test may raise. *)
Fixpoint filterM {A} (p : A → result bool) (l : list A) : result (list A) :=
  match l with
  | [] => Ok []
  | x :: l' =>
      b ← p x; k ← filterM p l'; Ok (if b : bool then x :: k else k)
  end.

End Py.
Export Py.

(** ** util.py *)

Module util.

Section MultiMap.
Context {K V : Type} `{Countable K} `{Countable V}.

(** [MultiMap.get_] *)
Definition get_ (self : gmap K (gset V)) (key : K) : result (one_or_many V) :=
  match self !! key with
  | None => Raise KeyError
  | Some s => Ok (unwrap_single (elements s))
  end.

(** [MultiMap.inverse]: a [defaultdict(set)] filled by [d[v].add(key)]. *)
Definition inverse (self : gmap K (gset V)) : gmap V (gset K) :=
  map_fold
    (λ key val_set d,
       set_fold (λ v d, <[ v := {[ key ]} ∪ default ∅ (d !! v) ]> d) d val_set)
    ∅ self.

(** [MultiMap.inverse_get_]: [temp[val]] on the plain dict raises
    [KeyError] when no key maps to [val]. *)
Definition inverse_get_ (self : gmap K (gset V)) (val : V)
  : result (one_or_many K) :=
  match inverse self !! val with
  | None => Raise KeyError
  | Some s => Ok (unwrap_single (elements s))
  end.

(** The keys that map to [val], as a predicate. *)
Definition maps_to (self : gmap K (gset V)) (key : K) (val : V) : Prop :=
  ∃ s, self !! key = Some s ∧ val ∈ s.
End MultiMap.

(** *** [MultiMap]: construction, assignment and conversion *)

(** What can be stored under a key: a set, another iterable, or a value
    without [__iter__]. *)
Inductive stored (V : Type) `{Countable V} : Type :=
| ASet (s : gset V)
| AnIterable (l : list V)
| AScalar (x : V).
Arguments ASet {V _ _} s.
Arguments AnIterable {V _ _} l.
Arguments AScalar {V _ _} x.

Section MultiMap_assignment.
Context {K V : Type} `{Countable K} `{Countable V}.

(** The conversion done by [__init__] and [__setitem__]: a value that is
    not a set becomes [set(value)] if it is iterable, [set([value])] if not. *)
Definition as_set (value : stored V) : gset V :=
  match value with
  | ASet s => s
  | AnIterable l => list_to_set l
  | AScalar x => {[ x ]}
  end.

(** [MultiMap.__init__] on an ordinary dict. *)
Definition MultiMap (d : gmap K (stored V)) : gmap K (gset V) :=
  as_set <$> d.

(** [MultiMap.__setitem__] *)
Definition __setitem__ (self : gmap K (gset V)) (key : K) (value : stored V)
  : gmap K (gset V) :=
  <[ key := as_set value ]> self.

(** [MultiMap.to_dict]: [d[key] = self.get_(key)] for every key. *)
Definition to_dict (self : gmap K (gset V))
  : result (gmap K (one_or_many V)) :=
  map_fold
    (λ key _ acc, acc ≫= λ d, get_ self key ≫= λ x, Ok (<[ key := x ]> d))
    (Ok ∅) self.
End MultiMap_assignment.

(** *** [VariableTranslator]: [field_dict] maps a convention to the
    [MultiMap] of its [var_names], from CF names to the names of the
    convention. *)

Module VariableTranslator.

Definition toCF (field_dict : gmap string (gmap string (gset string)))
    (convention varname_in : string) : result (one_or_many string) :=
  if decide (convention = "CF") then Ok (One varname_in)
  else
    match field_dict !! convention with
    | None => Raise AssertionError
    | Some names => inverse_get_ names varname_in
    end.

Definition fromCF (field_dict : gmap string (gmap string (gset string)))
    (convention varname_in : string) : result (one_or_many string) :=
  if decide (convention = "CF") then Ok (One varname_in)
  else
    match field_dict !! convention with
    | None => Raise AssertionError
    | Some names => get_ names varname_in
    end.

End VariableTranslator.

(** *** [Singleton]: one instance per class *)

Module Singleton.
Section instances.
Context {I A : Type}.

(** [_Singleton.__call__]: [construct] is the construction of the class
    itself (the call of [super().__call__] on the arguments), and [_instances] the
    dict of the metaclass, whose keys are the classes.  The result is what
    the call returns or raises, and [_instances] afterwards. *)
Definition __call__ (construct : A → result I) (cls : string) (args : A)
    (_instances : gmap string I) : result I * gmap string I :=
  match _instances !! cls with
  | Some inst => (Ok inst, _instances)
  | None =>
      match construct args with
      | Ok inst => (Ok inst, <[ cls := inst ]> _instances)
      | Raise e => (Raise e, _instances)
      end
  end.

(** [Singleton._reset] *)
Definition _reset (cls : string) (_instances : gmap string I)
  : gmap string I :=
  delete cls _instances.
End instances.
End Singleton.

(** *** [PathManager] *)

Module PathManager.

Definition _root_pathnames : list string :=
  ["CODE_ROOT"; "OBS_DATA_ROOT"; "MODEL_DATA_ROOT"; "WORKING_DIR";
   "OUTPUT_DIR"].

(** The attributes of an instance: the root paths by name, and
    [_temp_dirs]. *)
Record t : Type := mk {
  roots : list (string * string);
  _temp_dirs : list string
}.

Definition set_temp_dirs (self : t) (l : list string) : t :=
  {| roots := roots self; _temp_dirs := l |}.

(** [__init__] *)
Definition __init__ (arg_dict : gmap string string) (unittest_flag : bool)
  : result t :=
  r ← foldM
        (λ r var,
           if unittest_flag then Ok (dict_set var ("TEST_" +:+ var) r)
           else match arg_dict !! var with
                | Some x => Ok (dict_set var x r)
                | None => Raise AssertionError
                end)
        _root_pathnames [];
  Ok {| roots := r; _temp_dirs := [] |}.

Section temp_dirs.
(** The file system [W] and what the methods take from [os], [shutil] and
    [tempfile]: [new_dir_for] is the choice of the directory by
    [make_tempdir] ([tempfile.mkdtemp], which creates it, or a name made from
    [hash_obj]). *)
Context {W H : Type}.
Context (new_dir_for : option H → W → result (string * W)).
Context (isdir : string → W → bool).
Context (makedirs rmtree : string → W → result W).

(** [make_tempdir]: the new directory, the instance and the file system
    afterwards. *)
Definition make_tempdir (hash_obj : option H) (self : t) (w : W)
  : result (string * t * W) :=
  '(new_dir, w) ← new_dir_for hash_obj w;
  w ← (if isdir new_dir w then Ok w else makedirs new_dir w);
  if bool_decide (new_dir ∈ _temp_dirs self) then Raise AssertionError
  else Ok (new_dir, set_temp_dirs self (_temp_dirs self ++ [new_dir]), w).

(** [rm_tempdir] *)
Definition rm_tempdir (path : string) (self : t) (w : W) : result (t * W) :=
  if bool_decide (path ∈ _temp_dirs self) then
    l ← list_remove path (_temp_dirs self);
    w ← rmtree path w;
    Ok (set_temp_dirs self l, w)
  else Raise AssertionError.

(** [cleanup]: the loop [for d in self._temp_dirs] reads the list by
    position, [i] being the position of the next element to read, while
    [rm_tempdir] shortens the list.  Every step needs one unit of [fuel]. *)
Fixpoint cleanup_from (fuel i : nat) (self : t) (w : W)
  : option (result (t * W)) :=
  match _temp_dirs self !! i with
  | None => Some (Ok (self, w))
  | Some d =>
      match fuel with
      | O => None
      | S fuel =>
          match rm_tempdir d self w with
          | Ok (self, w) => cleanup_from fuel (S i) self w
          | Raise e => Some (Raise e)
          end
      end
  end.

Definition cleanup (self : t) (w : W) : option (result (t * W)) :=
  cleanup_from (length (_temp_dirs self)) 0 self w.
End temp_dirs.

(** The elements of a list at the positions 0, 2, 4, ..., and those at the
    positions 1, 3, 5, ... *)
Fixpoint even_index {A} (l : list A) : list A :=
  match l with
  | [] => []
  | x :: l' =>
      x :: match l' with
           | [] => []
           | _ :: l'' => even_index l''
           end
  end.

Definition odd_index {A} (l : list A) : list A := even_index (tail l).

End PathManager.

(** *** The configuration: [resolve_path], [caselist_from_args],
    [parse_mdtf_args] *)

(** The values of the options: [None], booleans, integers and strings. *)
Inductive pyval : Type :=
| VNone
| VBool (b : bool)
| VInt (n : Z)
| VStr (s : string).

#[global] Instance pyval_eq_dec : EqDecision pyval.
Proof. solve_decision. Defined.

(** The truth value of an option, as [if x] tests it. *)
Definition truthy (x : pyval) : bool :=
  match x with
  | VNone => false
  | VBool b => b
  | VInt n => negb (n =? 0)%Z
  | VStr s => negb (bool_decide (s = ""))
  end.

Section resolve_path.
(** [os.path.isabs], [os.path.join], [os.path.normpath] on strings, and
    the value of [os.getcwd()]. *)
Context (isabs : string → bool) (join : string → string → string).
Context (normpath : string → string) (getcwd : string).

(** [resolve_path]: [os.path.isabs] of a value that is not a string raises
    [AttributeError]. *)
Definition resolve_path (path root_path : pyval) : result string :=
  match path with
  | VStr p =>
      if isabs p then Ok p
      else
        root_path ←
          (if decide (root_path = VStr "") then Ok getcwd
           else match root_path with
                | VStr r => if isabs r then Ok r else Raise AssertionError
                | _ => Raise AttributeError
                end);
        Ok (normpath (join root_path p))
  | _ => Raise AttributeError
  end.
End resolve_path.

Definition case_keys : list string :=
  ["CASENAME"; "FIRSTYR"; "LASTYR"; "root_dir"; "component"; "chunk_freq";
   "data_freq"; "model"; "variable_convention"].

(** [caselist_from_args] *)
Definition caselist_from_args (args : gmap string pyval)
  : list (gmap string pyval) :=
  let d :=
    foldl (λ d k, match args !! k with Some x => <[ k := x ]> d | None => d end)
      ∅ case_keys in
  let d :=
    foldl (λ d k, match d !! k with
                  | Some _ => d
                  | None => <[ k := VStr "CMIP_GFDL" ]> d
                  end)
      d ["model"; "variable_convention"] in
  let d :=
    match d !! "root_dir", args !! "CASE_ROOT_DIR" with
    | None, Some x => <[ "root_dir" := x ]> d
    | _, _ => d
    end in
  [d].

(** What [parse_mdtf_args] reads and writes of [default_args]: the sections
    [paths] and [settings], which are dicts, and the entry [case_list], which
    may be absent. *)
Record Config : Type := mk_Config {
  paths : list (string * pyval);
  settings : list (string * pyval);
  case_list : option (list (gmap string pyval))
}.

(** [for key in section: if key in args: section[key] = args[key]] *)
Definition overwrite (args : gmap string pyval)
    (section : list (string * pyval)) : list (string * pyval) :=
  foldl (λ section key,
           match args !! key with
           | Some x => dict_set key x section
           | None => section
           end)
    section (dict_keys section).

Section parse_mdtf_args.
Context (isabs : string → bool) (join : string → string → string).
Context (normpath : string → string) (getcwd : string).

(** [parse_mdtf_args]; [frepp_args] may be [None]. *)
Definition parse_mdtf_args (frepp_args : option (gmap string pyval))
    (cmdline_args : gmap string pyval) (default_args : Config)
    (rel_paths_root : pyval) : result Config :=
  let p := overwrite cmdline_args (paths default_args) in
  let s := overwrite cmdline_args (settings default_args) in
  let rel_paths_root :=
    match cmdline_args !! "CODE_ROOT" with
    | Some x => x
    | None => rel_paths_root
    end in
  let cl :=
    match cmdline_args !! "CASENAME" with
    | Some _ => Some (caselist_from_args cmdline_args)
    | None => case_list default_args
    end in
  let '(p, s, cl) :=
    match cmdline_args !! "frepp", frepp_args with
    | Some f, Some frepp_args =>
        if truthy f then
          (overwrite frepp_args p, overwrite frepp_args s,
           match frepp_args !! "CASENAME" with
           | Some _ => Some (caselist_from_args frepp_args)
           | None => cl
           end)
        else (p, s, cl)
    | _, _ => (p, s, cl)
    end in
  p ← foldM
        (λ p '(key, val),
           x ← resolve_path isabs join normpath getcwd val rel_paths_root;
           Ok (dict_set key (VStr x) p))
        p p;
  Ok {| paths := p; settings := s; case_list := cl |}.
End parse_mdtf_args.

(** The precedence in words: the [frepp] arguments that are in force (none
    unless the command line sets [frepp] to a true value and [frepp_args] is
    given), and the value chosen for the key [k] whose default is [x]. *)
Definition frepp_in_force (frepp_args : option (gmap string pyval))
    (cmdline_args : gmap string pyval) : gmap string pyval :=
  match cmdline_args !! "frepp", frepp_args with
  | Some f, Some frepp_args => if truthy f then frepp_args else ∅
  | _, _ => ∅
  end.

Definition chosen (frepp_args : option (gmap string pyval))
    (cmdline_args : gmap string pyval) (k : string) (x : pyval) : pyval :=
  default (default x (cmdline_args !! k))
    (frepp_in_force frepp_args cmdline_args !! k).

(** *** [Namespace] *)

Module Namespace.

(** The class of a dict object: a plain [dict], or a [Namespace]. *)
Inductive dict_class : Type :=
| PlainDict
| NamespaceClass.

#[global] Instance dict_class_eq_dec : EqDecision dict_class.
Proof. solve_decision. Defined.

(** The values [_toDict] and [fromDict] tell apart: dicts (with strings as
    keys, in the order of iteration), lists, tuples, and anything else. *)
#[warnings="-register-all"] Inductive pyobj : Type :=
| Atom (v : pyval)
| Dict (c : dict_class) (items : list (string * pyobj))
| PyList (l : list pyobj)
| PyTuple (l : list pyobj).

(** [Namespace._toDict] *)
Fixpoint _toDict (x : pyobj) : pyobj :=
  match x with
  | Dict _ items => Dict PlainDict ((λ p, (p.1, _toDict p.2)) <$> items)
  | PyList l => PyList (_toDict <$> l)
  | PyTuple l => PyTuple (_toDict <$> l)
  | Atom v => Atom v
  end.

(** [Namespace.fromDict], for [cls] the class [Namespace] itself. *)
Fixpoint fromDict (x : pyobj) : pyobj :=
  match x with
  | Dict _ items => Dict NamespaceClass ((λ p, (p.1, fromDict p.2)) <$> items)
  | PyList l => PyList (fromDict <$> l)
  | PyTuple l => PyTuple (fromDict <$> l)
  | Atom v => Atom v
  end.

(** Every dict of [x], at any depth, is of the class [c]. *)
Fixpoint has_class (c : dict_class) (x : pyobj) : bool :=
  match x with
  | Dict c' items =>
      bool_decide (c' = c) && forallb (λ p, has_class c p.2) items
  | PyList l => forallb (has_class c) l
  | PyTuple l => forallb (has_class c) l
  | Atom _ => true
  end.

Section Namespace_eq.
(** [repr] on values, and the check [namedtuple] makes of its field names:
    the message of the [ValueError] it raises, if it raises. *)
Context (repr : pyobj → string).
Context (field_names_error : list string → option string).

(** [Namespace._freeze], for the instance with the items [self].  The
    result is the tuple of the values of the named tuple, which are in the
    order of the sorted keys. *)
Definition _freeze (self : list (string * pyobj)) : result (list string) :=
  match _toDict (Dict NamespaceClass self) with
  | Dict _ d =>
      let d2 := (λ p, (p.1, repr p.2)) <$> d in
      let names := merge_sort String.le (dict_keys d) in
      match field_names_error names with
      | Some msg => Raise (ValueError msg)
      | None => Ok (omap (λ k, dict_get k d2) names)
      end
  | _ => Raise TypeError
  end.

(** [Namespace.__eq__]: named tuples are compared as tuples. *)
Definition __eq__ (self : list (string * pyobj)) (other : pyobj)
  : result bool :=
  match other with
  | Dict NamespaceClass other =>
      a ← _freeze self; b ← _freeze other; Ok (bool_decide (a = b))
  | _ => Ok false
  end.

(** [Namespace.copy] *)
Definition copy (self : list (string * pyobj)) : pyobj :=
  fromDict (Dict NamespaceClass self).
End Namespace_eq.

End Namespace.

(** *** [DataSet] *)

Module DataSet.
Import Namespace.

Section DataSet.
(** [datelabel.DateFrequency] *)
Context (DateFrequency : pyobj → result pyobj).

(** [for key in keys: if key not in self: self[key] = x] *)
Definition set_missing (keys : list string) (x : pyobj)
    (self : gmap string pyobj) : gmap string pyobj :=
  foldl (λ self key, match self !! key with
                     | Some _ => self
                     | None => <[ key := x ]> self
                     end)
    self keys.

(** [DataSet.__init__] on the items given; [self.name] and the like are
    item accesses, these names being no attributes of [dict]. *)
Definition __init__ (kwargs : gmap string pyobj)
  : result (gmap string pyobj) :=
  let self :=
    set_missing ["name"; "units"; "date_range"; "date_freq"; "_local_data"]
      (Atom VNone) kwargs in
  let self := set_missing ["_remote_data"; "alternates"] (PyList []) self in
  let self :=
    match self !! "var_name", self !! "name" with
    | Some x, Some (Atom VNone) => delete "var_name" (<[ "name" := x ]> self)
    | _, _ => self
    end in
  match self !! "freq", self !! "date_freq" with
  | Some x, Some (Atom VNone) =>
      f ← DateFrequency x; Ok (delete "freq" (<[ "date_freq" := f ]> self))
  | _, _ => Ok self
  end.
End DataSet.

(** The attributes [__init__] gives a default to. *)
Definition default_keys : list string :=
  ["name"; "units"; "date_range"; "date_freq"; "_local_data"; "_remote_data";
   "alternates"].

(** What [__init__] establishes. *)
Definition normal (self : gmap string pyobj) : Prop :=
  (∀ k, k ∈ default_keys → is_Some (self !! k))
  ∧ (is_Some (self !! "var_name") → self !! "name" ≠ Some (Atom VNone))
  ∧ (is_Some (self !! "freq") → self !! "date_freq" ≠ Some (Atom VNone)).

End DataSet.

End util.


(** ** The datasets the pipeline handles (xarray, cftime)

    A dataset is modelled by what the preprocessor reads from it and writes to
    it: global attributes, and named arrays with their dimension names,
    attributes and labelled cells.  A cell of an array carries the coordinate
    label of each of the array's dimensions and the value stored there, so
    that label-based selection ([sel]) and concatenation are operations on
    lists of cells; the cells of a coordinate array are in index order. *)

Module xr.

(** [datetime.datetime] and [cftime.datetime] objects: the six fields that
    [cast_to_cftime] copies, and the [calendar] attribute ([None] for an
    object without one). *)
Record datetime : Type := mk_datetime {
  tm_year : Z; tm_mon : Z; tm_mday : Z;
  tm_hour : Z; tm_min : Z; tm_sec : Z;
  dt_calendar : option string
}.

Definition timetuple (t : datetime) : list Z :=
  [tm_year t; tm_mon t; tm_mday t; tm_hour t; tm_min t; tm_sec t].

(** Tuple comparison, component by component. *)
Fixpoint tuple_cmp (a b : list Z) : comparison :=
  match a, b with
  | x :: a', y :: b' =>
      match (x ?= y)%Z with
      | Eq => tuple_cmp a' b'
      | c => c
      end
  | [], [] => Eq
  | [], _ :: _ => Lt
  | _ :: _, [] => Gt
  end.

(** The order of two dates of one calendar. *)
Definition dt_gt (a b : datetime) : bool :=
  match tuple_cmp (timetuple a) (timetuple b) with Gt => true | _ => false end.
Definition dt_lt (a b : datetime) : bool := dt_gt b a.
Definition dt_le (a b : datetime) : bool := negb (dt_gt a b).

(** [a > b], [a < b] and [a <= b] on [cftime.datetime] objects: dates of
    different calendars are not comparable, and comparing them raises
    [TypeError]. *)
Definition same_calendar (a b : datetime) : bool :=
  bool_decide (dt_calendar a = dt_calendar b).

Definition cf_gt (a b : datetime) : result bool :=
  if same_calendar a b then Ok (dt_gt a b) else Raise TypeError.
Definition cf_lt (a b : datetime) : result bool :=
  if same_calendar a b then Ok (dt_lt a b) else Raise TypeError.
Definition cf_le (a b : datetime) : result bool :=
  if same_calendar a b then Ok (dt_le a b) else Raise TypeError.

(** Values stored in arrays and used as coordinate labels. *)
Inductive scalar : Type :=
| SNum (z : Z)
| STime (t : datetime).

(** Attribute values: strings and everything else. *)
Inductive attr : Type :=
| AStr (s : string)
| ANum (z : Z).

#[global] Instance datetime_eq_dec : EqDecision datetime.
Proof. solve_decision. Defined.
#[global] Instance scalar_eq_dec : EqDecision scalar.
Proof. solve_decision. Defined.
#[global] Instance attr_eq_dec : EqDecision attr.
Proof. solve_decision. Defined.

Record DataArray : Type := mk_DataArray {
  dims : list string;
  attrs : list (string * attr);
  cells : list (list scalar * scalar)
}.

#[global] Instance DataArray_eq_dec : EqDecision DataArray.
Proof. solve_decision. Defined.

(** [.values] *)
Definition values (da : DataArray) : list scalar := snd <$> cells da.

Record Dataset : Type := mk_Dataset {
  ds_attrs : list (string * attr);
  coords : list (string * DataArray);
  data_vars : list (string * DataArray)
}.

#[global] Instance Dataset_eq_dec : EqDecision Dataset.
Proof. solve_decision. Defined.

(** [ds.variables]: coordinates and data variables. *)
Definition variables (ds : Dataset) : list (string * DataArray) :=
  coords ds ++ data_vars ds.

(** The data of a dataset: the names, dimensions and cells of its arrays,
    without the attributes. *)
Definition data_of (ds : Dataset)
  : list (string * list string * list (list scalar * scalar)) :=
  (λ p : string * DataArray, (p.1, dims p.2, cells p.2)) <$> variables ds.

(** [ds[name]] *)
Definition ds_getitem (ds : Dataset) (name : string) : result DataArray :=
  getitem (variables ds) name.

(** Apply [f] to every array of the dataset. *)
Definition map_arrays (f : DataArray → DataArray) (ds : Dataset) : Dataset :=
  {| ds_attrs := ds_attrs ds;
     coords := prod_map id f <$> coords ds;
     data_vars := prod_map id f <$> data_vars ds |}.

(** Position of dimension [d] in an array. *)
Definition dim_index (d : string) (da : DataArray) : option nat :=
  fst <$> list_find (λ d', d' = d) (dims da).

(** *** [ds.sel({dim: slice(lo, hi)})] *)

(** A label against the two ends of the slice; comparing a label that is not
    a date, or a date of another calendar, with a date raises [TypeError]. *)
Definition in_slice (lo hi : datetime) (l : scalar) : result bool :=
  match l with
  | STime t =>
      above ← cf_le lo t;
      below ← cf_le t hi;
      Ok (above && below)
  | SNum _ => Raise TypeError
  end.

Definition cell_in_slice (i : nat) (lo hi : datetime)
    (c : list scalar * scalar) : result bool :=
  match c.1 !! i with
  | Some l => in_slice lo hi l
  | None => Raise IndexError
  end.

Definition array_sel_slice (d : string) (lo hi : datetime) (da : DataArray)
  : result DataArray :=
  match dim_index d da with
  | None => Ok da
  | Some i =>
      k ← filterM (cell_in_slice i lo hi) (cells da);
      Ok {| dims := dims da; attrs := attrs da; cells := k |}
  end.

Definition mapM_arrays (f : DataArray → result DataArray)
    (l : list (string * DataArray)) : result (list (string * DataArray)) :=
  mapM (λ '(n, da), da' ← f da; Ok (n, da')) l.

(** Modelled from the spec: [Dataset.sel] is xarray's, not under src/; with a
    slice it "selects the inclusive sub-range" of labels along the dimension,
    in every array that has it.  The dimension must be a coordinate of the
    dataset. *)
Definition sel_slice (ds : Dataset) (d : string) (lo hi : datetime)
  : result Dataset :=
  _ ← getitem (coords ds) d;
  cs ← mapM_arrays (array_sel_slice d lo hi) (coords ds);
  vs ← mapM_arrays (array_sel_slice d lo hi) (data_vars ds);
  Ok {| ds_attrs := ds_attrs ds; coords := cs; data_vars := vs |}.








(** *** [ds.sel({dim: value})] *)

Definition drop_nth {A} (i : nat) (l : list A) : list A :=
  take i l ++ drop (S i) l.

Definition array_sel_exact (d : string) (x : scalar) (da : DataArray)
  : DataArray :=
  match dim_index d da with
  | None => da
  | Some i =>
      {| dims := drop_nth i (dims da);
         attrs := attrs da;
         cells :=
           (λ c, (drop_nth i c.1, c.2)) <$>
           filter (λ c, c.1 !! i = Some x) (cells da) |}
  end.

(** Modelled from the spec: [Dataset.sel] is xarray's, not under src/; with a
    value it is the "selection at that exact" value: it fails ([KeyError],
    the exception the code catches) when "the exact level is absent from the
    coordinate axis", nothing is interpolated, and the selected dimension is
    dropped from the arrays. *)
Definition sel_exact (ds : Dataset) (d : string) (x : scalar)
  : result Dataset :=
  idx ← getitem (coords ds) d;
  if bool_decide (x ∈ values idx)
  then Ok (map_arrays (array_sel_exact d x) ds)
  else Raise KeyError.

(** *** [ds.rename({old: new})] *)

Definition rename_key (old new : string) (n : string) : string :=
  if decide (n = old) then new else n.

Definition array_rename (old new : string) (da : DataArray) : DataArray :=
  {| dims := rename_key old new <$> dims da;
     attrs := attrs da; cells := cells da |}.

Definition renamed (ds : Dataset) (old new : string) : Dataset :=
  {| ds_attrs := ds_attrs ds;
     coords := prod_map (rename_key old new) (array_rename old new)
                 <$> coords ds;
     data_vars := prod_map (rename_key old new) (array_rename old new)
                 <$> data_vars ds |}.

(** Modelled from the spec: [Dataset.rename] is xarray's, not under src/; it
    "renames the resolved variable", and raises [ValueError] when [old] names
    nothing in the dataset or [new] is already taken. *)
Definition rename (ds : Dataset) (old new : string) : result Dataset :=
  if bool_decide (old ∈ dict_keys (variables ds)) then
    if bool_decide (new ∈ dict_keys (variables ds)) then
      Raise (ValueError "the new name conflicts")
    else Ok (renamed ds old new)
  else Raise (ValueError "cannot rename: not a variable or dimension").

End xr.

(** ** Files: [xr.open_dataset], [Dataset.to_netcdf], [xr.open_mfdataset]

    The files on disk are datasets stored under their path. *)

Module nc.
Import xr.

Abbreviation FS := (gmap string Dataset).

(** [xr.open_dataset(path, ...)] *)
Definition open_dataset (fs : FS) (path : string) : result Dataset :=
  match fs !! path with
  | Some ds => Ok ds
  | None => Raise FileNotFoundError
  end.

(** [ds.to_netcdf(path=..., mode='w')] *)
Definition to_netcdf (fs : FS) (path : string) (ds : Dataset) : FS :=
  <[ path := ds ]> fs.

(** *** [xr.open_mfdataset]

    The merge is xarray's and is not under src/.  It is modelled under the
    options [DaskMultiFilePreprocessor.preprocess] passes, whose effect the
    comments next to them state as the specification does:
    - [join="exact"]: "raise ValueError if non-time dims conflict";
    - [compat="identical"]: "all non-concat'ed vars, attrs must be the same";
    - [data_vars="minimal", coords="minimal"]: "only time-dependent variables
      and coords are concat'ed";
    the rest is taken from the first dataset, and the datasets are combined
    in the order of the file list. *)

Definition concat_over (d : string) (da : DataArray) : bool :=
  bool_decide (d ∈ dims da).

Definition same_variables (first ds : Dataset) : bool :=
  bool_decide (dict_keys (coords ds) = dict_keys (coords first)
               ∧ dict_keys (data_vars ds) = dict_keys (data_vars first)).

(** The labels that the cells of an array carry along the dimensions other
    than the one at position [i]: each combination once, in the order of
    the cells. *)
Definition other_labels (i : nat) (da : DataArray) : list (list scalar) :=
  remove_dups ((λ c : list scalar * scalar, drop_nth i c.1) <$> cells da).

(** Every array of [vars_first] is found in [vars], and [check] holds of the
    two. *)
Definition all_arrays (check : DataArray → DataArray → bool)
    (vars_first vars : list (string * DataArray)) : bool :=
  forallb
    (λ '(n, da),
       match dict_get n vars with
       | Some da' => check da da'
       | None => false
       end)
    vars_first.

(** An array that is concatenated has the same dimensions in the other file
    and the same labels along the dimensions other than [d]. *)
Definition dims_match_array (d : string) (da da' : DataArray) : bool :=
  match dim_index d da with
  | Some i =>
      bool_decide (dims da' = dims da
                   ∧ other_labels i da' = other_labels i da)
  | None => true
  end.

Definition dims_match (d : string) (first ds : Dataset) : bool :=
  all_arrays (dims_match_array d) (coords first) (coords ds)
  && all_arrays (dims_match_array d) (data_vars first) (data_vars ds).

(** An array that is not concatenated is the same in the other file:
    dimensions, attributes and cells; of one that is concatenated, the
    attributes are the same. *)
Definition identical_array (d : string) (da da' : DataArray) : bool :=
  if concat_over d da then bool_decide (attrs da' = attrs da)
  else bool_decide (da' = da).

Definition identical_nonconcat (d : string) (first ds : Dataset) : bool :=
  all_arrays (identical_array d) (coords first) (coords ds)
  && all_arrays (identical_array d) (data_vars first) (data_vars ds).

Definition attrs_equal (first ds : Dataset) : bool :=
  bool_decide (ds_attrs ds = ds_attrs first).

Definition cells_of (n : string) (vars : list (string * DataArray))
  : list (list scalar * scalar) :=
  match dict_get n vars with
  | Some da => cells da
  | None => []
  end.

Definition concat_vars (d : string) (vars_first : list (string * DataArray))
    (rest : list (list (string * DataArray))) : list (string * DataArray) :=
  (λ '(n, da),
     if concat_over d da
     then (n, {| dims := dims da; attrs := attrs da;
                 cells := cells da ++ mjoin (cells_of n <$> rest) |})
     else (n, da)) <$> vars_first.

(** Modelled from the spec: the concatenation of [xr.open_mfdataset], which
    is not under src/.  "Non-time dimensions must match exactly across files
    — any mismatch is a fatal [MergeConsistencyError]", "all non-concatenated
    variables and attributes must be identical across files — any divergence
    is a fatal [MergeConsistencyError]", and "only time-varying variables
    and coordinates participate in the concatenation, all else taken from a
    representative file", here the first. *)
Definition combine (d : string) (dss : list Dataset) : result Dataset :=
  match dss with
  | [] => Raise (ValueError "no files to open")
  | first :: rest =>
      if negb (forallb (same_variables first) rest) then
        Raise (ValueError "variables present in some datasets but not others")
      else if negb (forallb (dims_match d first) rest) then
        Raise (ValueError "indexes along dimension are not equal")
      else if negb (forallb (identical_nonconcat d first) rest) then
        Raise (MergeError "conflicting values for variable")
      else if negb (forallb (attrs_equal first) rest) then
        Raise (ValueError "Dataset global attributes not equal.")
      else
        Ok {| ds_attrs := ds_attrs first;
              coords := concat_vars d (coords first) (coords <$> rest);
              data_vars :=
                concat_vars d (data_vars first) (data_vars <$> rest) |}
  end.

(** Two files agree, in the words of the specification: "all
    non-concatenated variables and attributes must be identical across
    files" and "non-time dimensions must match exactly across files".  The
    global attributes and the names of the variables are the same; an array
    without the dimension [d] is the same in both files; an array with it
    has the same dimensions, the same attributes and the same labels along
    its other dimensions. *)
Definition arrays_agree (d : string)
    (vars_first vars : list (string * DataArray)) : Prop :=
  ∀ n da, (n, da) ∈ vars_first →
    ∃ da', dict_get n vars = Some da'
      ∧ dims da' = dims da
      ∧ attrs da' = attrs da
      ∧ (d ∉ dims da → cells da' = cells da)
      ∧ (∀ i, dim_index d da = Some i →
           other_labels i da' = other_labels i da).

Definition files_agree (d : string) (first ds : Dataset) : Prop :=
  ds_attrs ds = ds_attrs first
  ∧ dict_keys (coords ds) = dict_keys (coords first)
  ∧ dict_keys (data_vars ds) = dict_keys (data_vars first)
  ∧ arrays_agree d (coords first) (coords ds)
  ∧ arrays_agree d (data_vars first) (data_vars ds).

(** The exceptions by which [combine] reports that the files disagree. *)
Definition is_merge_failure (e : exn) : bool :=
  match e with
  | MergeError _ => true
  | ValueError msg =>
      bool_decide (msg = "indexes along dimension are not equal"
                   ∨ msg = "variables present in some datasets but not others"
                   ∨ msg = "Dataset global attributes not equal.")
  | _ => false
  end.

(** Modelled from the spec: [xr.open_mfdataset], not under src/, "applying
    the per-file transform to each file's dataset as it is opened, before
    concatenation". *)
Definition open_mfdataset (fs : FS) (paths : list string)
    (concat_dim : string) (preprocess : Dataset → result Dataset)
  : result Dataset :=
  dss ← mapM (λ p, open_dataset fs p ≫= preprocess) paths;
  combine concat_dim dss.

End nc.

(** ** preprocessor.py *)

Module preprocessor.
Import xr nc.

(** A date given to limited precision: the earliest and the latest datetime
    consistent with it ([date_range.start.lower], [.upper]). *)
Record FuzzyDate : Type := mk_FuzzyDate {
  lower : datetime;
  upper : datetime
}.

Record DateRange : Type := mk_DateRange {
  start : FuzzyDate;
  end_ : FuzzyDate;
  is_static : bool
}.

(** An entry of [var.remote_data]. *)
Record RemoteFile : Type := mk_RemoteFile {
  local_path : string;
  file_date_range : DateRange
}.

(** The variable descriptor [var]; [scalar_coordinates] is [None] when the
    descriptor has no such attribute. *)
Record VarDesc : Type := mk_VarDesc {
  name_in_model : string;
  scalar_coordinates : option (list (string * Z));
  remote_data : list RemoteFile;
  dest_path : string;
  var_date_range : DateRange
}.

Record DataManager : Type := mk_DataManager {
  dm_date_range : DateRange;
  dm_data_freq : string;
  dm_convention : list (string * attr)
}.

(** The subclasses of [PreprocessorFunctionBase]. *)
Inductive PreprocessorFunction : Type :=
| CropDateRange
| ExtractLevel.

(** The attributes of a [MDTFPreprocessorBase] instance ([self.__dict__],
    which is what every hook receives as [**kwargs]). *)
Record Preprocessor : Type := mk_Preprocessor {
  date_range : DateRange;
  data_freq : string;
  convention : list (string * attr);
  ax_names : gmap string string;
  calendar : option string;
  v : VarDesc;
  files : list RemoteFile;
  functions : list PreprocessorFunction
}.

Definition set_ax_names (self : Preprocessor) (ax : gmap string string)
  : Preprocessor :=
  {| date_range := date_range self; data_freq := data_freq self;
     convention := convention self; ax_names := ax;
     calendar := calendar self; v := v self; files := files self;
     functions := functions self |}.

Definition set_calendar (self : Preprocessor) (c : option string)
  : Preprocessor :=
  {| date_range := date_range self; data_freq := data_freq self;
     convention := convention self; ax_names := ax_names self;
     calendar := c; v := v self; files := files self;
     functions := functions self |}.

#[global] Instance PreprocessorFunction_eq_dec :
  EqDecision PreprocessorFunction.
Proof. solve_decision. Defined.

(** The instance with another list of functions (the argument [functions]
    of [__init__] after the defaults). *)
Definition set_functions (self : Preprocessor)
    (fns : list PreprocessorFunction) : Preprocessor :=
  {| date_range := date_range self; data_freq := data_freq self;
     convention := convention self; ax_names := ax_names self;
     calendar := calendar self; v := v self; files := files self;
     functions := fns |}.

(** What the code takes from its collaborators (xarray's CF decoding, metpy's
    axis identification and unit conversion, [datelabel]'s date comparison,
    cftime's date constructor) and from the interpreter (the order in which
    a [set] is iterated). *)
Record Runtime : Type := mk_Runtime {
  (** [xr.decode_cf(...)] followed by [.metpy.parse_cf()] *)
  decode_cf : Dataset → result Dataset;
  (** [getattr(ds[var_name].metpy, metpy_attr).name], [None] when metpy
      raises [AttributeError] *)
  metpy_axis : Dataset → string → string → option string;
  (** [p * units.hPa] expressed in the units of a coordinate with the given
      attributes *)
  hPa_to_axis_units : list (string * attr) → Z → Z;
  (** [list(s)] for a set [s] of strings with the given elements *)
  set_iter : list string → list string;
  (** [<] on [datelabel] dates *)
  date_lt : FuzzyDate → FuzzyDate → bool;
  (** [cftime.datetime] called on the six fields [tt] and [calendar]: the
      date in that calendar, or what the constructor raises ([ValueError]
      for a date that the calendar does not have, such as 31 December in
      [360_day]) *)
  cftime_datetime : list Z → option string → result datetime
}.

(** A set is iterated once over each of its elements, in some order. *)
Definition set_iter_valid (rt : Runtime) : Prop :=
  ∀ l, NoDup l → set_iter rt l ≡ₚ l.

(** *** [CropDateRangeFunction] *)

Module CropDateRangeFunction.

(** [cast_to_cftime]: the six fields of [dt.timetuple()] are handed to
    [cftime.datetime] with the calendar. *)
Definition cast_to_cftime (rt : Runtime) (dt : datetime)
    (calendar : option string) : result datetime :=
  cftime_datetime rt (timetuple dt) calendar.

(** [x > t] and [x < t] for an array value [x] and a date [t] *)
Definition value_gt (x : scalar) (t : datetime) : result bool :=
  match x with
  | STime x' => cf_gt x' t
  | SNum _ => Raise TypeError
  end.

Definition value_lt (x : scalar) (t : datetime) : result bool :=
  match x with
  | STime x' => cf_lt x' t
  | SNum _ => Raise TypeError
  end.

Definition start_error : exn :=
  DataPreprocessError "Error: dataset start is after requested date range start".
Definition end_error : exn :=
  DataPreprocessError "Error: dataset end is before requested date range end".

(** The four bounds of the requested range, cast to the calendar. *)
Definition dt_start_lower (rt : Runtime) (self : Preprocessor)
  : result datetime :=
  cast_to_cftime rt (lower (start (date_range self))) (calendar self).
Definition dt_start_upper (rt : Runtime) (self : Preprocessor)
  : result datetime :=
  cast_to_cftime rt (upper (start (date_range self))) (calendar self).
Definition dt_end_lower (rt : Runtime) (self : Preprocessor)
  : result datetime :=
  cast_to_cftime rt (lower (end_ (date_range self))) (calendar self).
Definition dt_end_upper (rt : Runtime) (self : Preprocessor)
  : result datetime :=
  cast_to_cftime rt (upper (end_ (date_range self))) (calendar self).

(** [crop_time_axis]; the message printed before the selection names
    [ax_names['var']]. *)
Definition crop_time_axis (rt : Runtime) (ds : Dataset) (self : Preprocessor)
  : result Dataset :=
  match ax_names self !! "T" with
  | None => Ok ds
  | Some time =>
      start_lower ← dt_start_lower rt self;
      start_upper ← dt_start_upper rt self;
      end_lower ← dt_end_lower rt self;
      end_upper ← dt_end_upper rt self;
      time_ax ← ds_getitem ds time;
      t0 ← first_item (values time_ax);
      after ← value_gt t0 start_upper;
      if after : bool then Raise start_error
      else
        tn ← last_item (values time_ax);
        before ← value_lt tn end_lower;
        if before : bool then Raise end_error
        else
          match ax_names self !! "var" with
          | None => Raise KeyError
          | Some _ => sel_slice ds time start_lower end_upper
          end
  end.

Definition parse (ds : Dataset) (self : Preprocessor) : result unit := Ok ().
Definition process_static_dataset (ds : Dataset) (self : Preprocessor)
  : result Dataset := Ok ds.
Definition process_file (ds : Dataset) (self : Preprocessor)
  : result Dataset := Ok ds.
Definition process_dataset (rt : Runtime) (ds : Dataset)
    (self : Preprocessor) : result Dataset := crop_time_axis rt ds self.

End CropDateRangeFunction.

(** *** [ExtractLevelFunction] *)

Module ExtractLevelFunction.

Definition level_error : exn :=
  DataPreprocessError "Pressure axis of file didn't provide requested level".

(** [ds.metpy.sel] at [name = p_level * units.hPa] *)
Definition metpy_sel (rt : Runtime) (ds : Dataset) (name : string) (p : Z)
  : result Dataset :=
  axis ← getitem (coords ds) name;
  sel_exact ds name (SNum (hPa_to_axis_units rt (attrs axis) p)).

(** The body of the [try] statement. *)
Definition select_and_rename (rt : Runtime) (ds : Dataset)
    (ax_names : gmap string string) (z : string) (p_level : Z)
  : result Dataset :=
  ds' ← metpy_sel rt ds z p_level;
  match ax_names !! "var" with
  | None => Raise KeyError
  | Some var => rename ds' var (var +:+ pretty p_level)
  end.

Definition extract_level (rt : Runtime) (ds : Dataset) (self : Preprocessor)
  : result Dataset :=
  match ax_names self !! "Z",
        scalar_coordinates (v self) ≫= dict_get "pressure" with
  | Some z, Some pressure =>
      (* the scalar coordinate is an integer, which [int] leaves as it is *)
      let p_level := pressure in
      match select_and_rename rt ds (ax_names self) z p_level with
      | Raise KeyError => Raise level_error
      | r => r
      end
  | _, _ => Ok ds
  end.

Definition parse (ds : Dataset) (self : Preprocessor) : result unit := Ok ().
Definition process_static_dataset (ds : Dataset) (self : Preprocessor)
  : result Dataset := Ok ds.
Definition process_file (rt : Runtime) (ds : Dataset) (self : Preprocessor)
  : result Dataset := extract_level rt ds self.
Definition process_dataset (ds : Dataset) (self : Preprocessor)
  : result Dataset := Ok ds.

End ExtractLevelFunction.

(** Method dispatch on the function objects of [self.functions]. *)
Definition func_parse (f : PreprocessorFunction) :=
  match f with
  | CropDateRange => CropDateRangeFunction.parse
  | ExtractLevel => ExtractLevelFunction.parse
  end.

Definition func_process_static_dataset (f : PreprocessorFunction) :=
  match f with
  | CropDateRange => CropDateRangeFunction.process_static_dataset
  | ExtractLevel => ExtractLevelFunction.process_static_dataset
  end.

Definition func_process_file (rt : Runtime) (f : PreprocessorFunction) :=
  match f with
  | CropDateRange => CropDateRangeFunction.process_file
  | ExtractLevel => ExtractLevelFunction.process_file rt
  end.

Definition func_process_dataset (rt : Runtime) (f : PreprocessorFunction) :=
  match f with
  | CropDateRange => CropDateRangeFunction.process_dataset rt
  | ExtractLevel => ExtractLevelFunction.process_dataset
  end.

(** *** [MDTFPreprocessorBase] *)

Module MDTFPreprocessorBase.

(** [sorted(l, key=key)]: stable, and comparing keys with [<] only.
    Elements are inserted from the last to the first, each before the first
    element that is not smaller. *)
Fixpoint insert_by {A K} (lt : K → K → bool) (key : A → K) (x : A)
    (l : list A) : list A :=
  match l with
  | [] => [x]
  | y :: l' =>
      if lt (key y) (key x) then y :: insert_by lt key x l' else x :: y :: l'
  end.

Definition sorted {A K} (lt : K → K → bool) (key : A → K) (l : list A)
  : list A :=
  foldr (insert_by lt key) [] l.

(** [b] may follow [a] in a list sorted by [key]: its key is not smaller. *)
Definition not_before {A K} (lt : K → K → bool) (key : A → K) (a b : A)
  : Prop :=
  lt (key b) (key a) = false.

(** [attrgetter('date_range.start')] *)
Definition date_range_start (f : RemoteFile) : FuzzyDate :=
  start (file_date_range f).

(** [__init__]; [default_functions] is the class attribute
    [_default_functions]. *)
Definition __init__ (rt : Runtime) (default_functions : list PreprocessorFunction)
    (data_mgr : DataManager) (var : VarDesc)
    (functions : list PreprocessorFunction) : result Preprocessor :=
  match remote_data var with
  | [] => Raise AssertionError
  | _ =>
      Ok {| date_range := dm_date_range data_mgr;
            data_freq := dm_data_freq data_mgr;
            convention := dm_convention data_mgr;
            ax_names := ∅;
            calendar := None;
            v := var;
            files :=
              if bool_decide (1 < length (remote_data var))%nat
              then sorted (date_lt rt) date_range_start (remote_data var)
              else remote_data var;
            functions := default_functions ++ functions |}
  end.

Definition _strip (x : attr) : attr :=
  match x with
  | AStr s => AStr (str_strip s)
  | _ => x
  end.

(** [{_strip(k): _strip(v) for k,v in d.items()}] *)
Definition _strip_dict (d : list (string * attr)) : list (string * attr) :=
  foldl (λ acc '(k, x), dict_set (str_strip k) (_strip x) acc) [] d.

Definition strip_array (da : DataArray) : DataArray :=
  {| dims := dims da; attrs := _strip_dict (attrs da); cells := cells da |}.

(** The state of the dataset object after the attribute assignments of
    [parse_cf_wrapper]. *)
Definition strip_attrs (ds : Dataset) : Dataset :=
  {| ds_attrs := _strip_dict (ds_attrs ds);
     coords := prod_map id strip_array <$> coords ds;
     data_vars := prod_map id strip_array <$> data_vars ds |}.

(** [parse_cf_wrapper] assigns to the attributes of its argument and returns
    a new, decoded dataset: the result is the pair of the argument as the
    caller sees it afterwards and of the returned dataset. *)
Definition parse_cf_wrapper (rt : Runtime) (ds : Dataset)
  : result (Dataset * Dataset) :=
  let ds := strip_attrs ds in
  decoded ← decode_cf rt ds;
  Ok (ds, decoded).

(** [_find_var_name]; the second component is the warning printed.  When
    the expected name is not a data variable the function builds
    [dim_lookup] and then evaluates the callee [util.coerce_from_iter],
    before any argument of the call: module [util] defines no such name
    (and imports none with a star), so the attribute lookup raises
    [AttributeError].  Neither [max], nor [inverse_get_], nor the
    [ValueError], nor the warning that follow in the text is reached. *)
Definition _find_var_name (ds : Dataset) (expected_name : string)
  : result (string * option string) :=
  if bool_decide (expected_name ∈ dict_keys (data_vars ds)) then
    Ok (expected_name, None)
  else
    Raise AttributeError.

Definition metpy_attrs : list (string * string) :=
  [("X", "x"); ("Y", "y"); ("Z", "vertical"); ("T", "time")].

(** The loop over [metpy_attrs]: an axis that metpy finds (and whose name is
    not empty) is recorded under its role. *)
Definition lookup_axes (rt : Runtime) (ds : Dataset) (var_name : string)
    (ax : gmap string string) : gmap string string :=
  foldl
    (λ ax '(k, a),
       match metpy_axis rt ds var_name a with
       | Some ax_name =>
           if decide (ax_name = "") then ax else <[ k := ax_name ]> ax
       | None => ax
       end)
    ax metpy_attrs.

(** The elements of [set(dims).difference(list(ax_names.values()))], in
    the order of the dimension listing. *)
Definition unclaimed_dims (dims : list string) (ax : gmap string string)
  : list string :=
  list_difference (remove_dups dims) (map_to_list ax).*2.

(** The same set, in the order in which the loop iterates it. *)
Definition other_axes (rt : Runtime) (dims : list string)
    (ax : gmap string string) : list string :=
  set_iter rt (unclaimed_dims dims ax).

(** [for i, ax_name in enumerate(other_axes): ax_names['W'+str(i)] = ax_name] *)
Definition label_other_axes (others : list string) (ax : gmap string string)
  : gmap string string :=
  foldl (λ ax '(i, ax_name), <[ "W" +:+ pretty (i : nat) := ax_name ]> ax)
    ax (imap pair others).

Definition parse_axes (rt : Runtime) (self : Preprocessor) (ds : Dataset)
  : result Preprocessor :=
  '(var_name, _) ← _find_var_name ds (name_in_model (v self));
  let ax := <[ "var" := var_name ]> (ax_names self) in
  let ax := lookup_axes rt ds var_name ax in
  da ← ds_getitem ds var_name;
  Ok (set_ax_names self (label_other_axes (other_axes rt (dims da) ax) ax)).

(** [_check_backup_location]: [not self.calendar] holds for [None] and for
    the empty string. *)
Definition _check_backup_location (calendar : option string)
    (dict_ : list (string * attr)) : result (option string) :=
  if bool_decide (calendar = None ∨ calendar = Some "") then
    match dict_get "calendar" dict_ with
    | Some (AStr s) => Ok (Some (str_strip (str_lower s)))
    | Some (ANum _) => Raise AttributeError
    | None => Ok calendar
    end
  else Ok calendar.

(** [getattr(x, 'calendar', None)] *)
Definition getattr_calendar (x : scalar) : option string :=
  match x with
  | STime t => dt_calendar t
  | SNum _ => None
  end.

Definition parse_calendar (self : Preprocessor) (ds : Dataset)
  : result Preprocessor :=
  match ax_names self !! "T" with
  | None => Raise KeyError
  | Some time =>
      time_ax ← ds_getitem ds time;
      t0 ← first_item (values time_ax);
      c ← match getattr_calendar t0 with
          | None =>
              c1 ← _check_backup_location None (attrs time_ax);
              c2 ← _check_backup_location c1 (ds_attrs ds);
              _check_backup_location c2 (convention self)
          | Some c => Ok (Some c)
          end;
      match c with
      | None => Raise (ValueError "No calendar info in file.")
      | Some _ => Ok (set_calendar self c)
      end
  end.

(** The calendar a fallback dictionary declares, as [_check_backup_location]
    reads it, and whether its [calendar] entry, if any, is a string. *)
Definition declared_calendar (dict_ : list (string * attr)) : option string :=
  match dict_get "calendar" dict_ with
  | Some (AStr s) => Some (str_strip (str_lower s))
  | _ => None
  end.

Definition calendar_is_str (dict_ : list (string * attr)) : bool :=
  match dict_get "calendar" dict_ with
  | Some (ANum _) => false
  | _ => true
  end.

(** The resolution in the words of the specification: of the sources, taken
    in their order, the first that provides a calendar wins; [provides] says
    which values count as a calendar. *)
Fixpoint first_calendar (provides : string → bool)
    (sources : list (option string)) : option string :=
  match sources with
  | [] => None
  | Some c :: rest =>
      if provides c then Some c else first_calendar provides rest
  | None :: rest => first_calendar provides rest
  end.

Definition any_value (c : string) : bool := true.
Definition nonblank (c : string) : bool := negb (bool_decide (c = "")).

(** The four sources for a dataset whose time axis is [time_ax]. *)
Definition calendar_sources (self : Preprocessor) (ds : Dataset)
    (time_ax : DataArray) (t0 : scalar) : list (option string) :=
  [getattr_calendar t0; declared_calendar (attrs time_ax);
   declared_calendar (ds_attrs ds); declared_calendar (convention self)].

(** The three dictionaries [_check_backup_location] is called on, in the
    order of the calls. *)
Definition fallback_sources (self : Preprocessor) (ds : Dataset)
    (time_ax : DataArray) : list (list (string * attr)) :=
  [attrs time_ax; ds_attrs ds; convention self].

(** A dictionary that [_check_backup_location] reads and leaves the calendar
    unset after: it has no [calendar] entry, or one that is a string and is
    blank once lower-cased and stripped. *)
Definition passed_over (dict_ : list (string * attr)) : Prop :=
  calendar_is_str dict_ = true
  ∧ (declared_calendar dict_ = None ∨ declared_calendar dict_ = Some "").

(** [not self.calendar] *)
Definition pending (c : option string) : Prop := c = None ∨ c = Some "".

(** [parse]: the result is the updated instance and the caller's dataset
    object as [parse_cf_wrapper] leaves it. *)
Definition parse (rt : Runtime) (self : Preprocessor) (xr_dataset : Dataset)
  : result (Preprocessor * Dataset) :=
  '(ds, xr_dataset) ← parse_cf_wrapper rt xr_dataset;
  self ← parse_axes rt self xr_dataset;
  self ← (if bool_decide (is_Some (ax_names self !! "T"))
          then parse_calendar self xr_dataset else Ok self);
  _ ← mapM (λ func, func_parse func xr_dataset self) (functions self);
  Ok (self, ds).

(** [process_static_dataset]: every function is called and its result is
    dropped. *)
Definition process_static_dataset (self : Preprocessor) (xr_dataset : Dataset)
  : result Dataset :=
  _ ← mapM (λ func, func_process_static_dataset func xr_dataset self)
        (functions self);
  Ok xr_dataset.

Definition process_file (rt : Runtime) (self : Preprocessor)
    (xr_dataset : Dataset) : result Dataset :=
  '(_, xr_dataset) ← parse_cf_wrapper rt xr_dataset;
  foldM (λ ds func, func_process_file rt func ds self) (functions self)
    xr_dataset.

Definition process_dataset (rt : Runtime) (self : Preprocessor)
    (xr_dataset : Dataset) : result Dataset :=
  foldM (λ ds func, func_process_dataset rt func ds self) (functions self)
    xr_dataset.

End MDTFPreprocessorBase.

(** *** [SingleFilePreprocessor] *)

Module SingleFilePreprocessor.
Import MDTFPreprocessorBase.

(** [preprocess] up to the call of [to_netcdf]: the instance as updated and
    the dataset to write. *)
Definition prepare (rt : Runtime) (self : Preprocessor) (fs : FS)
  : result (Preprocessor * Dataset) :=
  if bool_decide (length (files self) = 1%nat) then
    f ← first_item (files self);
    ds ← open_dataset fs (local_path f);
    '(self, ds) ← parse rt self ds;
    ds ← (if is_static (var_date_range (v self))
          then process_static_dataset self ds
          else process_file rt self ds ≫= process_dataset rt self);
    Ok (self, ds)
  else Raise AssertionError.

(** [preprocess]: what it raises or the updated instance, and the files
    afterwards. *)
Definition preprocess (rt : Runtime) (self : Preprocessor) (fs : FS)
  : result Preprocessor * FS :=
  match prepare rt self fs with
  | Ok (self', ds) => (Ok self', to_netcdf fs (dest_path (v self')) ds)
  | Raise e => (Raise e, fs)
  end.

End SingleFilePreprocessor.

(** *** [DaskMultiFilePreprocessor] *)

Module DaskMultiFilePreprocessor.
Import MDTFPreprocessorBase.

Definition prepare (rt : Runtime) (self : Preprocessor) (fs : FS)
  : result (Preprocessor * Dataset) :=
  f ← first_item (files self);
  ds ← open_dataset fs (local_path f);
  '(self, ds) ← parse rt self ds;
  ds ← (if is_static (var_date_range (v self)) then
          if bool_decide (length (files self) = 1%nat)
          then process_static_dataset self ds
          else Raise AssertionError
        else
          concat_dim ← match ax_names self !! "T" with
                       | Some t => Ok t
                       | None => Raise KeyError
                       end;
          ds ← open_mfdataset fs (local_path <$> files self) concat_dim
                 (process_file rt self);
          process_dataset rt self ds);
  Ok (self, ds).

Definition preprocess (rt : Runtime) (self : Preprocessor) (fs : FS)
  : result Preprocessor * FS :=
  match prepare rt self fs with
  | Ok (self', ds) => (Ok self', to_netcdf fs (dest_path (v self')) ds)
  | Raise e => (Raise e, fs)
  end.

End DaskMultiFilePreprocessor.

(** [_default_functions] of the two concrete classes. *)
Definition SamplemodeldataPreprocessor_default_functions :=
  [CropDateRange].
Definition MdtfdataPreprocessor_default_functions :=
  [CropDateRange; ExtractLevel].

End preprocessor.

(** ** Concrete inputs

    A runtime in which metpy recognises an axis by the [axis] attribute of a
    coordinate of the variable, pressures are converted by the [units]
    attribute, and sets are iterated in the order given; and small datasets
    in the layouts the pipeline is run on. *)

Module Examples.
Import xr nc preprocessor.

Definition axis_letter (metpy_attr : string) : string :=
  if decide (metpy_attr = "x") then "X"
  else if decide (metpy_attr = "y") then "Y"
  else if decide (metpy_attr = "vertical") then "Z"
  else if decide (metpy_attr = "time") then "T"
  else "".

Definition axis_by_attr (ds : Dataset) (var_name metpy_attr : string)
  : option string :=
  match dict_get var_name (variables ds) with
  | None => None
  | Some da =>
      head (filter
              (λ d, (dict_get d (coords ds) ≫= λ c, dict_get "axis" (attrs c))
                    = Some (AStr (axis_letter metpy_attr)))
              (dims da))
  end.

Definition hPa_by_units (a : list (string * attr)) (p : Z) : Z :=
  if decide (dict_get "units" a = Some (AStr "Pa")) then 100 * p else p.

Definition lower_lt (a b : FuzzyDate) : bool := dt_lt (lower a) (lower b).

(** The dates of the calendars without leap years, with 30-day months and
    of the Gregorian calendar; a date without a calendar is not checked. *)
Definition days_in_month (leap : bool) (m : Z) : Z :=
  if decide (m = 2) then (if leap then 29 else 28)
  else if bool_decide (m ∈ [4; 6; 9; 11]) then 30 else 31.

Definition is_leap (y : Z) : bool :=
  bool_decide (y mod 4 = 0 ∧ (y mod 100 ≠ 0 ∨ y mod 400 = 0)).

Definition month_length (calendar : string) (y m : Z) : option Z :=
  if bool_decide (calendar ∈ ["noleap"; "365_day"])
  then Some (days_in_month false m)
  else if bool_decide (calendar = "360_day") then Some 30
  else if bool_decide (calendar ∈ ["standard"; "gregorian";
                                   "proleptic_gregorian"])
  then Some (days_in_month (is_leap y) m)
  else None.

Definition date_in_calendar (calendar : option string)
    (y m d hh mm ss : Z) : bool :=
  match calendar with
  | None => true
  | Some c =>
      match month_length c y m with
      | Some n =>
          bool_decide ((1 ≤ m ≤ 12)%Z ∧ (1 ≤ d ≤ n)%Z
                       ∧ (0 ≤ hh < 24)%Z ∧ (0 ≤ mm < 60)%Z
                       ∧ (0 ≤ ss < 60)%Z)
      | None => false
      end
  end.

Definition cftime_by_calendar (tt : list Z) (calendar : option string)
  : result datetime :=
  match tt with
  | [y; m; d; hh; mm; ss] =>
      if date_in_calendar calendar y m d hh mm ss
      then Ok (mk_datetime y m d hh mm ss calendar)
      else Raise (ValueError "invalid date for the calendar")
  | _ => Raise TypeError
  end.

Definition rt_with (order : list string → list string) : Runtime :=
  {| decode_cf := Ok;
     metpy_axis := axis_by_attr;
     hPa_to_axis_units := hPa_by_units;
     set_iter := order;
     date_lt := lower_lt;
     cftime_datetime := cftime_by_calendar |}.

Definition rt0 : Runtime := rt_with id.
Definition rt_rev : Runtime := rt_with reverse.

Definition date (y m d : Z) : datetime :=
  mk_datetime y m d 0 0 0 None.
Definition cfdate (y m d : Z) : scalar :=
  STime (mk_datetime y m d 0 0 0 (Some "noleap")).

Definition year (y : Z) : FuzzyDate :=
  {| lower := date y 1 1; upper := mk_datetime y 12 31 23 59 59 None |}.

Definition range_2000 : DateRange :=
  {| start := year 2000; end_ := year 2000; is_static := false |}.
Definition static_range : DateRange :=
  {| start := year 2000; end_ := year 2000; is_static := true |}.

(** A coordinate array: every cell is labelled by its own value. *)
Definition coord (name : string) (a : list (string * attr))
    (l : list scalar) : string * DataArray :=
  (name, {| dims := [name]; attrs := a; cells := (λ x, ([x], x)) <$> l |}).

Definition times_99_01 : list scalar :=
  [cfdate 1999 6 1; cfdate 2000 1 1; cfdate 2000 7 1; cfdate 2000 12 31;
   cfdate 2001 6 1].

(** [tas(time)] from 1999-06-01 to 2001-06-01; one attribute is padded. *)
Definition ds_tas : Dataset :=
  {| ds_attrs := [("title", AStr " sample ")];
     coords := [coord "time" [("axis", AStr "T")] times_99_01];
     data_vars :=
       [("tas", {| dims := ["time"]; attrs := [("units", AStr "K ")];
                   cells := imap (λ i t, ([t], SNum (280 + Z.of_nat i)))
                              times_99_01 |})] |}.

(** A [MultiMap]: [a] and [c] have one value, [b] has two; [1] is a value
    of two keys, [3] of one. *)
Definition mm : gmap string (gset nat) :=
  <[ "a" := {[ 1%nat ]} ]>
    (<[ "b" := {[ 1%nat; 2%nat ]} ]> (<[ "c" := {[ 3%nat ]} ]> ∅)).

Definition array_of_rank (ds : list string) : DataArray :=
  {| dims := ds; attrs := []; cells := [] |}.

(** Data variables of ranks 1 and 3, and of ranks 3, 1 and 3. *)
Definition ds_ranks : Dataset :=
  {| ds_attrs := []; coords := [];
     data_vars := [("ps", array_of_rank ["time"]);
                   ("ua", array_of_rank ["time"; "lat"; "lon"])] |}.

Definition ds_tie : Dataset :=
  {| ds_attrs := []; coords := [];
     data_vars := [("ua", array_of_rank ["time"; "lat"; "lon"]);
                   ("ps", array_of_rank ["time"]);
                   ("va", array_of_rank ["time"; "lat"; "lon"])] |}.

(** A sample-data run: one file holding [ds_tas], one function. *)
Definition file_tas : RemoteFile :=
  {| local_path := "in/tas.nc";
     file_date_range :=
       {| start := year 1999; end_ := year 2001; is_static := false |} |}.

Definition fs_tas : FS := {[ "in/tas.nc" := ds_tas ]}.

Definition var_tas (dr : DateRange) (fl : list RemoteFile) : VarDesc :=
  {| name_in_model := "tas"; scalar_coordinates := None;
     remote_data := fl; dest_path := "out/tas.nc"; var_date_range := dr |}.

(** The instance as [__init__] builds it. *)
Definition new_tas (dr : DateRange) (fl : list RemoteFile)
    (fns : list PreprocessorFunction) : Preprocessor :=
  {| date_range := dr; data_freq := "mon"; convention := [];
     ax_names := ∅; calendar := None; v := var_tas dr fl;
     files := fl; functions := fns |}.

(** The instance after [parse] on [ds_tas]. *)
Definition parsed_tas (dr : DateRange) (fl : list RemoteFile)
    (fns : list PreprocessorFunction) : Preprocessor :=
  set_calendar
    (set_ax_names (new_tas dr fl fns) (<[ "T" := "time" ]> {[ "var" := "tas" ]}))
    (Some "noleap").


Definition time_axis_tas : DataArray :=
  (coord "time" [("axis", AStr "T")] times_99_01).2.

(** [ds_tas] as the caller of [parse_cf_wrapper] sees it afterwards. *)
Definition ds_tas_stripped : Dataset :=
  MDTFPreprocessorBase.strip_attrs ds_tas.

(** [ds_tas_stripped] cropped to the year 2000. *)
Definition ds_tas_2000 : Dataset :=
  {| ds_attrs := [("title", AStr "sample")];
     coords :=
       [("time",
         {| dims := ["time"]; attrs := [("axis", AStr "T")];
            cells := [([cfdate 2000 1 1], cfdate 2000 1 1);
                      ([cfdate 2000 7 1], cfdate 2000 7 1);
                      ([cfdate 2000 12 31], cfdate 2000 12 31)] |})];
     data_vars :=
       [("tas",
         {| dims := ["time"]; attrs := [("units", AStr "K")];
            cells := [([cfdate 2000 1 1], SNum 281);
                      ([cfdate 2000 7 1], SNum 282);
                      ([cfdate 2000 12 31], SNum 283)] |})] |}.

(** [temp(lev)] on three pressure levels given in Pa. *)
Definition levels_Pa : list scalar := [SNum 85000; SNum 50000; SNum 25000].

Definition ds_temp : Dataset :=
  {| ds_attrs := [];
     coords := [coord "lev" [("axis", AStr "Z"); ("units", AStr "Pa")]
                  levels_Pa];
     data_vars :=
       [("temp", {| dims := ["lev"]; attrs := [];
                    cells := imap (λ i l, ([l], SNum (250 + Z.of_nat i)))
                               levels_Pa |})] |}.

(** [ds_temp] at 500 hPa: [temp500] is the value at 50000 Pa, and [lev] is
    left as a scalar coordinate. *)
Definition ds_temp500 : Dataset :=
  {| ds_attrs := [];
     coords := [("lev", {| dims := [];
                           attrs := [("axis", AStr "Z"); ("units", AStr "Pa")];
                           cells := [([], SNum 50000)] |})];
     data_vars :=
       [("temp500", {| dims := []; attrs := []; cells := [([], SNum 251)] |})]
  |}.

Definition self_temp (sc : option (list (string * Z))) : Preprocessor :=
  {| date_range := range_2000; data_freq := "mon"; convention := [];
     ax_names := <[ "Z" := "lev" ]> {[ "var" := "temp" ]};
     calendar := None;
     v := {| name_in_model := "temp"; scalar_coordinates := sc;
             remote_data := []; dest_path := "out/temp.nc";
             var_date_range := range_2000 |};
     files := []; functions := [CropDateRange; ExtractLevel] |}.

(** Time axes whose values have no [calendar] attribute.  In [ds_cal_a] the
    time variable has a blank [calendar] attribute and the global attributes
    name a calendar; in [ds_cal_b] the blank attribute is all there is. *)
Definition plain_times : list scalar :=
  [STime (date 2000 1 1); STime (date 2000 2 1)].

Definition time_axis_blank : DataArray :=
  (coord "time" [("calendar", AStr " ")] plain_times).2.

Definition ds_cal_a : Dataset :=
  {| ds_attrs := [("calendar", AStr "NoLeap")];
     coords := [("time", time_axis_blank)];
     data_vars := [] |}.

Definition ds_cal_b : Dataset :=
  {| ds_attrs := []; coords := [("time", time_axis_blank)];
     data_vars := [] |}.

(** A dataset with its global attributes replaced by a single [calendar]
    entry. *)
Definition with_global_calendar (c : attr) (ds : Dataset) : Dataset :=
  {| ds_attrs := [("calendar", c)]; coords := coords ds;
     data_vars := data_vars ds |}.

Definition self_cal : Preprocessor :=
  set_ax_names (new_tas range_2000 [file_tas] [CropDateRange])
    {[ "T" := "time" ]}.

(** A second file for [tas], and the two files on disk. *)
Definition file_tas_b : RemoteFile :=
  {| local_path := "in/tas_b.nc";
     file_date_range :=
       {| start := year 2002; end_ := year 2003; is_static := false |} |}.

Definition fs_two : FS := <[ "in/tas_b.nc" := ds_tas ]> fs_tas.

(** [rad(time, wavelength, band)]: two dimensions that metpy does not
    classify. *)
Definition ds_rad : Dataset :=
  {| ds_attrs := [];
     coords := [coord "time" [("axis", AStr "T")] times_99_01;
                coord "wavelength" [] [SNum 1; SNum 2];
                coord "band" [] [SNum 1; SNum 2]];
     data_vars :=
       [("rad", array_of_rank ["time"; "wavelength"; "band"])] |}.

Definition self_rad : Preprocessor :=
  {| date_range := range_2000; data_freq := "mon"; convention := [];
     ax_names := ∅; calendar := None;
     v := {| name_in_model := "rad"; scalar_coordinates := None;
             remote_data := []; dest_path := "out/rad.nc";
             var_date_range := range_2000 |};
     files := []; functions := [] |}.

Definition data_mgr_2000 : DataManager :=
  {| dm_date_range := range_2000; dm_data_freq := "mon";
     dm_convention := [] |}.

(** A later file for [tas]: the same attributes and arrays as [ds_tas]
    after stripping, on later dates; and one with another title. *)
Definition times_02_03 : list scalar :=
  [cfdate 2002 1 1; cfdate 2003 1 1].

Definition ds_tas_later : Dataset :=
  {| ds_attrs := [("title", AStr "sample")];
     coords := [coord "time" [("axis", AStr "T")] times_02_03];
     data_vars :=
       [("tas", {| dims := ["time"]; attrs := [("units", AStr "K")];
                   cells := imap (λ i t, ([t], SNum (290 + Z.of_nat i)))
                              times_02_03 |})] |}.

Definition ds_tas_other : Dataset :=
  {| ds_attrs := [("title", AStr "another run")];
     coords := coords ds_tas_later;
     data_vars := data_vars ds_tas_later |}.

Definition fs_merge : FS := <[ "in/tas_b.nc" := ds_tas_other ]> fs_tas.

(** [tas(time, x)] at one date, [x] having no coordinate, and [area(x)]:
    the points along [x], the units of [tas], the values of [area] and
    further data variables are given. *)
Definition ds_tx (xs : list Z) (tas_units : string) (area : Z)
    (more : list (string * DataArray)) : Dataset :=
  {| ds_attrs := [("title", AStr "sample")];
     coords := [coord "time" [("axis", AStr "T")] [cfdate 2000 1 1]];
     data_vars :=
       [("tas", {| dims := ["time"; "x"];
                   attrs := [("units", AStr tas_units)];
                   cells := (λ x, ([cfdate 2000 1 1; SNum x], SNum (280 + x)))
                              <$> xs |});
        ("area", {| dims := ["x"]; attrs := [];
                    cells := (λ x, ([SNum x], SNum area)) <$> [0; 1] |})]
       ++ more |}.

Definition fs_later : FS := <[ "in/tas_b.nc" := ds_tas_later ]> fs_tas.

(** [ds_tas_stripped] and [ds_tas_later] merged along [time]. *)
Definition ds_tas_merged : Dataset :=
  {| ds_attrs := [("title", AStr "sample")];
     coords :=
       [coord "time" [("axis", AStr "T")] (times_99_01 ++ times_02_03)];
     data_vars :=
       [("tas",
         {| dims := ["time"]; attrs := [("units", AStr "K")];
            cells := [([cfdate 1999 6 1], SNum 280);
                      ([cfdate 2000 1 1], SNum 281);
                      ([cfdate 2000 7 1], SNum 282);
                      ([cfdate 2000 12 31], SNum 283);
                      ([cfdate 2001 6 1], SNum 284);
                      ([cfdate 2002 1 1], SNum 290);
                      ([cfdate 2003 1 1], SNum 291)] |})] |}.

(** [mm] with one more key, whose set is empty. *)
Definition mm_empty : gmap string (gset nat) := <[ "e" := ∅ ]> mm.

(** The tables of a translator that knows one convention besides CF: the
    CF name [pr_var] is [PRECT] there, and [ua_var] is [U] or [U200]. *)
Definition var_names_CESM : gmap string (gset string) :=
  util.MultiMap
    (<[ "pr_var" := util.AScalar "PRECT" ]>
       (<[ "ua_var" := util.AnIterable ["U"; "U200"] ]> ∅)).

Definition field_dict : gmap string (gmap string (gset string)) :=
  <[ "CF" := ∅ ]> (<[ "CESM" := var_names_CESM ]> ∅).

(** A construction that refuses the argument 0. *)
Definition construct_positive (n : nat) : result nat :=
  if decide (n = 0%nat) then Raise AssertionError else Ok n.

(** A file system that is the log of the directories removed, and the
    collaborators of [PathManager] on it. *)
Definition rmtree_log (d : string) (w : list string) : result (list string) :=
  Ok (w ++ [d])%list.

Definition new_dir_named (hash_obj : option string) (w : list string)
  : result (string * list string) :=
  Ok ("/tmp/MDTF_temp_" +:+ default "0" hash_obj, w).

Definition paths_abc : util.PathManager.t :=
  {| util.PathManager.roots := [];
     util.PathManager._temp_dirs :=
       ["/tmp/MDTF_temp_a"; "/tmp/MDTF_temp_b"; "/tmp/MDTF_temp_c"] |}.

(** [os.path] on POSIX paths that need no normalising, and a working
    directory. *)
Definition isabs_posix (s : string) : bool :=
  match s with
  | String "/" _ => true
  | _ => false
  end.

Definition join_posix (a b : string) : string := a +:+ "/" +:+ b.

Definition cwd : string := "/home/mdtf".

(** The options of a run: defaults, and a command line that sets a path, a
    setting, the case and an option the defaults do not have. *)
Definition defaults : util.Config :=
  {| util.paths := [("CODE_ROOT", util.VStr "/code");
                    ("OBS_DATA_ROOT", util.VStr "inputdata/obs_data")];
     util.settings := [("verbose", util.VInt 1);
                       ("make_variab_tar", util.VBool true)];
     util.case_list := None |}.

Definition cmdline : gmap string util.pyval :=
  <[ "OBS_DATA_ROOT" := util.VStr "obs" ]>
    (<[ "verbose" := util.VInt 2 ]>
       (<[ "CASENAME" := util.VStr "QBOi" ]>
          (<[ "model" := util.VNone ]>
             (<[ "CASE_ROOT_DIR" := util.VStr "/data" ]>
                (<[ "frepp" := util.VBool false ]> ∅))))).

Definition frepp_opts : gmap string util.pyval :=
  <[ "verbose" := util.VInt 3 ]> ∅.

Definition case_QBOi : gmap string util.pyval :=
  <[ "CASENAME" := util.VStr "QBOi" ]>
    (<[ "model" := util.VNone ]>
       (<[ "variable_convention" := util.VStr "CMIP_GFDL" ]>
          (<[ "root_dir" := util.VStr "/data" ]> ∅))).

(** Nested values: a plain one, and the same with [Namespace]s. *)
Definition settings_plain : util.Namespace.pyobj :=
  util.Namespace.Dict util.Namespace.PlainDict
    [("verbose", util.Namespace.Atom (util.VInt 1));
     ("pods",
      util.Namespace.PyList
        [util.Namespace.Dict util.Namespace.PlainDict
           [("name", util.Namespace.Atom (util.VStr "MJO"))]])].

(** A [repr] for integers and strings, and the rule of [namedtuple] that a
    field name does not start with an underscore. *)
Definition repr_atom (x : util.Namespace.pyobj) : string :=
  match x with
  | util.Namespace.Atom (util.VInt n) => pretty n
  | util.Namespace.Atom (util.VStr s) => "'" +:+ s +:+ "'"
  | _ => "..."
  end.

Definition no_underscore (names : list string) : option string :=
  if forallb (λ n, match n with String "_" _ => false | _ => true end) names
  then None
  else Some "Field names cannot start with an underscore".

(** The items a variable is described by, and [DateFrequency] as the
    identity. *)
Definition kwargs_pr : gmap string util.Namespace.pyobj :=
  <[ "var_name" := util.Namespace.Atom (util.VStr "pr") ]>
    (<[ "freq" := util.Namespace.Atom (util.VStr "mon") ]> ∅).

End Examples.

(** * Properties *)

(** ** The inverse of a [MultiMap] *)

Section inverse_facts.
Context {K V : Type} `{Countable K} `{Countable V}.
Implicit Types (m : gmap K (gset V)) (k : K) (v : V).

Lemma inverse_inner_lookup k (s : gset V) (d : gmap V (gset K)) v k' :
  k' ∈ default ∅
    (set_fold (λ v d, <[ v := {[ k ]} ∪ default ∅ (d !! v) ]> d) d s !! v)
  ↔ (k' = k ∧ v ∈ s) ∨ k' ∈ default ∅ (d !! v).
Proof.
  apply (set_fold_ind_L
    (λ r X, k' ∈ default ∅ (r !! v) ↔ (k' = k ∧ v ∈ X) ∨ k' ∈ default ∅ (d !! v))).
  - set_solver.
  - intros x X r Hx IH. destruct (decide (x = v)) as [->|Hne].
    + rewrite lookup_insert_eq. simpl. set_solver.
    + rewrite lookup_insert_ne by done. set_solver.
Qed.

Lemma elem_of_inverse m k v :
  k ∈ default ∅ (util.inverse m !! v) ↔ util.maps_to m k v.
Proof.
  unfold util.inverse, util.maps_to.
  apply (map_fold_weak_ind
    (λ r m, k ∈ default ∅ (r !! v) ↔ ∃ s, m !! k = Some s ∧ v ∈ s)).
  - rewrite lookup_empty. simpl. split; [set_solver|].
    intros (s & Hs & _). by rewrite lookup_empty in Hs.
  - clear m. intros i x m r Hi IH. rewrite inverse_inner_lookup, IH.
    split.
    + intros [[-> Hv]|(s & Hs & Hv)].
      * exists x. by rewrite lookup_insert_eq.
      * exists s. rewrite lookup_insert_ne; [done|]. congruence.
    + intros (s & Hs & Hv). destruct (decide (i = k)) as [->|Hne].
      * rewrite lookup_insert_eq in Hs. left. naive_solver.
      * rewrite lookup_insert_ne in Hs by done. right. eauto.
Qed.

End inverse_facts.

(** ** [MultiMap] lookups: the shape of the result follows the number of
    matches *)

Section MultiMap_facts.
Context {K V : Type} `{Countable K} `{Countable V}.
Implicit Types (m : gmap K (gset V)) (k : K) (v : V).

Lemma unwrap_single_many {A} (l : list A) :
  length l ≠ 1%nat → unwrap_single l = Many l.
Proof. destruct l as [|x [|y l]]; simpl; done. Qed.

Lemma unwrap_single_set {A} `{Countable A} (s : gset A) :
  size s ≠ 1%nat → unwrap_single (elements s) = Many (elements s).
Proof. intros Hs. by apply unwrap_single_many. Qed.

(** The set [inverse_get_] reads is the set of keys that map to [v]. *)
Lemma inverse_lookup_Some m v k :
  util.maps_to m k v →
  ∃ s, util.inverse m !! v = Some s ∧ ∀ k', k' ∈ s ↔ util.maps_to m k' v.
Proof.
  intros Hk. apply elem_of_inverse in Hk.
  destruct (util.inverse m !! v) as [s|] eqn:Hs; simpl in Hk.
  - exists s. split; [done|]. intros k'.
    rewrite <- elem_of_inverse, Hs. done.
  - set_solver.
Qed.

Lemma inverse_get_unique m v k1 :
  (∀ k', util.maps_to m k' v ↔ k' = k1) →
  util.inverse_get_ m v = Ok (One k1).
Proof.
  intros Huniq. destruct (inverse_lookup_Some m v k1) as (s & Hs & Hmem).
  { by apply Huniq. }
  unfold util.inverse_get_. rewrite Hs.
  assert (s = {[ k1 ]}) as ->.
  { apply set_eq. intros k'. rewrite Hmem, Huniq. set_solver. }
  by rewrite elements_singleton.
Qed.

Lemma inverse_get_several m v k1 k2 :
  k1 ≠ k2 → util.maps_to m k1 v → util.maps_to m k2 v →
  ∃ l, util.inverse_get_ m v = Ok (Many l) ∧ NoDup l
       ∧ ∀ k', k' ∈ l ↔ util.maps_to m k' v.
Proof.
  intros Hne H1 H2. destruct (inverse_lookup_Some m v k1) as (s & Hs & Hmem);
    [done|].
  exists (elements s). unfold util.inverse_get_. rewrite Hs.
  split; [|split].
  - f_equal. apply unwrap_single_set.
    assert ({[ k1; k2 ]} ⊆ s) as Hsub.
    { intros k'. rewrite Hmem. set_solver. }
    apply subseteq_size in Hsub.
    rewrite size_union, !size_singleton in Hsub by set_solver. lia.
  - apply NoDup_elements.
  - intros k'. by rewrite elem_of_elements.
Qed.
End MultiMap_facts.

(** C10. For a key [k] of the map with value set [s], [get_] returns the
    sole element when [s] is a singleton and the list of the elements of [s]
    otherwise, and raises [KeyError] when [k] is not a key.  [inverse_get_]
    returns the key when exactly one key maps to [v], and the list of the keys
    that map to [v] when two or more do. *)
Theorem MultiMap_get_shapes {K V : Type} `{Countable K} `{Countable V}
    (m : gmap K (gset V)) (k : K) (v : V) :
  (∀ s, m !! k = Some s →
     (∀ x, s = {[ x ]} → util.get_ m k = Ok (One x))
     ∧ (size s ≠ 1%nat → util.get_ m k = Ok (Many (elements s))))
  ∧ (m !! k = None → util.get_ m k = Raise KeyError)
  ∧ (∀ k1, (∀ k', util.maps_to m k' v ↔ k' = k1) →
       util.inverse_get_ m v = Ok (One k1))
  ∧ (∀ k1 k2, k1 ≠ k2 → util.maps_to m k1 v → util.maps_to m k2 v →
       ∃ l, util.inverse_get_ m v = Ok (Many l) ∧ NoDup l
            ∧ ∀ k', k' ∈ l ↔ util.maps_to m k' v).
Proof.
  split; [|split; [|split]].
  - intros s Hk. unfold util.get_. rewrite Hk. split.
    + intros x ->. by rewrite elements_singleton.
    + intros Hs. f_equal. by apply unwrap_single_set.
  - intros Hk. unfold util.get_. by rewrite Hk.
  - apply inverse_get_unique.
  - apply inverse_get_several.
Qed.

(** ** Variable-name resolution *)

(** C3. [_find_var_name] returns the expected name, without a warning, when
    it is among the data variables.  When it is not, the call raises
    [AttributeError], whatever the ranks of the data variables are: with one
    variable of greatest rank ([ds_ranks]) nothing is returned and no warning
    is printed, and with two variables sharing the greatest rank ([ds_tie])
    the error is not [ValueError("Couldn't determine var")]. *)
Theorem find_var_name_raises (ds : xr.Dataset) (expected : string) :
  (expected ∈ dict_keys (xr.data_vars ds) →
     preprocessor.MDTFPreprocessorBase._find_var_name ds expected
     = Ok (expected, None))
  ∧ (expected ∉ dict_keys (xr.data_vars ds) →
     preprocessor.MDTFPreprocessorBase._find_var_name ds expected
     = Raise AttributeError)
  ∧ preprocessor.MDTFPreprocessorBase._find_var_name Examples.ds_ranks "tos"
    = Raise AttributeError
  ∧ preprocessor.MDTFPreprocessorBase._find_var_name Examples.ds_tie "tos"
    = Raise AttributeError.
Proof.
  unfold preprocessor.MDTFPreprocessorBase._find_var_name. split_and!.
  - intros Hin. by rewrite bool_decide_eq_true_2.
  - intros Hnot. by rewrite bool_decide_eq_false_2.
  - reflexivity.
  - reflexivity.
Qed.

(** ** Cropping the time axis *)

Section sel_slice_facts.
Import xr.















End sel_slice_facts.

Section crop_time_range.
Import xr nc preprocessor MDTFPreprocessorBase.
Import CropDateRangeFunction (crop_time_axis, cast_to_cftime, dt_start_lower,
  dt_start_upper, dt_end_lower, dt_end_upper, start_error, end_error).



End crop_time_range.


(** ** Extracting a pressure level *)

Section extract_level.
Import xr nc preprocessor.
Import ExtractLevelFunction (extract_level, select_and_rename, metpy_sel,
  level_error).

Lemma rename_not_KeyError ds old new : rename ds old new ≠ Raise KeyError.
Proof. unfold rename. repeat case_bool_decide; done. Qed.

Lemma dict_keys_map_arrays (f : DataArray → DataArray) ds :
  dict_keys (variables (map_arrays f ds)) = dict_keys (variables ds).
Proof.
  unfold dict_keys, variables, map_arrays. simpl.
  rewrite !fmap_app, <- !list_fmap_compose. f_equal;
    by apply list_fmap_ext; intros ? [??].
Qed.

(** [extract_level] when it applies and the vertical coordinate is in the
    dataset. *)
Lemma extract_level_eval rt ds self z p var axis :
  ax_names self !! "Z" = Some z →
  scalar_coordinates (v self) ≫= dict_get "pressure" = Some p →
  ax_names self !! "var" = Some var →
  dict_get z (coords ds) = Some axis →
  extract_level rt ds self
  = if bool_decide (SNum (hPa_to_axis_units rt (attrs axis) p) ∈ values axis)
    then rename
           (map_arrays
              (array_sel_exact z (SNum (hPa_to_axis_units rt (attrs axis) p)))
              ds)
           var (var +:+ pretty p)
    else Raise level_error.
Proof.
  intros HZ Hp Hvar Hax. unfold extract_level. rewrite HZ, Hp.
  unfold select_and_rename, metpy_sel, sel_exact, getitem.
  rewrite Hax. simpl.
  case_bool_decide; simpl; [|done]. rewrite Hvar.
  pose proof (rename_not_KeyError
    (map_arrays (array_sel_exact z (SNum (hPa_to_axis_units rt (attrs axis) p))) ds)
    var (var +:+ pretty p)) as Hne.
  by destruct (rename _ _ _) as [|[]].
Qed.

Lemma dict_keys_prod_map {A B} (g : string → string) (f : A → B)
    (l : list (string * A)) :
  dict_keys (prod_map g f <$> l) = g <$> dict_keys l.
Proof.
  unfold dict_keys. rewrite <- !list_fmap_compose.
  by apply list_fmap_ext; intros ? [??].
Qed.

Lemma dict_get_prod_map_id {A B} (f : A → B) (l : list (string * A)) k :
  dict_get k (prod_map id f <$> l) = f <$> dict_get k l.
Proof.
  induction l as [|[k' x] l IH]; [done|]. simpl. by case_decide.
Qed.

Lemma dict_get_renamed {A B} (f : A → B) (l : list (string * A)) old new :
  new ∉ dict_keys l →
  dict_get new (prod_map (rename_key old new) f <$> l) = f <$> dict_get old l.
Proof.
  unfold dict_keys. induction l as [|[k x] l IH]; [done|].
  rewrite fmap_cons, not_elem_of_cons. simpl. intros [Hne Hnot].
  destruct (decide (k = old)) as [->|Hk].
  - assert (rename_key old new old = new) as ->
      by (unfold rename_key; by rewrite decide_True).
    by rewrite !decide_True.
  - assert (rename_key old new k = k) as ->
      by (unfold rename_key; by rewrite decide_False).
    rewrite !decide_False by done. by apply IH.
Qed.

Lemma renamed_keys_fresh (ks : list string) old new :
  old ≠ new → old ∉ rename_key old new <$> ks.
Proof.
  intros Hne (k & Hk & _)%list_elem_of_fmap. unfold rename_key in Hk.
  by case_decide; subst.
Qed.

(** The array of the extracted variable. *)
Lemma extract_level_array rt ds self z p var axis
    (level := SNum (hPa_to_axis_units rt (attrs axis) p))
    (new := var +:+ pretty p) :
  ax_names self !! "Z" = Some z →
  scalar_coordinates (v self) ≫= dict_get "pressure" = Some p →
  ax_names self !! "var" = Some var →
  dict_get z (coords ds) = Some axis →
  level ∈ values axis →
  var ∈ dict_keys (data_vars ds) →
  new ∉ dict_keys (variables ds) →
  ∃ out,
    extract_level rt ds self = Ok out
    ∧ ds_attrs out = ds_attrs ds
    ∧ dict_keys (data_vars out)
      = (λ n, if decide (n = var) then new else n) <$> dict_keys (data_vars ds)
    ∧ dict_keys (coords out)
      = (λ n, if decide (n = var) then new else n) <$> dict_keys (coords ds)
    ∧ (var ∉ dict_keys (variables out))
    ∧ ∀ da, dict_get var (data_vars ds) = Some da →
        ∃ da', dict_get new (data_vars out) = Some da'
          ∧ attrs da' = attrs da
          ∧ match dim_index z da with
            | None =>
                dims da' = (λ n, if decide (n = var) then new else n)
                             <$> dims da
                ∧ cells da' = cells da
            | Some i =>
                dims da' = (λ n, if decide (n = var) then new else n)
                             <$> (take i (dims da) ++ drop (S i) (dims da))%list
                ∧ cells da'
                  = (λ c, ((take i c.1 ++ drop (S i) c.1)%list, c.2))
                      <$> filter (λ c, c.1 !! i = Some level) (cells da)
            end.
Proof.
  intros HZ Hp Hvar Hax Hin Hvar_in Hnew.
  assert (var ≠ new) as Hne.
  { intros Heq. apply Hnew. rewrite <- Heq. unfold variables, dict_keys.
    rewrite fmap_app, elem_of_app. by right. }
  assert (new ∉ dict_keys (data_vars ds)) as Hnew_d.
  { intros Hd. apply Hnew. unfold variables, dict_keys.
    rewrite fmap_app, elem_of_app. by right. }
  eexists. split.
  { rewrite (extract_level_eval rt ds self z p var axis) by done.
    rewrite bool_decide_eq_true_2 by done. unfold rename.
    rewrite dict_keys_map_arrays.
    rewrite bool_decide_eq_true_2, bool_decide_eq_false_2; [done..|].
    unfold variables, dict_keys. rewrite fmap_app, elem_of_app. by right. }
  fold level. fold new. unfold renamed, map_arrays. simpl.
  split; [done|]. split; [|split; [|split]].
  - rewrite !dict_keys_prod_map. by rewrite list_fmap_id.
  - rewrite !dict_keys_prod_map. by rewrite list_fmap_id.
  - unfold variables. simpl. rewrite <- fmap_app, dict_keys_prod_map.
    by apply renamed_keys_fresh.
  - intros da Hda. rewrite dict_get_renamed.
    2:{ by rewrite dict_keys_prod_map, list_fmap_id. }
    rewrite dict_get_prod_map_id, Hda. simpl. eexists. split; [done|].
    unfold array_sel_exact, array_rename, drop_nth.
    by destruct (dim_index z da).
Qed.
End extract_level.

(** C5. [ExtractLevelFunction.extract_level] returns the dataset as it is
    when [ax_names] has no [Z] or the descriptor has no scalar coordinate
    [pressure].  When it applies, it raises [DataPreprocessError] (the spec's
    LevelNotFoundError) exactly when the requested level, in the units of the
    vertical coordinate, is not one of the coordinate's values, or the
    coordinate is not in the dataset: nothing is interpolated.  When the level
    is there, the result is [rename] applied to the selection at that level;
    [rename] succeeds when the variable is in the dataset and the new name is
    free, and the new name is the old one followed by the decimal digits of
    the level.  The output then has no variable of the old name; its names
    are those of the input with the old name replaced by the new one; and
    the array under the new name has the attributes of the input array, its
    dimensions without the vertical one, and the cells of the input array
    at the level, their vertical label removed.  The extraction is what
    [process_file] does; [process_dataset] and [process_static_dataset]
    return their argument. *)
Theorem extract_level_behaviour (rt : preprocessor.Runtime) (ds : xr.Dataset)
    (self : preprocessor.Preprocessor) :
  (preprocessor.ax_names self !! "Z" = None
   ∨ preprocessor.scalar_coordinates (preprocessor.v self)
       ≫= dict_get "pressure" = None →
   preprocessor.ExtractLevelFunction.extract_level rt ds self = Ok ds)
  ∧ (∀ z p var,
       preprocessor.ax_names self !! "Z" = Some z →
       preprocessor.scalar_coordinates (preprocessor.v self)
         ≫= dict_get "pressure" = Some p →
       preprocessor.ax_names self !! "var" = Some var →
       (dict_get z (xr.coords ds) = None →
        preprocessor.ExtractLevelFunction.extract_level rt ds self
        = Raise preprocessor.ExtractLevelFunction.level_error)
       ∧ ∀ axis,
           dict_get z (xr.coords ds) = Some axis →
           let level :=
             xr.SNum (preprocessor.hPa_to_axis_units rt (xr.attrs axis) p) in
           let selected := xr.map_arrays (xr.array_sel_exact z level) ds in
           (preprocessor.ExtractLevelFunction.extract_level rt ds self
            = Raise preprocessor.ExtractLevelFunction.level_error
            ↔ level ∉ xr.values axis)
           ∧ (level ∈ xr.values axis →
              preprocessor.ExtractLevelFunction.extract_level rt ds self
              = xr.rename selected var (var +:+ pretty p))
           ∧ (level ∈ xr.values axis →
              var ∈ dict_keys (xr.variables ds) →
              var +:+ pretty p ∉ dict_keys (xr.variables ds) →
              preprocessor.ExtractLevelFunction.extract_level rt ds self
              = Ok (xr.renamed selected var (var +:+ pretty p)))
           ∧ (level ∈ xr.values axis →
              var ∈ dict_keys (xr.data_vars ds) →
              var +:+ pretty p ∉ dict_keys (xr.variables ds) →
              ∃ out,
                preprocessor.ExtractLevelFunction.extract_level rt ds self
                = Ok out
                ∧ xr.ds_attrs out = xr.ds_attrs ds
                ∧ dict_keys (xr.data_vars out)
                  = (λ n, if decide (n = var) then var +:+ pretty p else n)
                      <$> dict_keys (xr.data_vars ds)
                ∧ dict_keys (xr.coords out)
                  = (λ n, if decide (n = var) then var +:+ pretty p else n)
                      <$> dict_keys (xr.coords ds)
                ∧ (var ∉ dict_keys (xr.variables out))
                ∧ ∀ da, dict_get var (xr.data_vars ds) = Some da →
                    ∃ da',
                      dict_get (var +:+ pretty p) (xr.data_vars out)
                      = Some da'
                      ∧ xr.attrs da' = xr.attrs da
                      ∧ match xr.dim_index z da with
                        | None =>
                            xr.dims da'
                            = (λ n, if decide (n = var)
                                    then var +:+ pretty p else n)
                                <$> xr.dims da
                            ∧ xr.cells da' = xr.cells da
                        | Some i =>
                            xr.dims da'
                            = (λ n, if decide (n = var)
                                    then var +:+ pretty p else n)
                                <$> (take i (xr.dims da)
                                     ++ drop (S i) (xr.dims da))%list
                            ∧ xr.cells da'
                              = (λ c, ((take i c.1 ++ drop (S i) c.1)%list,
                                       c.2))
                                  <$> filter (λ c, c.1 !! i = Some level)
                                        (xr.cells da)
                        end))
  ∧ preprocessor.func_process_file rt preprocessor.ExtractLevel ds self
    = preprocessor.ExtractLevelFunction.extract_level rt ds self
  ∧ preprocessor.func_process_dataset rt preprocessor.ExtractLevel ds self
    = Ok ds
  ∧ preprocessor.func_process_static_dataset preprocessor.ExtractLevel ds self
    = Ok ds.
Proof.
  split; [|split; [|done]].
  - unfold preprocessor.ExtractLevelFunction.extract_level.
    intros [-> | ->]; [done|]. by destruct (preprocessor.ax_names self !! "Z").
  - intros z p var HZ Hp Hvar. split.
    + intros Hnone. unfold preprocessor.ExtractLevelFunction.extract_level.
      rewrite HZ, Hp.
      unfold preprocessor.ExtractLevelFunction.select_and_rename,
        preprocessor.ExtractLevelFunction.metpy_sel, getitem.
      by rewrite Hnone.
    + intros axis Hax level selected.
      rewrite (extract_level_eval rt ds self z p var axis) by done.
      fold level. fold selected. split; [|split; [|split]].
      * case_bool_decide as Hin; split; try done.
        intros Hren. exfalso. unfold xr.rename in Hren.
        repeat case_bool_decide; done.
      * intros Hin. by rewrite bool_decide_eq_true_2.
      * intros Hin Hvar_in Hnew. rewrite bool_decide_eq_true_2 by done.
        unfold xr.rename. subst selected.
        rewrite dict_keys_map_arrays.
        by rewrite bool_decide_eq_true_2, bool_decide_eq_false_2.
      * intros Hin Hvar_in Hnew. subst level selected.
        rewrite <- (extract_level_eval rt ds self z p var axis) by done.
        by apply (extract_level_array rt ds self z p var axis).
Qed.

(** ** What [parse] changes *)

Section parse_facts.
Import xr nc preprocessor MDTFPreprocessorBase.

Lemma bind_Ok {A B} (r : result A) (f : A → result B) b :
  r ≫= f = Ok b → ∃ a, r = Ok a ∧ f a = Ok b.
Proof. destruct r as [a|e]; simpl; [eauto|done]. Qed.

Lemma parse_axes_inv rt self ds self' :
  parse_axes rt self ds = Ok self' →
  ∃ ax, self' = set_ax_names self ax.
Proof.
  unfold parse_axes. intros ([var_name w] & _ & Hrest)%bind_Ok.
  apply bind_Ok in Hrest as (da & _ & [= <-]). eauto.
Qed.

Lemma parse_calendar_inv self ds self' :
  parse_calendar self ds = Ok self' →
  ∃ c, self' = set_calendar self (Some c).
Proof.
  unfold parse_calendar. destruct (ax_names self !! "T"); [|done].
  intros (time_ax & _ & Hrest)%bind_Ok.
  apply bind_Ok in Hrest as (t0 & _ & Hrest).
  apply bind_Ok in Hrest as ([c|] & _ & Hrest); [|done].
  injection Hrest as <-. eauto.
Qed.

(** [parse] leaves the caller's dataset with its attributes stripped, and
    assigns only [ax_names] and [calendar]. *)
Lemma parse_inv rt self ds self' ds1 :
  parse rt self ds = Ok (self', ds1) →
  ds1 = strip_attrs ds ∧ v self' = v self ∧ files self' = files self
  ∧ functions self' = functions self ∧ date_range self' = date_range self
  ∧ convention self' = convention self.
Proof.
  unfold parse, parse_cf_wrapper.
  intros ([d x] & Hdec & Hrest)%bind_Ok.
  apply bind_Ok in Hdec as (x' & _ & [= <- <-]).
  apply bind_Ok in Hrest as (self1 & [ax ->]%parse_axes_inv & Hrest).
  apply bind_Ok in Hrest as (self2 & Hcal & Hrest).
  apply bind_Ok in Hrest as (us & _ & [= <- <-]).
  case_bool_decide.
  - apply parse_calendar_inv in Hcal as [c ->]. done.
  - by injection Hcal as <-.
Qed.

Lemma process_static_dataset_id self ds :
  process_static_dataset self ds = Ok ds.
Proof.
  unfold process_static_dataset.
  assert (∃ l, mapM (λ func, func_process_static_dataset func ds self)
                 (functions self) = Ok l) as [l ->]; [|done].
  induction (functions self) as [|f fs [l IH]]; simpl; [by eexists|].
  rewrite IH. destruct f; simpl; by eexists.
Qed.

(** Stripping the attributes changes neither the names, nor the
    dimensions, nor the cells of the arrays. *)
Lemma strip_attrs_data ds : data_of (strip_attrs ds) = data_of ds.
Proof.
  unfold data_of, variables, strip_attrs. simpl.
  rewrite !fmap_app, <- !list_fmap_compose.
  f_equal; by apply list_fmap_ext; intros ? [??].
Qed.
End parse_facts.

(** C6. In the single-file pipeline, for an input file that opens and parses
    and a static variable, [preprocess] writes at the destination path the
    input dataset with its attributes stripped ([strip_attrs]), which has the
    names, dimensions and cells of the input: no transform touches the data. *)
Theorem static_single_file_output (rt : preprocessor.Runtime)
    (self self' : preprocessor.Preprocessor) (fs : gmap string xr.Dataset)
    (f : preprocessor.RemoteFile) (ds ds1 : xr.Dataset) :
  preprocessor.files self = [f] →
  nc.open_dataset fs (preprocessor.local_path f) = Ok ds →
  preprocessor.MDTFPreprocessorBase.parse rt self ds = Ok (self', ds1) →
  preprocessor.is_static
    (preprocessor.var_date_range (preprocessor.v self)) = true →
  let out := preprocessor.MDTFPreprocessorBase.strip_attrs ds in
  preprocessor.SingleFilePreprocessor.preprocess rt self fs
  = (Ok self', <[ preprocessor.dest_path (preprocessor.v self) := out ]> fs)
  ∧ xr.data_of out = xr.data_of ds.
Proof.
  intros Hf Hopen Hparse Hstat out.
  destruct (parse_inv rt self ds self' ds1 Hparse) as (-> & Hv & _).
  split; [|apply strip_attrs_data].
  unfold preprocessor.SingleFilePreprocessor.preprocess,
    preprocessor.SingleFilePreprocessor.prepare.
  rewrite Hf. simpl. rewrite Hopen. simpl. rewrite Hparse. simpl.
  rewrite Hv, Hstat, process_static_dataset_id. simpl.
  by rewrite Hv.
Qed.

Section multi_file.
Import xr nc preprocessor MDTFPreprocessorBase.

Lemma Dask_preprocess_raise rt self fs e :
  DaskMultiFilePreprocessor.prepare rt self fs = Raise e →
  DaskMultiFilePreprocessor.preprocess rt self fs = (Raise e, fs).
Proof. unfold DaskMultiFilePreprocessor.preprocess. by intros ->. Qed.

(** The time-dependent path of the multi-file pipeline, once the files are
    opened and processed one by one. *)
Lemma Dask_prepare_merge rt self fs f ds0 self' ds1 d dss :
  first_item (files self) = Ok f →
  open_dataset fs (local_path f) = Ok ds0 →
  parse rt self ds0 = Ok (self', ds1) →
  is_static (var_date_range (v self)) = false →
  ax_names self' !! "T" = Some d →
  mapM (λ p, open_dataset fs p ≫= process_file rt self')
       (local_path <$> files self) = Ok dss →
  DaskMultiFilePreprocessor.prepare rt self fs
  = (combine d dss ≫= process_dataset rt self') ≫= λ ds, Ok (self', ds).
Proof.
  intros Hf Hopen Hparse Hstat HT Hmap.
  destruct (parse_inv rt self ds0 self' ds1 Hparse) as (_ & Hv & Hfiles & _).
  unfold DaskMultiFilePreprocessor.prepare.
  rewrite Hf. simpl. rewrite Hopen. simpl. rewrite Hparse. simpl.
  rewrite Hv, Hstat, HT. simpl. unfold open_mfdataset.
  rewrite Hfiles, Hmap. simpl.
  by destruct (combine d dss).
Qed.

Lemma mapM_result_length {A B} (g : A → result B) (l : list A) (k : list B) :
  mapM g l = Ok k → length k = length l.
Proof.
  revert k. induction l as [|x l IH]; intros k; simpl.
  - by intros [= <-].
  - destruct (g x) as [y|]; simpl; [|done].
    destruct (mapM g l) as [k'|]; simpl; [|done].
    intros [= <-]. simpl. f_equal. by apply IH.
Qed.

Lemma concat_vars_nil d (vars : list (string * DataArray)) :
  concat_vars d vars [] = vars.
Proof.
  unfold concat_vars. induction vars as [|[n [ds a c]] vars IH]; [done|].
  rewrite fmap_cons, IH. simpl. destruct (concat_over _ _); [|done].
  by rewrite app_nil_r.
Qed.

(** A single file is merged into itself. *)
Lemma combine_single d ds : combine d [ds] = Ok ds.
Proof.
  unfold combine. simpl. rewrite !concat_vars_nil. by destruct ds.
Qed.
End multi_file.


(** C8 (as amended). In the multi-file pipeline, for a first file that opens
    and parses.  For a static variable: with exactly one source file
    [preprocess] runs [process_static_dataset] only and writes its result,
    the input with its attributes stripped; with any other number of files
    the assertion [len(self.files) == 1] fails and nothing is written.  For
    a time-dependent variable the number of files is not constrained: every
    file of the list, one or many, is opened and passed through
    [process_file], the datasets are merged along the time axis (one dataset
    is merged into itself), the merged dataset is passed through
    [process_dataset] and the result is written; an error of the merge or of
    [process_dataset] is raised by [preprocess] and nothing is written. *)
Theorem multi_file_output (rt : preprocessor.Runtime)
    (self self' : preprocessor.Preprocessor) (fs : gmap string xr.Dataset)
    (f : preprocessor.RemoteFile) (ds ds1 : xr.Dataset) :
  first_item (preprocessor.files self) = Ok f →
  nc.open_dataset fs (preprocessor.local_path f) = Ok ds →
  preprocessor.MDTFPreprocessorBase.parse rt self ds = Ok (self', ds1) →
  (preprocessor.is_static
     (preprocessor.var_date_range (preprocessor.v self)) = true →
   (length (preprocessor.files self) = 1%nat →
    preprocessor.MDTFPreprocessorBase.process_static_dataset self' ds1
    = Ok ds1
    ∧ preprocessor.DaskMultiFilePreprocessor.preprocess rt self fs
      = (Ok self',
         <[ preprocessor.dest_path (preprocessor.v self)
            := preprocessor.MDTFPreprocessorBase.strip_attrs ds ]> fs))
   ∧ (length (preprocessor.files self) ≠ 1%nat →
      preprocessor.DaskMultiFilePreprocessor.preprocess rt self fs
      = (Raise AssertionError, fs)))
  ∧ (preprocessor.is_static
       (preprocessor.var_date_range (preprocessor.v self)) = false →
     ∀ d dss,
       preprocessor.ax_names self' !! "T" = Some d →
       mapM (λ p, nc.open_dataset fs p
                  ≫= preprocessor.MDTFPreprocessorBase.process_file rt self')
         (preprocessor.local_path <$> preprocessor.files self)
       = Ok dss →
       length dss = length (preprocessor.files self)
       ∧ (∀ x, dss = [x] → nc.combine d dss = Ok x)
       ∧ (∀ merged out,
            nc.combine d dss = Ok merged →
            preprocessor.MDTFPreprocessorBase.process_dataset rt self' merged
            = Ok out →
            preprocessor.DaskMultiFilePreprocessor.preprocess rt self fs
            = (Ok self',
               <[ preprocessor.dest_path (preprocessor.v self) := out ]> fs))
       ∧ (∀ merged e,
            nc.combine d dss = Ok merged →
            preprocessor.MDTFPreprocessorBase.process_dataset rt self' merged
            = Raise e →
            preprocessor.DaskMultiFilePreprocessor.preprocess rt self fs
            = (Raise e, fs))
       ∧ (∀ e,
            nc.combine d dss = Raise e →
            preprocessor.DaskMultiFilePreprocessor.preprocess rt self fs
            = (Raise e, fs))).
Proof.
  intros Hf Hopen Hparse.
  destruct (parse_inv rt self ds self' ds1 Hparse) as (Hds1 & Hv & Hfiles & _).
  split.
  - intros Hstat.
    unfold preprocessor.DaskMultiFilePreprocessor.preprocess,
      preprocessor.DaskMultiFilePreprocessor.prepare.
    rewrite Hf. simpl. rewrite Hopen. simpl. rewrite Hparse. simpl.
    rewrite Hv, Hstat, Hfiles. split; intros Hlen.
    + rewrite bool_decide_eq_true_2 by done.
      rewrite process_static_dataset_id. simpl. by rewrite Hv, Hds1.
    + by rewrite bool_decide_eq_false_2.
  - intros Hstat d dss HT Hmap.
    pose proof (Dask_prepare_merge rt self fs f ds self' ds1 d dss
                  Hf Hopen Hparse Hstat HT Hmap) as Hprep.
    split; [|split; [|split; [|split]]].
    + rewrite (mapM_result_length _ _ _ Hmap). by rewrite length_fmap.
    + intros x ->. apply combine_single.
    + intros merged out Hc Hp.
      unfold preprocessor.DaskMultiFilePreprocessor.preprocess.
      rewrite Hprep, Hc. simpl. rewrite Hp. simpl. by rewrite Hv.
    + intros merged e Hc Hp. apply Dask_preprocess_raise.
      rewrite Hprep, Hc. simpl. by rewrite Hp.
    + intros e Hc. apply Dask_preprocess_raise.
      by rewrite Hprep, Hc.
Qed.

(** ** The file list *)

Section sorted_facts.
Import preprocessor.
Import MDTFPreprocessorBase (insert_by, sorted).
Context {A K : Type} (lt : K → K → bool) (key : A → K).
#[local] Abbreviation not_before :=
  (MDTFPreprocessorBase.not_before lt key).

Hypothesis lt_asym : ∀ x y, lt x y = true → lt y x = false.
Hypothesis ge_trans : ∀ x y z, lt y x = false → lt z y = false → lt z x = false.

Lemma insert_by_perm x l : insert_by lt key x l ≡ₚ x :: l.
Proof.
  induction l as [|y l IH]; simpl; [done|].
  destruct (lt (key y) (key x)); [|done].
  rewrite IH. apply Permutation_swap.
Qed.

Lemma sorted_perm l : sorted lt key l ≡ₚ l.
Proof.
  induction l as [|x l IH]; simpl; [done|].
  by rewrite insert_by_perm, IH.
Qed.

Lemma insert_by_sorted x l :
  StronglySorted not_before l →
  StronglySorted not_before (insert_by lt key x l).
Proof.
  induction 1 as [|y l Hl IH Hy]; simpl.
  - repeat constructor.
  - destruct (lt (key y) (key x)) eqn:Hlt.
    + constructor; [done|].
      rewrite insert_by_perm. constructor; [|done].
      unfold MDTFPreprocessorBase.not_before. by apply lt_asym.
    + constructor; [by constructor|].
      constructor; [done|].
      eapply Forall_impl; [exact Hy|].
      intros z Hz. unfold MDTFPreprocessorBase.not_before in *. by eapply ge_trans.
Qed.

Lemma sorted_sorted l : StronglySorted not_before (sorted lt key l).
Proof.
  induction l as [|x l IH]; simpl; [constructor|].
  by apply insert_by_sorted.
Qed.
End sorted_facts.

(** C9. A descriptor is accepted by the constructor exactly when its file
    list is not empty.  The instance then holds a non-empty file list, a
    rearrangement of the descriptor's; when it has more than one file, no file
    comes after a file whose sub-range start is greater (given that [<] on
    dates is a strict weak order); and [parse] and both [preprocess] drivers,
    the only methods that update the instance, return it with the same file
    list. *)
Theorem file_list_invariant (rt : preprocessor.Runtime)
    (default_functions functions : list preprocessor.PreprocessorFunction)
    (data_mgr : preprocessor.DataManager) (var : preprocessor.VarDesc) :
  (∀ x y, preprocessor.date_lt rt x y = true →
          preprocessor.date_lt rt y x = false) →
  (∀ x y z, preprocessor.date_lt rt y x = false →
            preprocessor.date_lt rt z y = false →
            preprocessor.date_lt rt z x = false) →
  (is_ok (preprocessor.MDTFPreprocessorBase.__init__ rt default_functions
            data_mgr var functions) = true
   ↔ preprocessor.remote_data var ≠ [])
  ∧ ∀ self,
      preprocessor.MDTFPreprocessorBase.__init__ rt default_functions
        data_mgr var functions = Ok self →
      preprocessor.files self ≠ []
      ∧ preprocessor.files self ≡ₚ preprocessor.remote_data var
      ∧ ((1 < length (preprocessor.files self))%nat →
         StronglySorted
           (preprocessor.MDTFPreprocessorBase.not_before
              (preprocessor.date_lt rt)
              preprocessor.MDTFPreprocessorBase.date_range_start)
           (preprocessor.files self))
      ∧ (∀ ds self' ds',
           preprocessor.MDTFPreprocessorBase.parse rt self ds = Ok (self', ds') →
           preprocessor.files self' = preprocessor.files self)
      ∧ (∀ fs self',
           (preprocessor.SingleFilePreprocessor.preprocess rt self fs).1
           = Ok self' →
           preprocessor.files self' = preprocessor.files self)
      ∧ (∀ fs self',
           (preprocessor.DaskMultiFilePreprocessor.preprocess rt self fs).1
           = Ok self' →
           preprocessor.files self' = preprocessor.files self).
Proof.
  intros Hasym Htrans.
  unfold preprocessor.MDTFPreprocessorBase.__init__.
  destruct (preprocessor.remote_data var) as [|f l] eqn:Hdata.
  { split; [done|]. intros self [=]. }
  split; [done|]. intros self [= <-]. cbn [preprocessor.files].
  assert (preprocessor.MDTFPreprocessorBase.sorted (preprocessor.date_lt rt)
            preprocessor.MDTFPreprocessorBase.date_range_start (f :: l)
          ≡ₚ f :: l) as Hperm by apply sorted_perm.
  split_and!.
  - case_bool_decide; [|done].
    intros Hnil. apply Permutation_length in Hperm.
    apply (f_equal length) in Hnil. simpl in *. lia.
  - by case_bool_decide.
  - case_bool_decide as Hlen.
    + intros _. exact (sorted_sorted _ _ Hasym Htrans (f :: l)).
    + intros Hlen'. simpl in Hlen, Hlen'. lia.
  - intros ds self' ds' Hparse. by apply parse_inv in Hparse as (_ & _ & -> & _).
  - intros fs self'.
    unfold preprocessor.SingleFilePreprocessor.preprocess.
    destruct (preprocessor.SingleFilePreprocessor.prepare _ _ _)
      as [[s d]|e] eqn:Hprep; simpl; [|done].
    intros [= ->]. unfold preprocessor.SingleFilePreprocessor.prepare in Hprep.
    case_bool_decide; [|done].
    apply bind_Ok in Hprep as (f0 & _ & Hprep).
    apply bind_Ok in Hprep as (ds0 & _ & Hprep).
    apply bind_Ok in Hprep as ([s1 d1] & Hparse & Hprep).
    apply bind_Ok in Hprep as (d2 & _ & [= <- _]).
    by apply parse_inv in Hparse as (_ & _ & -> & _).
  - intros fs self'.
    unfold preprocessor.DaskMultiFilePreprocessor.preprocess.
    destruct (preprocessor.DaskMultiFilePreprocessor.prepare _ _ _)
      as [[s d]|e] eqn:Hprep; simpl; [|done].
    intros [= ->]. unfold preprocessor.DaskMultiFilePreprocessor.prepare in Hprep.
    apply bind_Ok in Hprep as (f0 & _ & Hprep).
    apply bind_Ok in Hprep as (ds0 & _ & Hprep).
    apply bind_Ok in Hprep as ([s1 d1] & Hparse & Hprep).
    apply bind_Ok in Hprep as (d2 & _ & [= <- _]).
    by apply parse_inv in Hparse as (_ & _ & -> & _).
Qed.

(** ** Calendar resolution *)

Section parse_calendar_facts.
Import xr preprocessor MDTFPreprocessorBase.
#[local] Arguments _check_backup_location : simpl never.

Lemma check_backup_found c d :
  c ≠ "" → _check_backup_location (Some c) d = Ok (Some c).
Proof.
  unfold _check_backup_location. intros Hc.
  rewrite bool_decide_eq_false_2; [done|].
  intros [?|[= ->]]; done.
Qed.

Lemma check_backup_declared c d c' :
  pending c → declared_calendar d = Some c' →
  _check_backup_location c d = Ok (Some c').
Proof.
  unfold _check_backup_location, declared_calendar, pending.
  intros Hc Hd. rewrite bool_decide_eq_true_2 by done.
  destruct (dict_get "calendar" d) as [[s|z]|]; by simplify_eq.
Qed.

Lemma check_backup_absent c d :
  dict_get "calendar" d = None → _check_backup_location c d = Ok c.
Proof.
  unfold _check_backup_location. intros ->. by case_bool_decide.
Qed.

Lemma check_backup_not_str c d :
  pending c → calendar_is_str d = false →
  _check_backup_location c d = Raise AttributeError.
Proof.
  unfold _check_backup_location, calendar_is_str, pending.
  intros Hc Hd. rewrite bool_decide_eq_true_2 by done.
  by destruct (dict_get "calendar" d) as [[s|z]|].
Qed.

Lemma check_backup_passed c d :
  pending c → passed_over d →
  ∃ c', _check_backup_location c d = Ok c' ∧ pending c'
        ∧ (c' = Some "" ↔ c = Some "" ∨ declared_calendar d = Some "").
Proof.
  intros Hc [Hstr Hd]. destruct Hd as [Hd|Hd].
  - exists c. split; [|split; [done|]].
    + apply check_backup_absent. revert Hstr Hd.
      unfold calendar_is_str, declared_calendar.
      by destruct (dict_get "calendar" d) as [[s|z]|].
    + rewrite Hd. naive_solver.
  - exists (Some ""). rewrite (check_backup_declared c d "") by done.
    split; [done|]. split; [by right|]. naive_solver.
Qed.

Lemma chain_found c l :
  c ≠ "" → foldM _check_backup_location l (Some c) = Ok (Some c).
Proof.
  intros Hc. induction l as [|d l IH]; [done|].
  cbn [foldM]. by rewrite check_backup_found.
Qed.

Lemma chain_passed l c :
  pending c → Forall passed_over l →
  ∃ c', foldM _check_backup_location l c = Ok c' ∧ pending c'
        ∧ (c' = Some ""
           ↔ c = Some "" ∨ Exists (λ d, declared_calendar d = Some "") l).
Proof.
  intros Hc Hall. revert c Hc.
  induction Hall as [|d l Hd Hall IH]; intros c Hc.
  - exists c. split; [done|]. split; [done|].
    rewrite Exists_nil. naive_solver.
  - cbn [foldM].
    destruct (check_backup_passed c d Hc Hd) as (c1 & -> & Hc1 & Hiff1).
    destruct (IH c1 Hc1) as (c' & Hfold & Hc' & Hiff).
    exists c'. split; [done|]. split; [done|].
    rewrite Hiff, Hiff1, Exists_cons. naive_solver.
Qed.

Lemma foldM_app {A B} (f : B → A → result B) (l1 l2 : list A) (acc : B) :
  foldM f (l1 ++ l2) acc = foldM f l1 acc ≫= foldM f l2.
Proof.
  revert acc. induction l1 as [|x l1 IH]; intros acc; [done|].
  cbn [foldM app]. destruct (f acc x) as [b|e]; [apply IH|done].
Qed.

(** The three fallback lookups of [parse_calendar] as a loop. *)
Lemma parse_calendar_fallback self ds time time_ax t0 :
  ax_names self !! "T" = Some time →
  ds_getitem ds time = Ok time_ax →
  first_item (values time_ax) = Ok t0 →
  getattr_calendar t0 = None →
  parse_calendar self ds
  = c ← foldM _check_backup_location (fallback_sources self ds time_ax) None;
    match c with
    | None => Raise (ValueError "No calendar info in file.")
    | Some _ => Ok (set_calendar self c)
    end.
Proof.
  intros HT Hax H0 Hnone. unfold parse_calendar, fallback_sources.
  rewrite HT, Hax. simpl. rewrite H0. simpl. rewrite Hnone. cbn [foldM].
  destruct (_check_backup_location None (attrs time_ax)) as [c1|]; [|done].
  simpl. destruct (_check_backup_location c1 (ds_attrs ds)) as [c2|]; [|done].
  simpl. by destruct (_check_backup_location c2 (convention self)).
Qed.
End parse_calendar_facts.


(** C4 (as amended). For a dataset with a non-empty time axis,
    [parse_calendar] reads the sources in the order: the [calendar]
    attribute of the first time value, the attributes of the time variable,
    the global attributes, the convention.  A calendar on the time value
    wins as it is, and no other source is read.  Otherwise the first of the
    three fallback dictionaries whose [calendar] entry is not blank once
    lower-cased and stripped wins, the dictionaries before it having no
    entry or a blank one, whatever the dictionaries after it hold; and
    [ValueError("No calendar info in file.")] (the spec's
    CalendarResolutionError) is raised when no dictionary has a [calendar]
    entry.  The entries read are taken to be strings: one that is not
    raises [AttributeError] when it is reached.  When every entry is blank
    and there is one, no error is raised and the calendar is the empty
    string. *)
Theorem calendar_resolution (self : preprocessor.Preprocessor)
    (ds : xr.Dataset) (time : string) (time_ax : xr.DataArray)
    (t0 : xr.scalar) :
  preprocessor.ax_names self !! "T" = Some time →
  xr.ds_getitem ds time = Ok time_ax →
  first_item (xr.values time_ax) = Ok t0 →
  (∀ c,
     preprocessor.MDTFPreprocessorBase.getattr_calendar t0 = Some c →
     preprocessor.MDTFPreprocessorBase.parse_calendar self ds
     = Ok (preprocessor.set_calendar self (Some c)))
  ∧ (preprocessor.MDTFPreprocessorBase.getattr_calendar t0 = None →
     (∀ before d after c,
        preprocessor.MDTFPreprocessorBase.fallback_sources self ds time_ax
        = (before ++ d :: after)%list →
        Forall preprocessor.MDTFPreprocessorBase.passed_over before →
        preprocessor.MDTFPreprocessorBase.declared_calendar d = Some c →
        c ≠ "" →
        preprocessor.MDTFPreprocessorBase.parse_calendar self ds
        = Ok (preprocessor.set_calendar self (Some c)))
     ∧ (Forall (λ d, dict_get "calendar" d = None)
          (preprocessor.MDTFPreprocessorBase.fallback_sources self ds time_ax) →
        preprocessor.MDTFPreprocessorBase.parse_calendar self ds
        = Raise (ValueError "No calendar info in file."))
     ∧ (∀ before d after,
        preprocessor.MDTFPreprocessorBase.fallback_sources self ds time_ax
        = (before ++ d :: after)%list →
        Forall preprocessor.MDTFPreprocessorBase.passed_over before →
        preprocessor.MDTFPreprocessorBase.calendar_is_str d = false →
        preprocessor.MDTFPreprocessorBase.parse_calendar self ds
        = Raise AttributeError)
     ∧ (Forall preprocessor.MDTFPreprocessorBase.passed_over (preprocessor.MDTFPreprocessorBase.fallback_sources self ds time_ax) →
        Exists (λ d, preprocessor.MDTFPreprocessorBase.declared_calendar d
                     = Some "")
          (preprocessor.MDTFPreprocessorBase.fallback_sources self ds time_ax) →
        preprocessor.MDTFPreprocessorBase.parse_calendar self ds
        = Ok (preprocessor.set_calendar self (Some "")))).
Proof.
  intros HT Hax H0. split.
  - intros c Hc. unfold preprocessor.MDTFPreprocessorBase.parse_calendar.
    rewrite HT, Hax. simpl. rewrite H0. simpl. by rewrite Hc.
  - intros Hnone.
    rewrite (parse_calendar_fallback self ds time time_ax t0) by done.
    split_and!.
    + intros before d after c -> Hbefore Hd Hc.
      rewrite foldM_app.
      destruct (chain_passed before None) as (c0 & -> & Hc0 & _);
        [by left|done|].
      simpl. rewrite (check_backup_declared c0 d c) by done. simpl.
      by rewrite chain_found.
    + intros Hall.
      assert (foldM preprocessor.MDTFPreprocessorBase._check_backup_location
                (preprocessor.MDTFPreprocessorBase.fallback_sources self ds time_ax) None = Ok None) as ->; [|done].
      induction Hall as [|d l Hd Hall IH]; [done|].
      cbn [foldM]. by rewrite check_backup_absent.
    + intros before d after -> Hbefore Hd.
      rewrite foldM_app.
      destruct (chain_passed before None) as (c0 & -> & Hc0 & _);
        [by left|done|].
      simpl. by rewrite (check_backup_not_str c0 d).
    + intros Hall Hex.
      destruct (chain_passed (preprocessor.MDTFPreprocessorBase.fallback_sources self ds time_ax) None)
        as (c' & -> & _ & Hiff); [by left|done|].
      assert (c' = Some "") as -> by (apply Hiff; by right). done.
Qed.

(** ** Tags of the extra axes *)

Section parse_axes_facts.
Import xr preprocessor MDTFPreprocessorBase.

Lemma W_tag_inj (i j : nat) : "W" +:+ pretty i = "W" +:+ pretty j → i = j.
Proof. simpl. intros [= Heq]. by apply pretty_nat_inj in Heq. Qed.

Lemma label_other_axes_snoc others x ax :
  label_other_axes (others ++ [x]) ax
  = <[ "W" +:+ pretty (length others) := x ]> (label_other_axes others ax).
Proof.
  unfold label_other_axes. rewrite imap_app, foldl_app. simpl.
  by rewrite Nat.add_0_r.
Qed.

Lemma label_other_axes_lookup others ax i n :
  others !! i = Some n →
  label_other_axes others ax !! ("W" +:+ pretty i) = Some n.
Proof.
  revert i n. induction others as [|x others IH] using rev_ind; intros i n Hi.
  - by rewrite lookup_nil in Hi.
  - rewrite label_other_axes_snoc.
    destruct (decide (i = length others)) as [->|Hne].
    + rewrite lookup_insert_eq. rewrite list_lookup_middle in Hi; done.
    + rewrite lookup_insert_ne.
      * apply IH. rewrite lookup_app_l in Hi; [done|].
        apply lookup_lt_Some in Hi. rewrite length_app in Hi. simpl in Hi. lia.
      * intros Heq. apply W_tag_inj in Heq. done.
Qed.

Lemma parse_axes_eval rt self ds self' :
  parse_axes rt self ds = Ok self' →
  ∃ var_name w da,
    _find_var_name ds (name_in_model (v self)) = Ok (var_name, w)
    ∧ ds_getitem ds var_name = Ok da
    ∧ ax_names self'
      = let ax := lookup_axes rt ds var_name
                    (<[ "var" := var_name ]> (ax_names self)) in
        label_other_axes (other_axes rt (dims da) ax) ax.
Proof.
  unfold parse_axes. intros ([var_name w] & Hfind & Hrest)%bind_Ok.
  apply bind_Ok in Hrest as (da & Hda & [= <-]).
  exists var_name, w, da. done.
Qed.

Lemma unclaimed_dims_NoDup dims ax : NoDup (unclaimed_dims dims ax).
Proof. apply NoDup_list_difference, NoDup_remove_dups. Qed.
End parse_axes_facts.

(** C7 (as amended). After [parse_axes], the dimensions of the resolved
    variable that are not among the names recorded so far (the variable and
    the axes metpy found) carry the tags [W0], [W1], ...: the tag [Wi] goes to
    the [i]-th dimension in the order in which the set of these dimensions is
    iterated.  That order is a rearrangement of the dimensions, each taken
    once; it is the interpreter's, and the code does not make it the order of
    the dimension listing. *)
Theorem extra_axes_tags (rt : preprocessor.Runtime)
    (self self' : preprocessor.Preprocessor) (ds : xr.Dataset) :
  preprocessor.set_iter_valid rt →
  preprocessor.MDTFPreprocessorBase.parse_axes rt self ds = Ok self' →
  ∃ var_name w da,
    preprocessor.MDTFPreprocessorBase._find_var_name ds
      (preprocessor.name_in_model (preprocessor.v self)) = Ok (var_name, w)
    ∧ xr.ds_getitem ds var_name = Ok da
    ∧ let ax := preprocessor.MDTFPreprocessorBase.lookup_axes rt ds var_name
                  (<[ "var" := var_name ]> (preprocessor.ax_names self)) in
      let others :=
        preprocessor.MDTFPreprocessorBase.other_axes rt (xr.dims da) ax in
      others ≡ₚ preprocessor.MDTFPreprocessorBase.unclaimed_dims (xr.dims da) ax
      ∧ NoDup others
      ∧ ∀ (i : nat) n,
          others !! i = Some n →
          preprocessor.ax_names self' !! ("W" +:+ pretty i) = Some n.
Proof.
  intros Hvalid Hparse.
  destruct (parse_axes_eval rt self ds self' Hparse)
    as (var_name & w & da & Hfind & Hda & Hax).
  exists var_name, w, da. split; [done|]. split; [done|].
  intros ax others.
  assert (others ≡ₚ preprocessor.MDTFPreprocessorBase.unclaimed_dims
                      (xr.dims da) ax) as Hperm.
  { apply Hvalid, unclaimed_dims_NoDup. }
  split; [done|]. split.
  - rewrite Hperm. apply unclaimed_dims_NoDup.
  - intros i n Hi. rewrite Hax. by apply label_other_axes_lookup.
Qed.

(** ** Merging the files of a time-dependent variable *)

Section combine_facts.
Import xr nc.

Lemma combine_Raise d first rest e :
  combine d (first :: rest) = Raise e → is_merge_failure e = true.
Proof.
  unfold combine.
  destruct (forallb (same_variables first) rest); simpl;
    [|by intros [= <-]].
  destruct (forallb (dims_match d first) rest); simpl;
    [|by intros [= <-]].
  destruct (forallb (identical_nonconcat d first) rest); simpl;
    [|by intros [= <-]].
  by destruct (forallb (attrs_equal first) rest); simpl; [|intros [= <-]].
Qed.

Lemma combine_Ok_checks d first rest ds :
  combine d (first :: rest) = Ok ds
  ↔ (forallb (same_variables first) rest = true
     ∧ forallb (dims_match d first) rest = true
     ∧ forallb (identical_nonconcat d first) rest = true
     ∧ forallb (attrs_equal first) rest = true)
    ∧ ds = {| ds_attrs := ds_attrs first;
              coords := concat_vars d (coords first) (coords <$> rest);
              data_vars :=
                concat_vars d (data_vars first) (data_vars <$> rest) |}.
Proof.
  unfold combine.
  destruct (forallb (same_variables first) rest); simpl; [|naive_solver].
  destruct (forallb (dims_match d first) rest); simpl; [|naive_solver].
  destruct (forallb (identical_nonconcat d first) rest); simpl;
    [|naive_solver].
  destruct (forallb (attrs_equal first) rest); simpl; naive_solver.
Qed.

Lemma all_arrays_spec (check : DataArray → DataArray → bool)
    (vars_first vars : list (string * DataArray)) :
  all_arrays check vars_first vars = true
  ↔ ∀ n da, (n, da) ∈ vars_first →
      ∃ da', dict_get n vars = Some da' ∧ check da da' = true.
Proof.
  unfold all_arrays. rewrite forallb_forall. split.
  - intros Hall n da Hin. apply list_elem_of_In in Hin.
    specialize (Hall _ Hin). simpl in Hall.
    destruct (dict_get n vars) as [da'|]; [eauto|done].
  - intros Hall [n da] Hin. apply list_elem_of_In in Hin.
    destruct (Hall n da Hin) as (da' & -> & Hc). done.
Qed.

Lemma dim_index_None d da : dim_index d da = None ↔ d ∉ dims da.
Proof.
  unfold dim_index. rewrite fmap_None, list_find_None, Forall_forall.
  split.
  - intros Hall Hin. by apply (Hall d).
  - intros Hnot x Hx ->. done.
Qed.

Lemma arrays_agree_checks d (vars_first vars : list (string * DataArray)) :
  arrays_agree d vars_first vars
  ↔ all_arrays (dims_match_array d) vars_first vars = true
    ∧ all_arrays (identical_array d) vars_first vars = true.
Proof.
  rewrite !all_arrays_spec. unfold arrays_agree. split.
  - intros Hagree. split; intros n da Hin;
      destruct (Hagree n da Hin) as (da' & Hget & Hdims & Hattrs & Hcells & Hlab);
      exists da'; (split; [done|]).
    + unfold dims_match_array. destruct (dim_index d da) as [i|]; [|done].
      apply bool_decide_eq_true. split; [done|]. by apply Hlab.
    + unfold identical_array, concat_over. case_bool_decide as Hd.
      * by apply bool_decide_eq_true.
      * apply bool_decide_eq_true. specialize (Hcells Hd).
        destruct da, da'. simpl in *. congruence.
  - intros [Hdims Hident] n da Hin.
    destruct (Hdims n da Hin) as (da' & Hget & Hd).
    destruct (Hident n da Hin) as (da'' & Hget' & Hi).
    assert (da'' = da') as -> by congruence.
    exists da'. split; [done|].
    unfold identical_array, concat_over in Hi.
    unfold dims_match_array in Hd.
    case_bool_decide as Hin_d.
    + apply bool_decide_eq_true in Hi.
      destruct (dim_index d da) as [i|] eqn:Hidx.
      * apply bool_decide_eq_true in Hd as [Hd1 Hd2].
        split_and!; [done|done|done|]. by intros i' [= <-].
      * by apply dim_index_None in Hidx.
    + apply bool_decide_eq_true in Hi as ->.
      split_and!; [done..|].
      intros i Hidx. apply dim_index_None in Hin_d. congruence.
Qed.

Lemma files_agree_checks d first ds :
  files_agree d first ds
  ↔ same_variables first ds = true ∧ dims_match d first ds = true
    ∧ identical_nonconcat d first ds = true ∧ attrs_equal first ds = true.
Proof.
  unfold files_agree, same_variables, dims_match, identical_nonconcat,
    attrs_equal.
  rewrite !arrays_agree_checks, !andb_true_iff, !bool_decide_eq_true.
  naive_solver.
Qed.

Lemma forallb_Forall {A} (f : A → bool) (l : list A) :
  forallb f l = true ↔ Forall (λ x, f x = true) l.
Proof.
  induction l as [|x l IH]; simpl.
  - split; [constructor|done].
  - rewrite andb_true_iff, Forall_cons, IH. done.
Qed.

Lemma all_files_agree d first rest :
  Forall (files_agree d first) rest
  ↔ forallb (same_variables first) rest = true
    ∧ forallb (dims_match d first) rest = true
    ∧ forallb (identical_nonconcat d first) rest = true
    ∧ forallb (attrs_equal first) rest = true.
Proof.
  rewrite !forallb_Forall, <- !Forall_and.
  apply Forall_iff. intros ds. apply files_agree_checks.
Qed.

Lemma concat_vars_elem d (vars_first : list (string * DataArray)) rest n da :
  (n, da) ∈ vars_first →
  (d ∉ dims da → (n, da) ∈ concat_vars d vars_first rest)
  ∧ (d ∈ dims da →
     (n, {| dims := dims da; attrs := attrs da;
            cells := cells da ++ mjoin (cells_of n <$> rest) |})
     ∈ concat_vars d vars_first rest).
Proof.
  intros Hin. unfold concat_vars. split; intros Hd;
    apply list_elem_of_fmap; exists (n, da); (split; [|done]);
    simpl; unfold concat_over.
  - by rewrite bool_decide_eq_false_2.
  - by rewrite bool_decide_eq_true_2.
Qed.

(** In the result, only the arrays with the dimension [d] have cells from
    the other files. *)
Lemma concat_vars_origin d (vars_first : list (string * DataArray)) rest n da :
  (n, da) ∈ concat_vars d vars_first rest →
  ∃ da0, (n, da0) ∈ vars_first
         ∧ dims da = dims da0
         ∧ (d ∉ dims da0 → da = da0).
Proof.
  unfold concat_vars. intros ([n0 da0] & Heq & Hin)%list_elem_of_fmap.
  simpl in Heq. unfold concat_over in Heq. case_bool_decide.
  - injection Heq as -> ->. exists da0. done.
  - injection Heq as -> ->. exists da0. done.
Qed.
End combine_facts.

(** C2. In the multi-file pipeline the datasets of the files, each passed
    through [process_file], are combined along the time dimension [d].  The
    merge succeeds exactly when every file agrees with the first one
    ([files_agree]): the same global attributes and the same variables; every
    array without the dimension [d] the same in dimensions, attributes and
    cells; every array with the dimension [d] the same in dimensions, in
    attributes and in the labels along its other dimensions.  So any
    divergence makes [combine] raise a merge failure (the spec's
    MergeConsistencyError); [preprocess] then raises it too and the files
    stay as they were.  When [combine] succeeds, the attributes and every
    array without the dimension [d] are those of the first file, and exactly
    the arrays with the dimension [d] are concatenated: their cells are the
    cells of the files in order. *)
Theorem merge_consistency (d : string) (first : xr.Dataset)
    (rest : list xr.Dataset) :
  ((∃ ds, nc.combine d (first :: rest) = Ok ds)
   ↔ Forall (nc.files_agree d first) rest)
  ∧ (∀ ds', ds' ∈ rest → ¬ nc.files_agree d first ds' →
     ∃ e, nc.combine d (first :: rest) = Raise e
          ∧ nc.is_merge_failure e = true)
  ∧ (∀ e, nc.combine d (first :: rest) = Raise e →
     nc.is_merge_failure e = true
     ∧ ∀ rt self fs f ds0 self' ds1,
         first_item (preprocessor.files self) = Ok f →
         nc.open_dataset fs (preprocessor.local_path f) = Ok ds0 →
         preprocessor.MDTFPreprocessorBase.parse rt self ds0
         = Ok (self', ds1) →
         preprocessor.is_static
           (preprocessor.var_date_range (preprocessor.v self)) = false →
         preprocessor.ax_names self' !! "T" = Some d →
         mapM (λ p, nc.open_dataset fs p
                    ≫= preprocessor.MDTFPreprocessorBase.process_file rt self')
           (preprocessor.local_path <$> preprocessor.files self)
         = Ok (first :: rest) →
         preprocessor.DaskMultiFilePreprocessor.preprocess rt self fs
         = (Raise e, fs))
  ∧ (∀ ds,
       nc.combine d (first :: rest) = Ok ds →
       xr.ds_attrs ds = xr.ds_attrs first
       ∧ (∀ n da, (n, da) ∈ xr.variables ds →
            ∃ da0, (n, da0) ∈ xr.variables first
                   ∧ xr.dims da = xr.dims da0
                   ∧ (d ∉ xr.dims da0 → da = da0))
       ∧ (∀ n da, (n, da) ∈ xr.coords first → d ∈ xr.dims da →
            (n, {| xr.dims := xr.dims da; xr.attrs := xr.attrs da;
                   xr.cells :=
                     xr.cells da
                     ++ mjoin (nc.cells_of n <$> (xr.coords <$> rest)) |})
            ∈ xr.coords ds)
       ∧ (∀ n da, (n, da) ∈ xr.data_vars first → d ∈ xr.dims da →
            (n, {| xr.dims := xr.dims da; xr.attrs := xr.attrs da;
                   xr.cells :=
                     xr.cells da
                     ++ mjoin (nc.cells_of n <$> (xr.data_vars <$> rest)) |})
            ∈ xr.data_vars ds)).
Proof.
  assert ((∃ ds, nc.combine d (first :: rest) = Ok ds)
          ↔ Forall (nc.files_agree d first) rest) as Hiff.
  { rewrite all_files_agree. split.
    - intros [ds Hok]. by apply combine_Ok_checks in Hok as [? _].
    - intros Hchecks. eexists. by apply combine_Ok_checks. }
  split; [done|]. split; [|split].
  - intros ds' Hin Hdiv.
    destruct (nc.combine d (first :: rest)) as [ds|e] eqn:Hc.
    + exfalso. apply Hdiv.
      assert (Forall (nc.files_agree d first) rest) as Hall
        by (apply Hiff; eauto).
      by apply (proj1 (Forall_forall _ _) Hall).
    + exists e. split; [done|]. by apply combine_Raise in Hc.
  - intros e He. split; [by apply combine_Raise in He|].
    intros rt self fs f ds0 self' ds1 Hf Hopen Hparse Hstat HT Hmap.
    apply Dask_preprocess_raise.
    rewrite (Dask_prepare_merge rt self fs f ds0 self' ds1 d (first :: rest))
      by done.
    by rewrite He.
  - intros ds Hok.
    apply combine_Ok_checks in Hok as (_ & ->). simpl.
    split; [done|]. split; [|split].
    + intros n da. unfold xr.variables. simpl.
      intros [Hin|Hin]%elem_of_app;
        apply concat_vars_origin in Hin as (da0 & Hda0 & Hdims & Hsame);
        exists da0; (split; [|done]); apply elem_of_app; [by left|by right].
    + intros n da Hin Hd. by apply concat_vars_elem.
    + intros n da Hin Hd. by apply concat_vars_elem.
Qed.

(** * The theorems at concrete inputs *)

Section witnesses.
Import xr nc preprocessor Examples.

Lemma mm_maps_to_3 k' : util.maps_to mm k' 3%nat ↔ k' = "c".
Proof.
  unfold util.maps_to, mm. split.
  - intros (s & Hs & Hin).
    destruct (decide (k' = "a")) as [->|Ha].
    { rewrite lookup_insert_eq in Hs. injection Hs as <-.
      apply elem_of_singleton in Hin. discriminate. }
    rewrite lookup_insert_ne in Hs by done.
    destruct (decide (k' = "b")) as [->|Hb].
    { rewrite lookup_insert_eq in Hs. injection Hs as <-.
      apply elem_of_union in Hin as [Hin|Hin];
        apply elem_of_singleton in Hin; discriminate. }
    rewrite lookup_insert_ne in Hs by done.
    destruct (decide (k' = "c")) as [->|Hc]; [done|].
    rewrite lookup_insert_ne, lookup_empty in Hs by done. discriminate.
  - intros ->. exists {[ 3%nat ]}. split; [reflexivity|].
    by apply elem_of_singleton.
Defined.

Lemma mm_maps_to_1 k' : k' = "a" ∨ k' = "b" → util.maps_to mm k' 1%nat.
Proof.
  unfold util.maps_to, mm. intros [-> | ->].
  - exists {[ 1%nat ]}. split; [reflexivity|]. by apply elem_of_singleton.
  - exists {[ 1%nat; 2%nat ]}. split; [reflexivity|].
    apply elem_of_union. left. by apply elem_of_singleton.
Defined.
End witnesses.

(** C10 on the map [mm]. *)
Lemma MultiMap_get_shapes_witness :
  util.get_ Examples.mm "a" = Ok (One 1%nat)
  ∧ util.get_ Examples.mm "b" = Ok (Many (elements ({[ 1%nat; 2%nat ]} : gset nat)))
  ∧ util.get_ Examples.mm "z" = Raise KeyError
  ∧ util.inverse_get_ Examples.mm 3%nat = Ok (One "c")
  ∧ ∃ l, util.inverse_get_ Examples.mm 1%nat = Ok (Many l)
         ∧ "a" ∈ l ∧ "b" ∈ l.
Proof.
  destruct (MultiMap_get_shapes Examples.mm "a" 3%nat) as (Ha & _ & Hc & _).
  destruct (MultiMap_get_shapes Examples.mm "b" 1%nat) as (Hb & _ & _ & Hmany).
  destruct (MultiMap_get_shapes Examples.mm "z" 1%nat) as (_ & Hz & _).
  split; [|split; [|split; [|split]]].
  - apply (Ha {[ 1%nat ]}); reflexivity.
  - apply (Hb {[ 1%nat; 2%nat ]}); [reflexivity|]. vm_compute. lia.
  - apply Hz. reflexivity.
  - apply Hc. apply mm_maps_to_3.
  - destruct (Hmany "a" "b") as (l & Hl & _ & Hmem).
    + discriminate.
    + apply mm_maps_to_1. by left.
    + apply mm_maps_to_1. by right.
    + exists l. split; [exact Hl|]. split; apply Hmem, mm_maps_to_1; auto.
Defined.

Ltac by_compute :=
  cbv beta;
  lazymatch goal with
  | |- ?P => apply (@bool_decide_unpack P _); vm_compute; exact I
  end.

(** C3 on [ds_ranks]: [ua] is found; [tos] is not, and [ua] of rank 3 is
    not returned in its place. *)
Lemma find_var_name_raises_witness :
  preprocessor.MDTFPreprocessorBase._find_var_name Examples.ds_ranks "ua"
  = Ok ("ua", None)
  ∧ preprocessor.MDTFPreprocessorBase._find_var_name Examples.ds_ranks "tos"
    = Raise AttributeError.
Proof.
  destruct (find_var_name_raises Examples.ds_ranks "ua") as (Hin & _).
  destruct (find_var_name_raises Examples.ds_ranks "tos") as (_ & Hout & _).
  split.
  - apply Hin. by_compute.
  - apply Hout. by_compute.
Defined.


(** C5 on [ds_temp]: the level 500 hPa, which gives [ds_temp500]; the level
    700 hPa, which the file does not have; and no level. *)
Lemma extract_level_behaviour_witness :
  preprocessor.ExtractLevelFunction.extract_level Examples.rt0
    Examples.ds_temp (Examples.self_temp (Some [("pressure", 500)]))
  = Ok Examples.ds_temp500
  ∧ preprocessor.ExtractLevelFunction.extract_level Examples.rt0
      Examples.ds_temp (Examples.self_temp (Some [("pressure", 700)]))
    = Raise preprocessor.ExtractLevelFunction.level_error
  ∧ preprocessor.ExtractLevelFunction.extract_level Examples.rt0
      Examples.ds_temp (Examples.self_temp None)
    = Ok Examples.ds_temp.
Proof.
  split; [|split].
  - destruct (extract_level_behaviour Examples.rt0 Examples.ds_temp
                (Examples.self_temp (Some [("pressure", 500)])))
      as (_ & Happ & _).
    destruct (Happ "lev" 500 "temp") as [_ Hax]; [reflexivity..|].
    destruct (Hax (Examples.coord "lev"
                     [("axis", xr.AStr "Z"); ("units", xr.AStr "Pa")]
                     Examples.levels_Pa).2) as (_ & _ & Hok & _);
      [reflexivity|].
    transitivity
      (Ok (xr.renamed
             (xr.map_arrays (xr.array_sel_exact "lev" (xr.SNum 50000))
                Examples.ds_temp)
             "temp" "temp500") : result xr.Dataset);
      [apply Hok; by_compute | reflexivity].
  - destruct (extract_level_behaviour Examples.rt0 Examples.ds_temp
                (Examples.self_temp (Some [("pressure", 700)])))
      as (_ & Happ & _).
    destruct (Happ "lev" 700 "temp") as [_ Hax]; [reflexivity..|].
    destruct (Hax (Examples.coord "lev"
                     [("axis", xr.AStr "Z"); ("units", xr.AStr "Pa")]
                     Examples.levels_Pa).2) as (Hiff & _);
      [reflexivity|].
    apply Hiff. by_compute.
  - destruct (extract_level_behaviour Examples.rt0 Examples.ds_temp
                (Examples.self_temp None)) as (Hnoop & _).
    apply Hnoop. right. reflexivity.
Defined.

(** C4, as stated, fails.  In [ds_cal_a] the attributes of the time variable
    have a calendar entry and are the first source to have one, yet the
    calendar of the global attributes is the one kept; and if a blank entry
    is not taken to provide a calendar, then in [ds_cal_b] no source provides
    one, yet no error is raised and the calendar is the empty string. *)
Lemma calendar_resolution_counterexample :
  (preprocessor.MDTFPreprocessorBase.first_calendar
     preprocessor.MDTFPreprocessorBase.any_value
     (preprocessor.MDTFPreprocessorBase.calendar_sources Examples.self_cal
        Examples.ds_cal_a Examples.time_axis_blank
        (xr.STime (Examples.date 2000 1 1)))
   = Some ""
   ∧ preprocessor.MDTFPreprocessorBase.parse_calendar Examples.self_cal
       Examples.ds_cal_a
     = Ok (preprocessor.set_calendar Examples.self_cal (Some "noleap")))
  ∧ (preprocessor.MDTFPreprocessorBase.first_calendar
       preprocessor.MDTFPreprocessorBase.nonblank
       (preprocessor.MDTFPreprocessorBase.calendar_sources Examples.self_cal
          Examples.ds_cal_b Examples.time_axis_blank
          (xr.STime (Examples.date 2000 1 1)))
     = None
     ∧ preprocessor.MDTFPreprocessorBase.parse_calendar Examples.self_cal
         Examples.ds_cal_b
       = Ok (preprocessor.set_calendar Examples.self_cal (Some ""))).
Proof. split; split; by vm_compute. Qed.

(** C4 as amended: on [ds_tas], whose time values carry a calendar, with a
    numeric [calendar] among the global attributes; on [ds_cal_a], where a
    blank entry is passed over; on a dataset with no calendar at all; and on
    [ds_cal_a] with a numeric global [calendar]. *)
Lemma calendar_resolution_witness :
  preprocessor.MDTFPreprocessorBase.parse_calendar Examples.self_cal
    (Examples.with_global_calendar (xr.ANum 365) Examples.ds_tas)
  = Ok (preprocessor.set_calendar Examples.self_cal (Some "noleap"))
  ∧ preprocessor.MDTFPreprocessorBase.parse_calendar Examples.self_cal
      Examples.ds_cal_a
    = Ok (preprocessor.set_calendar Examples.self_cal (Some "noleap"))
  ∧ preprocessor.MDTFPreprocessorBase.parse_calendar
      (preprocessor.set_ax_names Examples.self_cal
         (<[ "T" := "lev" ]> ∅))
      Examples.ds_temp
    = Raise (ValueError "No calendar info in file.")
  ∧ preprocessor.MDTFPreprocessorBase.parse_calendar Examples.self_cal
      (Examples.with_global_calendar (xr.ANum 365) Examples.ds_cal_a)
    = Raise AttributeError.
Proof.
  split_and!.
  - destruct (calendar_resolution Examples.self_cal
                (Examples.with_global_calendar (xr.ANum 365) Examples.ds_tas)
                "time" Examples.time_axis_tas (Examples.cfdate 1999 6 1))
      as (Hown & _); [reflexivity..|].
    apply Hown. reflexivity.
  - destruct (calendar_resolution Examples.self_cal Examples.ds_cal_a "time"
                Examples.time_axis_blank (xr.STime (Examples.date 2000 1 1)))
      as (_ & Hfallback); [reflexivity..|].
    destruct Hfallback as (Hfirst & _); [reflexivity|].
    apply (Hfirst [xr.attrs Examples.time_axis_blank]
             (xr.ds_attrs Examples.ds_cal_a)
             [preprocessor.convention Examples.self_cal]).
    + reflexivity.
    + constructor; [|constructor].
      split; [reflexivity | right; reflexivity].
    + reflexivity.
    + done.
  - destruct (calendar_resolution
                (preprocessor.set_ax_names Examples.self_cal
                   (<[ "T" := "lev" ]> ∅))
                Examples.ds_temp "lev"
                (Examples.coord "lev"
                   [("axis", xr.AStr "Z"); ("units", xr.AStr "Pa")]
                   Examples.levels_Pa).2
                (xr.SNum 85000))
      as (_ & Hfallback); [reflexivity..|].
    destruct Hfallback as (_ & Hnone & _); [reflexivity|].
    apply Hnone. repeat constructor.
  - destruct (calendar_resolution Examples.self_cal
                (Examples.with_global_calendar (xr.ANum 365)
                   Examples.ds_cal_a)
                "time" Examples.time_axis_blank
                (xr.STime (Examples.date 2000 1 1)))
      as (_ & Hfallback); [reflexivity..|].
    destruct Hfallback as (_ & _ & Hnum & _); [reflexivity|].
    apply (Hnum [xr.attrs Examples.time_axis_blank]
             [("calendar", xr.ANum 365)]
             [preprocessor.convention Examples.self_cal]).
    + reflexivity.
    + constructor; [|constructor].
      split; [reflexivity | right; reflexivity].
    + reflexivity.
Defined.

(** C6 on [ds_tas] as a static variable. *)
Lemma static_single_file_output_witness :
  preprocessor.SingleFilePreprocessor.preprocess Examples.rt0
    (Examples.new_tas Examples.static_range [Examples.file_tas]
       [preprocessor.CropDateRange])
    Examples.fs_tas
  = (Ok (Examples.parsed_tas Examples.static_range [Examples.file_tas]
           [preprocessor.CropDateRange]),
     <[ "out/tas.nc" := Examples.ds_tas_stripped ]> Examples.fs_tas)
  ∧ xr.data_of Examples.ds_tas_stripped = xr.data_of Examples.ds_tas.
Proof.
  apply (static_single_file_output Examples.rt0
           (Examples.new_tas Examples.static_range [Examples.file_tas]
              [preprocessor.CropDateRange])
           (Examples.parsed_tas Examples.static_range [Examples.file_tas]
              [preprocessor.CropDateRange])
           Examples.fs_tas Examples.file_tas Examples.ds_tas
           Examples.ds_tas_stripped); by vm_compute.
Defined.

(** C8, as stated, fails: a static variable with two source files, both on
    disk and the first one parsing, is a non-empty file list on which
    [preprocess] raises [AssertionError] and writes nothing. *)
Lemma static_multi_file_counterexample :
  preprocessor.files
    (Examples.new_tas Examples.static_range
       [Examples.file_tas; Examples.file_tas_b]
       preprocessor.MdtfdataPreprocessor_default_functions)
  = [Examples.file_tas; Examples.file_tas_b]
  ∧ is_ok (nc.open_dataset Examples.fs_two "in/tas.nc") = true
  ∧ is_ok (nc.open_dataset Examples.fs_two "in/tas_b.nc") = true
  ∧ is_ok (preprocessor.MDTFPreprocessorBase.parse Examples.rt0
             (Examples.new_tas Examples.static_range
                [Examples.file_tas; Examples.file_tas_b]
                preprocessor.MdtfdataPreprocessor_default_functions)
             Examples.ds_tas) = true
  ∧ preprocessor.DaskMultiFilePreprocessor.preprocess Examples.rt0
      (Examples.new_tas Examples.static_range
         [Examples.file_tas; Examples.file_tas_b]
         preprocessor.MdtfdataPreprocessor_default_functions)
      Examples.fs_two
    = (Raise AssertionError, Examples.fs_two).
Proof. repeat split; by vm_compute. Qed.

(** C8 as amended: a static variable with one source file and with two; a
    time-dependent variable with one source file and with two, whose merge,
    cropped to the year 2000, is written. *)
Lemma multi_file_output_witness :
  preprocessor.DaskMultiFilePreprocessor.preprocess Examples.rt0
    (Examples.new_tas Examples.static_range [Examples.file_tas]
       preprocessor.MdtfdataPreprocessor_default_functions)
    Examples.fs_two
  = (Ok (Examples.parsed_tas Examples.static_range [Examples.file_tas]
           preprocessor.MdtfdataPreprocessor_default_functions),
     <[ "out/tas.nc" := Examples.ds_tas_stripped ]> Examples.fs_two)
  ∧ preprocessor.DaskMultiFilePreprocessor.preprocess Examples.rt0
      (Examples.new_tas Examples.static_range
         [Examples.file_tas; Examples.file_tas_b]
         preprocessor.MdtfdataPreprocessor_default_functions)
      Examples.fs_two
    = (Raise AssertionError, Examples.fs_two)
  ∧ preprocessor.DaskMultiFilePreprocessor.preprocess Examples.rt0
      (Examples.new_tas Examples.range_2000 [Examples.file_tas]
         preprocessor.MdtfdataPreprocessor_default_functions)
      Examples.fs_tas
    = (Ok (Examples.parsed_tas Examples.range_2000 [Examples.file_tas]
             preprocessor.MdtfdataPreprocessor_default_functions),
       <[ "out/tas.nc" := Examples.ds_tas_2000 ]> Examples.fs_tas)
  ∧ preprocessor.DaskMultiFilePreprocessor.preprocess Examples.rt0
      (Examples.new_tas Examples.range_2000
         [Examples.file_tas; Examples.file_tas_b]
         preprocessor.MdtfdataPreprocessor_default_functions)
      Examples.fs_later
    = (Ok (Examples.parsed_tas Examples.range_2000
             [Examples.file_tas; Examples.file_tas_b]
             preprocessor.MdtfdataPreprocessor_default_functions),
       <[ "out/tas.nc" := Examples.ds_tas_2000 ]> Examples.fs_later).
Proof.
  split_and!.
  - destruct (multi_file_output Examples.rt0
                (Examples.new_tas Examples.static_range [Examples.file_tas]
                   preprocessor.MdtfdataPreprocessor_default_functions)
                (Examples.parsed_tas Examples.static_range [Examples.file_tas]
                   preprocessor.MdtfdataPreprocessor_default_functions)
                Examples.fs_two Examples.file_tas Examples.ds_tas
                Examples.ds_tas_stripped) as [Hstatic _]; [by vm_compute..|].
    destruct Hstatic as [Hone _]; [reflexivity|].
    apply Hone. reflexivity.
  - destruct (multi_file_output Examples.rt0
                (Examples.new_tas Examples.static_range
                   [Examples.file_tas; Examples.file_tas_b]
                   preprocessor.MdtfdataPreprocessor_default_functions)
                (Examples.parsed_tas Examples.static_range
                   [Examples.file_tas; Examples.file_tas_b]
                   preprocessor.MdtfdataPreprocessor_default_functions)
                Examples.fs_two Examples.file_tas Examples.ds_tas
                Examples.ds_tas_stripped) as [Hstatic _]; [by vm_compute..|].
    destruct Hstatic as [_ Hmany]; [reflexivity|].
    apply Hmany. discriminate.
  - destruct (multi_file_output Examples.rt0
                (Examples.new_tas Examples.range_2000 [Examples.file_tas]
                   preprocessor.MdtfdataPreprocessor_default_functions)
                (Examples.parsed_tas Examples.range_2000 [Examples.file_tas]
                   preprocessor.MdtfdataPreprocessor_default_functions)
                Examples.fs_tas Examples.file_tas Examples.ds_tas
                Examples.ds_tas_stripped) as [_ Htime]; [by vm_compute..|].
    destruct (Htime eq_refl "time" [Examples.ds_tas_stripped])
      as (_ & Hsingle & Hwrite & _); [by vm_compute..|].
    apply (Hwrite Examples.ds_tas_stripped Examples.ds_tas_2000).
    + by apply Hsingle.
    + by vm_compute.
  - destruct (multi_file_output Examples.rt0
                (Examples.new_tas Examples.range_2000
                   [Examples.file_tas; Examples.file_tas_b]
                   preprocessor.MdtfdataPreprocessor_default_functions)
                (Examples.parsed_tas Examples.range_2000
                   [Examples.file_tas; Examples.file_tas_b]
                   preprocessor.MdtfdataPreprocessor_default_functions)
                Examples.fs_later Examples.file_tas Examples.ds_tas
                Examples.ds_tas_stripped) as [_ Htime]; [by vm_compute..|].
    destruct (Htime eq_refl "time"
                [Examples.ds_tas_stripped; Examples.ds_tas_later])
      as (_ & _ & Hwrite & _); [by vm_compute..|].
    apply (Hwrite Examples.ds_tas_merged Examples.ds_tas_2000);
      by vm_compute.
Defined.

Section date_order.
Import xr preprocessor Examples.

Lemma tuple_cmp_antisym a b : tuple_cmp b a = CompOpp (tuple_cmp a b).
Proof.
  revert b. induction a as [|x a IH]; intros [|y b]; simpl; try done.
  rewrite (Z.compare_antisym x y). destruct (x ?= y)%Z; simpl; auto.
Qed.

Lemma tuple_cmp_le_trans a b c :
  tuple_cmp a b ≠ Gt → tuple_cmp b c ≠ Gt → tuple_cmp a c ≠ Gt.
Proof.
  revert b c. induction a as [|x a IH]; intros [|y b] [|z c]; simpl; try done.
  destruct (Z.compare_spec x y) as [->|Hxy|Hxy]; [| |done].
  - destruct (Z.compare_spec y z) as [->|Hyz|Hyz]; [apply IH|done|done].
  - intros _. destruct (Z.compare_spec y z) as [->|Hyz|Hyz]; [| |done];
      intros _.
    + by rewrite (proj2 (Z.compare_lt_iff x z)) by lia.
    + by rewrite (proj2 (Z.compare_lt_iff x z)) by lia.
Qed.

Lemma lower_lt_asym x y : lower_lt x y = true → lower_lt y x = false.
Proof.
  unfold lower_lt, dt_lt, dt_gt.
  rewrite (tuple_cmp_antisym (timetuple (lower y)) (timetuple (lower x))).
  by destruct (tuple_cmp (timetuple (lower y)) (timetuple (lower x))).
Qed.

Lemma lower_ge_trans x y z :
  lower_lt y x = false → lower_lt z y = false → lower_lt z x = false.
Proof.
  unfold lower_lt, dt_lt, dt_gt. intros Hxy Hyz.
  pose proof (tuple_cmp_le_trans (timetuple (lower x)) (timetuple (lower y))
                (timetuple (lower z))) as Htrans.
  destruct (tuple_cmp (timetuple (lower x)) (timetuple (lower y))); try done;
    destruct (tuple_cmp (timetuple (lower y)) (timetuple (lower z))); try done;
    destruct (tuple_cmp (timetuple (lower x)) (timetuple (lower z))); try done;
    exfalso; by apply Htrans.
Qed.

Lemma set_iter_valid_id : set_iter_valid rt0.
Proof. intros l _. reflexivity. Qed.

Lemma set_iter_valid_rev : set_iter_valid rt_rev.
Proof. intros l _. apply reverse_Permutation. Qed.
End date_order.

(** C7, as stated, fails.  Both runtimes iterate a set once over each of its
    elements.  The unclassified dimensions of [rad] are listed as
    [wavelength], [band]; with the set iterated in the other order the tag
    [W0] goes to [band], and two runs on the same dataset differ. *)
Lemma extra_axes_order_counterexample :
  preprocessor.set_iter_valid Examples.rt0
  ∧ preprocessor.set_iter_valid Examples.rt_rev
  ∧ preprocessor.MDTFPreprocessorBase.unclaimed_dims
      ["time"; "wavelength"; "band"]
      (<[ "T" := "time" ]> {[ "var" := "rad" ]})
    = ["wavelength"; "band"]
  ∧ preprocessor.MDTFPreprocessorBase.parse_axes Examples.rt0
      Examples.self_rad Examples.ds_rad
    = Ok (preprocessor.set_ax_names Examples.self_rad
            (<[ "W0" := "wavelength" ]>
               (<[ "W1" := "band" ]>
                  (<[ "T" := "time" ]> {[ "var" := "rad" ]}))))
  ∧ preprocessor.MDTFPreprocessorBase.parse_axes Examples.rt_rev
      Examples.self_rad Examples.ds_rad
    = Ok (preprocessor.set_ax_names Examples.self_rad
            (<[ "W0" := "band" ]>
               (<[ "W1" := "wavelength" ]>
                  (<[ "T" := "time" ]> {[ "var" := "rad" ]})))).
Proof.
  split; [apply set_iter_valid_id|].
  split; [apply set_iter_valid_rev|].
  repeat split; by vm_compute.
Qed.

(** C7 as amended, on [ds_rad] with the set iterated in reverse. *)
Lemma extra_axes_tags_witness :
  ∃ others,
    others ≡ₚ ["wavelength"; "band"]
    ∧ ∀ (i : nat) n,
        others !! i = Some n →
        (<[ "W0" := "band" ]>
           (<[ "W1" := "wavelength" ]>
              (<[ "T" := "time" ]> ({[ "var" := "rad" ]} : gmap string string))))
        !! ("W" +:+ pretty i) = Some n.
Proof.
  destruct (extra_axes_tags Examples.rt_rev Examples.self_rad
              (preprocessor.set_ax_names Examples.self_rad
                 (<[ "W0" := "band" ]>
                    (<[ "W1" := "wavelength" ]>
                       (<[ "T" := "time" ]> {[ "var" := "rad" ]}))))
              Examples.ds_rad set_iter_valid_rev)
    as (var_name & w & da & Hfind & Hda & Hperm & _ & Htags);
    [by vm_compute|].
  vm_compute in Hfind. injection Hfind as <- _.
  vm_compute in Hda. injection Hda as <-.
  eexists. split; [exact Hperm|exact Htags].
Defined.

(** C9 on a descriptor whose two files are listed latest first. *)
Lemma file_list_invariant_witness :
  ∃ self,
    preprocessor.MDTFPreprocessorBase.__init__ Examples.rt0
      preprocessor.SamplemodeldataPreprocessor_default_functions
      Examples.data_mgr_2000
      (Examples.var_tas Examples.range_2000
         [Examples.file_tas_b; Examples.file_tas]) []
    = Ok self
    ∧ preprocessor.files self = [Examples.file_tas; Examples.file_tas_b]
    ∧ StronglySorted
        (preprocessor.MDTFPreprocessorBase.not_before Examples.lower_lt
           preprocessor.MDTFPreprocessorBase.date_range_start)
        (preprocessor.files self).
Proof.
  destruct (file_list_invariant Examples.rt0
              preprocessor.SamplemodeldataPreprocessor_default_functions []
              Examples.data_mgr_2000
              (Examples.var_tas Examples.range_2000
                 [Examples.file_tas_b; Examples.file_tas])
              lower_lt_asym lower_ge_trans) as [_ Hinv].
  eexists. split; [by vm_compute|].
  split; [by vm_compute|].
  refine (proj1 (proj2 (proj2 (Hinv _ _))) _); [by vm_compute|].
  vm_compute. lia.
Defined.

(** C2.  Two files whose titles differ: [preprocess] raises and writes
    nothing.  Two files that differ in the number of points along [x], a
    dimension without a coordinate; in the units of the concatenated
    variable; in the values of [area], which is not concatenated; in their
    variables: the merge fails.  Two files that agree: the merge is
    [ds_tas_merged]. *)
Lemma merge_consistency_witness :
  preprocessor.DaskMultiFilePreprocessor.preprocess Examples.rt0
    (Examples.new_tas Examples.range_2000
       [Examples.file_tas; Examples.file_tas_b]
       preprocessor.MdtfdataPreprocessor_default_functions)
    Examples.fs_merge
  = (Raise (ValueError "Dataset global attributes not equal."),
     Examples.fs_merge)
  ∧ (∃ e, nc.combine "time"
            [Examples.ds_tx [0; 1] "K" 10 []; Examples.ds_tx [0; 1; 2] "K" 10 []]
          = Raise e ∧ nc.is_merge_failure e = true)
  ∧ (∃ e, nc.combine "time"
            [Examples.ds_tx [0; 1] "K" 10 []; Examples.ds_tx [0; 1] "degC" 10 []]
          = Raise e ∧ nc.is_merge_failure e = true)
  ∧ (∃ e, nc.combine "time"
            [Examples.ds_tx [0; 1] "K" 10 []; Examples.ds_tx [0; 1] "K" 20 []]
          = Raise e ∧ nc.is_merge_failure e = true)
  ∧ (∃ e, nc.combine "time"
            [Examples.ds_tx [0; 1] "K" 10 [];
             Examples.ds_tx [0; 1] "K" 10
               [("ps", Examples.array_of_rank ["time"])]]
          = Raise e ∧ nc.is_merge_failure e = true)
  ∧ nc.combine "time" [Examples.ds_tas_stripped; Examples.ds_tas_later]
    = Ok Examples.ds_tas_merged.
Proof.
  assert (∀ a b,
            (nc.same_variables a b && nc.dims_match "time" a b
             && nc.identical_nonconcat "time" a b && nc.attrs_equal a b)
            = false →
            ∃ e, nc.combine "time" [a; b] = Raise e
                 ∧ nc.is_merge_failure e = true) as Hfails.
  { intros a b Hchecks.
    destruct (merge_consistency "time" a [b]) as (_ & Hdiv & _).
    apply (Hdiv b); [left|].
    intros (?&?&?&?)%files_agree_checks.
    destruct (nc.same_variables a b), (nc.dims_match "time" a b),
      (nc.identical_nonconcat "time" a b), (nc.attrs_equal a b); done. }
  split_and!.
  - destruct (merge_consistency "time" Examples.ds_tas_stripped
                [preprocessor.MDTFPreprocessorBase.strip_attrs
                   Examples.ds_tas_other]) as (_ & _ & Hraise & _).
    destruct (Hraise (ValueError "Dataset global attributes not equal."))
      as [_ Hpipe]; [by vm_compute|].
    apply (Hpipe Examples.rt0 _ Examples.fs_merge Examples.file_tas
             Examples.ds_tas
             (Examples.parsed_tas Examples.range_2000
                [Examples.file_tas; Examples.file_tas_b]
                preprocessor.MdtfdataPreprocessor_default_functions)
             Examples.ds_tas_stripped); by vm_compute.
  - apply Hfails. by vm_compute.
  - apply Hfails. by vm_compute.
  - apply Hfails. by vm_compute.
  - apply Hfails. by vm_compute.
  - destruct (merge_consistency "time" Examples.ds_tas_stripped
                [Examples.ds_tas_later]) as (Hiff & _).
    destruct (proj2 Hiff) as [ds Hds].
    + constructor; [|constructor]. apply files_agree_checks. by vm_compute.
    + rewrite Hds. f_equal. vm_compute in Hds. by injection Hds as <-.
Defined.

(** * Further properties of [util.py] *)

(** ** [MultiMap] *)

Section MultiMap_more.
Context {K V : Type} `{Countable K} `{Countable V}.
Implicit Types (m : gmap K (gset V)) (k : K) (v : V).

Lemma maps_to_lookup m k v :
  util.maps_to m k v ↔ v ∈ default ∅ (m !! k).
Proof.
  unfold util.maps_to. destruct (m !! k) as [s|]; simpl.
  - split; [by intros (s' & [= <-] & ?)|eauto].
  - split; [by intros (s' & ? & ?)|set_solver].
Qed.

Lemma inverse_inner_nonempty k (s : gset V) (d : gmap V (gset K)) :
  (∀ v' s', d !! v' = Some s' → s' ≠ ∅) →
  ∀ v' s',
    set_fold (λ v d, <[ v := {[ k ]} ∪ default ∅ (d !! v) ]> d) d s !! v'
    = Some s' → s' ≠ ∅.
Proof.
  intros Hd.
  apply (set_fold_ind_L
           (λ r (X : gset V), ∀ v' s', r !! v' = Some s' → s' ≠ ∅)).
  - exact Hd.
  - intros x X r Hx IH v' s'. destruct (decide (x = v')) as [->|Hne].
    + rewrite lookup_insert_eq. intros [= <-]. set_solver.
    + rewrite lookup_insert_ne by done. apply IH.
Qed.

Lemma inverse_nonempty m v s : util.inverse m !! v = Some s → s ≠ ∅.
Proof.
  revert v s. unfold util.inverse.
  apply (map_fold_weak_ind (λ r (m : gmap K (gset V)),
           ∀ v s, r !! v = Some s → s ≠ ∅)).
  - intros v s. by rewrite lookup_empty.
  - clear m. intros i x m r Hi IH. by apply inverse_inner_nonempty.
Qed.
End MultiMap_more.

(** X1. [inverse_get_] raises [KeyError] exactly when no key maps to the
    value, although the test for it is commented out: the lookup in the
    inverted dict raises it.  It never returns an empty list, whereas [get_]
    returns the empty list for a key whose set is empty. *)
Theorem inverse_get_KeyError {K V : Type} `{Countable K} `{Countable V}
    (m : gmap K (gset V)) (v : V) :
  (util.inverse_get_ m v = Raise KeyError ↔ ¬ ∃ k, util.maps_to m k v)
  ∧ util.inverse_get_ m v ≠ Ok (Many [])
  ∧ ∀ k, m !! k = Some ∅ → util.get_ m k = Ok (Many []).
Proof.
  split; [|split].
  - unfold util.inverse_get_.
    destruct (util.inverse m !! v) as [s|] eqn:Hs.
    + split; [done|]. intros Hno. exfalso.
      pose proof (inverse_nonempty m v s Hs) as Hne.
      apply set_choose_L in Hne as [k Hk]. apply Hno. exists k.
      apply elem_of_inverse. by rewrite Hs.
    + split; [|done]. intros _ [k Hk].
      apply elem_of_inverse in Hk. rewrite Hs in Hk. set_solver.
  - unfold util.inverse_get_.
    destruct (util.inverse m !! v) as [s|] eqn:Hs; [|done].
    pose proof (inverse_nonempty m v s Hs) as Hne.
    destruct (elements s) as [|x [|y l]] eqn:He; simpl; try done.
    apply elements_empty_iff in He. apply leibniz_equiv in He. done.
  - intros k Hk. unfold util.get_. rewrite Hk. by rewrite elements_empty.
Qed.

Section inverse_twice.
Context {K V : Type} `{Countable K} `{Countable V}.
Implicit Types (m : gmap K (gset V)) (k : K) (v : V).

Lemma inverse_inverse_elem m k v :
  v ∈ default ∅ (util.inverse (util.inverse m) !! k)
  ↔ v ∈ default ∅ (m !! k).
Proof.
  rewrite elem_of_inverse, maps_to_lookup, elem_of_inverse.
  apply maps_to_lookup.
Qed.

Lemma inverse_inverse_lookup m k s :
  util.inverse (util.inverse m) !! k = Some s ↔ m !! k = Some s ∧ s ≠ ∅.
Proof.
  split.
  - intros Hs. pose proof (inverse_nonempty _ _ _ Hs) as Hne.
    split; [|done].
    assert (∀ v, v ∈ s ↔ v ∈ default ∅ (m !! k)) as Hmem.
    { intros v. rewrite <- inverse_inverse_elem. by rewrite Hs. }
    destruct (m !! k) as [s'|]; simpl in Hmem.
    + f_equal. apply set_eq. intros v. by rewrite Hmem.
    + apply set_choose_L in Hne as [v Hv]. apply Hmem in Hv. set_solver.
  - intros [Hk Hne].
    assert (∀ v, v ∈ default ∅ (util.inverse (util.inverse m) !! k) ↔ v ∈ s)
      as Hmem.
    { intros v. rewrite inverse_inverse_elem. by rewrite Hk. }
    destruct (util.inverse (util.inverse m) !! k) as [s'|]; simpl in Hmem.
    + f_equal. apply set_eq. intros v. by rewrite Hmem.
    + apply set_choose_L in Hne as [v Hv]. apply Hmem in Hv. set_solver.
Qed.
End inverse_twice.

(** X2. Inverting a [MultiMap] twice gives back every key whose set is not
    empty, with its set, and nothing else: the keys with an empty set are
    lost.  So [inverse] is its own inverse on the maps that have no empty
    set. *)
Theorem inverse_involutive {K V : Type} `{Countable K} `{Countable V}
    (m : gmap K (gset V)) :
  (∀ k s, util.inverse (util.inverse m) !! k = Some s
          ↔ m !! k = Some s ∧ s ≠ ∅)
  ∧ ((∀ k s, m !! k = Some s → s ≠ ∅) →
     util.inverse (util.inverse m) = m).
Proof.
  split; [apply inverse_inverse_lookup|].
  intros Hne. apply map_eq. intros k.
  destruct (m !! k) as [s|] eqn:Hk.
  - apply inverse_inverse_lookup. eauto.
  - destruct (util.inverse (util.inverse m) !! k) as [s|] eqn:Hs; [|done].
    apply inverse_inverse_lookup in Hs as [Hs _]. congruence.
Qed.

Section to_dict_facts.
Context {K V : Type} `{Countable K} `{Countable V}.

Lemma to_dict_fold (self m : gmap K (gset V)) :
  m ⊆ self →
  map_fold
    (λ key (_ : gset V) acc,
       acc ≫= λ d, util.get_ self key ≫= λ x, Ok (<[ key := x ]> d))
    (Ok ∅) m
  = Ok ((λ s, unwrap_single (elements s)) <$> m).
Proof.
  apply (map_fold_weak_ind
           (λ r (m : gmap K (gset V)),
              m ⊆ self → r = Ok ((λ s, unwrap_single (elements s)) <$> m))).
  - intros _. by rewrite fmap_empty.
  - clear m. intros i x m r Hi IH Hsub.
    assert (self !! i = Some x) as Hself.
    { eapply lookup_weaken; [|exact Hsub]. apply lookup_insert_eq. }
    rewrite IH.
    + simpl. unfold util.get_. rewrite Hself. simpl. by rewrite fmap_insert.
    + etrans; [|exact Hsub]. by apply insert_subseteq.
Qed.
End to_dict_facts.

(** X3. [to_dict] never raises: every key it passes to [get_] is a key of
    the map.  The dict it returns has the keys of the map, each with what
    [get_] returns for it. *)
Theorem to_dict_total {K V : Type} `{Countable K} `{Countable V}
    (m : gmap K (gset V)) :
  ∃ d, util.to_dict m = Ok d
       ∧ dom d = dom m
       ∧ ∀ k, is_Some (m !! k) → (Ok <$> d !! k) = Some (util.get_ m k).
Proof.
  exists ((λ s, unwrap_single (elements s)) <$> m). split; [|split].
  - by apply to_dict_fold.
  - apply dom_fmap_L.
  - intros k [s Hs]. rewrite lookup_fmap, Hs. simpl.
    unfold util.get_. by rewrite Hs.
Qed.

(** X4. Assignment followed by lookup.  After [m[key] = value], [get_(key)]
    returns [x] itself when the value is the scalar [x], or an iterable all
    of whose elements are [x] (duplicates collapse in the set); it returns a
    list when the iterable has two distinct elements; and the other keys are
    as before. *)
Theorem setitem_get {K V : Type} `{Countable K} `{Countable V}
    (m : gmap K (gset V)) (key : K) :
  (∀ x, util.get_ (util.__setitem__ m key (util.AScalar x)) key = Ok (One x))
  ∧ (∀ x l, l ≠ [] → Forall (λ y, y = x) l →
       util.get_ (util.__setitem__ m key (util.AnIterable l)) key
       = Ok (One x))
  ∧ (∀ x y l, x ∈ l → y ∈ l → x ≠ y →
       ∃ l', util.get_ (util.__setitem__ m key (util.AnIterable l)) key
             = Ok (Many l')
             ∧ NoDup l' ∧ ∀ z, z ∈ l' ↔ z ∈ l)
  ∧ (∀ value key', key' ≠ key →
       util.get_ (util.__setitem__ m key value) key' = util.get_ m key').
Proof.
  unfold util.get_, util.__setitem__. split; [|split; [|split]].
  - intros x. rewrite lookup_insert_eq. simpl. by rewrite elements_singleton.
  - intros x l Hne Hall. rewrite lookup_insert_eq. simpl.
    assert (list_to_set l = ({[ x ]} : gset V)) as ->.
    { apply set_eq. intros z. rewrite elem_of_list_to_set, elem_of_singleton.
      split.
      - intros Hz. by apply (proj1 (Forall_forall _ _) Hall).
      - intros ->. destruct l as [|y l]; [done|].
        apply Forall_cons in Hall as [-> _]. left. }
    by rewrite elements_singleton.
  - intros x y l Hx Hy Hxy. rewrite lookup_insert_eq. simpl.
    exists (elements (list_to_set l : gset V)). split; [|split].
    + f_equal. apply unwrap_single_set.
      assert ({[ x; y ]} ⊆ (list_to_set l : gset V)) as Hsub.
      { intros z. rewrite elem_of_list_to_set. set_solver. }
      apply subseteq_size in Hsub.
      rewrite size_union, !size_singleton in Hsub by set_solver. lia.
    + apply NoDup_elements.
    + intros z. by rewrite elem_of_elements, elem_of_list_to_set.
  - intros value key' Hne. by rewrite lookup_insert_ne.
Qed.

(** X5. Translating names.  For the convention [CF] both directions return
    the name as it is, whatever the tables hold; for a convention that has no
    table the assertion fails; and for a convention whose table gives the CF
    name [cf] the single name [name], and gives [name] to no other CF name,
    [toCF] and [fromCF] are inverse to each other on that pair. *)
Theorem translate_round_trip
    (field_dict : gmap string (gmap string (gset string)))
    (convention : string) :
  (∀ name, util.VariableTranslator.toCF field_dict "CF" name = Ok (One name)
           ∧ util.VariableTranslator.fromCF field_dict "CF" name
             = Ok (One name))
  ∧ (convention ≠ "CF" → field_dict !! convention = None →
     ∀ name, util.VariableTranslator.toCF field_dict convention name
             = Raise AssertionError
             ∧ util.VariableTranslator.fromCF field_dict convention name
               = Raise AssertionError)
  ∧ (∀ names cf name,
       convention ≠ "CF" → field_dict !! convention = Some names →
       names !! cf = Some {[ name ]} →
       (∀ cf' s, names !! cf' = Some s → name ∈ s → cf' = cf) →
       util.VariableTranslator.toCF field_dict convention name = Ok (One cf)
       ∧ util.VariableTranslator.fromCF field_dict convention cf
         = Ok (One name)).
Proof.
  unfold util.VariableTranslator.toCF, util.VariableTranslator.fromCF.
  split; [done|]. split.
  - intros Hne Hnone name.
    destruct (decide (convention = "CF")) as [|_]; [done|].
    by rewrite Hnone.
  - intros names cf name Hne Hnames Hcf Huniq.
    destruct (decide (convention = "CF")) as [|_]; [done|].
    rewrite Hnames. split.
    + apply inverse_get_unique. intros cf'. split.
      * intros (s & Hs & Hin). eauto.
      * intros ->. exists {[ name ]}. split; [done|]. set_solver.
    + unfold util.get_. rewrite Hcf. by rewrite elements_singleton.
Qed.

(** ** The properties of [MultiMap] and [VariableTranslator] at concrete
    inputs *)

(** X1 on [mm_empty]: no key maps to [9], and the key [e] has the empty
    set. *)
Lemma inverse_get_KeyError_witness :
  (¬ ∃ k, util.maps_to Examples.mm_empty k 9%nat)
  ∧ util.get_ Examples.mm_empty "e" = Ok (Many []).
Proof.
  destruct (inverse_get_KeyError Examples.mm_empty 9%nat) as (Hiff & _ & Hget).
  split.
  - apply Hiff. by vm_compute.
  - apply Hget. by vm_compute.
Defined.

(** X2 on [mm], which has no empty set. *)
Lemma inverse_involutive_witness :
  util.inverse (util.inverse Examples.mm) = Examples.mm.
Proof.
  apply (inverse_involutive Examples.mm).
  change (map_Forall (λ (_ : string) (s : gset nat), s ≠ ∅) Examples.mm).
  by_compute.
Defined.

(** X3 on [mm]. *)
Lemma to_dict_total_witness :
  ∃ d, util.to_dict Examples.mm = Ok d
       ∧ (Ok <$> d !! "b") = Some (util.get_ Examples.mm "b").
Proof.
  destruct (to_dict_total Examples.mm) as (d & Hd & _ & Hget).
  exists d. split; [exact Hd|]. apply Hget. by_compute.
Defined.

(** X4 on [mm] and the key [a]. *)
Lemma setitem_get_witness :
  util.get_ (util.__setitem__ Examples.mm "a" (util.AnIterable [5; 5]%nat)) "a"
  = Ok (One 5%nat)
  ∧ (∃ l', util.get_
             (util.__setitem__ Examples.mm "a" (util.AnIterable [5; 6; 5]%nat))
             "a" = Ok (Many l')
           ∧ 5%nat ∈ l' ∧ 6%nat ∈ l')
  ∧ util.get_ (util.__setitem__ Examples.mm "a" (util.AScalar 5%nat)) "b"
    = util.get_ Examples.mm "b".
Proof.
  destruct (setitem_get Examples.mm "a") as (_ & Hone & Hmany & Hother).
  split; [|split].
  - apply (Hone 5%nat [5; 5]%nat); [discriminate|]. by repeat constructor.
  - destruct (Hmany 5%nat 6%nat [5; 6; 5]%nat) as (l' & Hl' & _ & Hmem).
    + by_compute.
    + by_compute.
    + discriminate.
    + exists l'. split; [exact Hl'|]. split; apply Hmem; by_compute.
  - apply Hother. discriminate.
Defined.

(** X5 on [field_dict]: [pr_var] and [PRECT] translate into each other for
    CESM, and a convention without a table is refused. *)
Lemma translate_round_trip_witness :
  util.VariableTranslator.toCF Examples.field_dict "CESM" "PRECT"
  = Ok (One "pr_var")
  ∧ util.VariableTranslator.fromCF Examples.field_dict "CESM" "pr_var"
    = Ok (One "PRECT")
  ∧ util.VariableTranslator.toCF Examples.field_dict "GFDL" "PRECT"
    = Raise AssertionError.
Proof.
  destruct (translate_round_trip Examples.field_dict "CESM") as (_ & _ & Hrt).
  destruct (translate_round_trip Examples.field_dict "GFDL") as (_ & Hno & _).
  assert (∀ cf' s, Examples.var_names_CESM !! cf' = Some s → "PRECT" ∈ s →
                   cf' = "pr_var") as Huniq.
  { change (map_Forall (λ (cf' : string) (s : gset string),
                          "PRECT" ∈ s → cf' = "pr_var")
                       Examples.var_names_CESM).
    by_compute. }
  split; [|split].
  - apply (Hrt Examples.var_names_CESM "pr_var" "PRECT");
      [discriminate|by vm_compute|by vm_compute|exact Huniq].
  - apply (Hrt Examples.var_names_CESM "pr_var" "PRECT");
      [discriminate|by vm_compute|by vm_compute|exact Huniq].
  - apply Hno; [discriminate|by vm_compute].
Defined.

(** * Further properties of [util.py]: [Singleton] and [PathManager] *)

(** X6. A [Singleton] class is constructed once.  After a call that
    returned an instance, every later call for the class returns that
    instance and leaves [_instances] as it is, whatever arguments it is given
    and whatever the construction would do with them; a call whose
    construction raises caches nothing; and after [_reset] the next call
    constructs again, from its own arguments, while the instances of the
    other classes stay. *)
Theorem Singleton_constructed_once {I A : Type}
    (construct : A → result I) (cls : string) (args : A)
    (_instances : gmap string I) :
  (∀ inst st',
     util.Singleton.__call__ construct cls args _instances = (Ok inst, st') →
     ∀ (construct' : A → result I) (args' : A),
       util.Singleton.__call__ construct' cls args' st' = (Ok inst, st'))
  ∧ (∀ e st',
       util.Singleton.__call__ construct cls args _instances = (Raise e, st') →
       st' = _instances ∧ _instances !! cls = None)
  ∧ (∀ inst,
       construct args = Ok inst →
       util.Singleton.__call__ construct cls args
         (util.Singleton._reset cls _instances)
       = (Ok inst, <[ cls := inst ]> _instances))
  ∧ (∀ cls', cls' ≠ cls →
       util.Singleton._reset cls _instances !! cls' = _instances !! cls').
Proof.
  unfold util.Singleton.__call__, util.Singleton._reset.
  split; [|split; [|split]].
  - intros inst st' Hcall construct' args'.
    destruct (_instances !! cls) as [inst0|] eqn:Hcls.
    + injection Hcall as <- <-. by rewrite Hcls.
    + destruct (construct args) as [inst1|e]; [|done].
      injection Hcall as <- <-. by rewrite lookup_insert_eq.
  - intros e st' Hcall.
    destruct (_instances !! cls) as [inst0|] eqn:Hcls; [done|].
    destruct (construct args) as [inst1|e']; [done|].
    by injection Hcall as <- <-.
  - intros inst Hinst. rewrite lookup_delete_eq, Hinst.
    by rewrite insert_delete_eq.
  - intros cls' Hne. by apply lookup_delete_ne.
Qed.

Section PathManager_facts.
Import util.PathManager.
Context {W : Type} (rmtree : string → W → result W).

Lemma list_remove_middle (pre rest : list string) d :
  d ∉ pre → list_remove d (pre ++ d :: rest)%list = Ok (pre ++ rest)%list.
Proof.
  induction pre as [|x pre IH]; simpl; intros Hd.
  - by rewrite decide_True.
  - apply not_elem_of_cons in Hd as [Hne Hd].
    rewrite decide_False by done. by rewrite IH.
Qed.

Lemma list_remove_Ok (l l' : list string) d :
  list_remove d l = Ok l' → l' `sublist_of` l ∧ (NoDup l → d ∉ l').
Proof.
  revert l'. induction l as [|x l IH]; simpl; intros l'; [done|].
  case_decide as Hx.
  - intros [= <-]. subst x. split; [by apply sublist_cons|].
    by intros [? ?]%NoDup_cons.
  - destruct (list_remove d l) as [l''|] eqn:Hrem; simpl; [|done].
    intros [= <-]. destruct (IH l'' eq_refl) as [Hsub Hnot].
    split; [by apply sublist_skip|].
    intros [? Hnd]%NoDup_cons. apply not_elem_of_cons. split; [done|].
    by apply Hnot.
Qed.

Lemma cleanup_from_skips (fuel : nat) (r : list (string * string)) :
  ∀ (pre rest : list string) (w : W),
    NoDup (pre ++ rest)%list → (length rest ≤ fuel)%nat →
    cleanup_from rmtree fuel (length pre) (mk r (pre ++ rest)%list) w
    = Some (w' ← foldM (λ w d, rmtree d w) (even_index rest) w;
            Ok (mk r (pre ++ odd_index rest)%list, w')).
Proof.
  induction fuel as [fuel IH] using lt_wf_ind.
  intros pre [|a rest] w Hnd Hlen.
  - destruct fuel; simpl; rewrite app_nil_r, lookup_ge_None_2 by done;
      by rewrite ?app_nil_r.
  - simpl in Hlen. destruct fuel as [|fuel]; [lia|].
    cbn [cleanup_from _temp_dirs].
    rewrite list_lookup_middle by done.
    unfold rm_tempdir. cbn [_temp_dirs].
    rewrite bool_decide_eq_true_2 by set_solver.
    rewrite list_remove_middle.
    2:{ apply NoDup_app in Hnd as (_ & Hdisj & _). intros Hin.
        apply (Hdisj a Hin). left. }
    cbn [even_index]. simpl.
    destruct (rmtree a w) as [w1|e]; simpl; [|done].
    unfold set_temp_dirs. cbn [roots].
    destruct rest as [|b rest].
    + destruct fuel; simpl; rewrite app_nil_r, lookup_ge_None_2 by (simpl; lia);
        by rewrite ?app_nil_r.
    + replace (pre ++ b :: rest)%list with ((pre ++ [b]) ++ rest)%list
        by (by rewrite <- app_assoc).
      replace (S (length pre)) with (length (pre ++ [b])%list)
        by (rewrite length_app; simpl; lia).
      rewrite IH; [|lia| |simpl in Hlen; lia].
      * unfold odd_index. simpl. rewrite <- app_assoc. simpl. by destruct rest.
      * rewrite <- app_assoc. simpl.
        apply NoDup_app in Hnd as (Hpre & Hdisj & Hrest).
        apply NoDup_cons in Hrest as [_ Hrest].
        apply NoDup_app. split; [done|]. split; [|done].
        intros x Hx Hin. apply (Hdisj x Hx). by right.
Qed.
End PathManager_facts.

(** X7. [_temp_dirs] never holds a directory twice: [__init__] leaves it
    empty, [make_tempdir] appends the new directory after asserting that it
    is not listed, and [rm_tempdir] takes the directory out of the list, so
    that it is no longer listed afterwards. *)
Theorem temp_dirs_NoDup {W H : Type}
    (new_dir_for : option H → W → result (string * W))
    (isdir : string → W → bool) (makedirs rmtree : string → W → result W) :
  (∀ arg_dict flag self,
     util.PathManager.__init__ arg_dict flag = Ok self →
     util.PathManager._temp_dirs self = [])
  ∧ (∀ hash_obj self w d self' w',
       util.PathManager.make_tempdir new_dir_for isdir makedirs hash_obj self w
       = Ok (d, self', w') →
       util.PathManager._temp_dirs self'
       = (util.PathManager._temp_dirs self ++ [d])%list
       ∧ (NoDup (util.PathManager._temp_dirs self) →
          NoDup (util.PathManager._temp_dirs self')))
  ∧ (∀ path self w self' w',
       util.PathManager.rm_tempdir rmtree path self w = Ok (self', w') →
       NoDup (util.PathManager._temp_dirs self) →
       NoDup (util.PathManager._temp_dirs self')
       ∧ path ∉ util.PathManager._temp_dirs self').
Proof.
  split; [|split].
  - intros arg_dict flag self. unfold util.PathManager.__init__.
    intros (r & _ & [= <-])%bind_Ok. done.
  - intros hash_obj self w d self' w'. unfold util.PathManager.make_tempdir.
    intros ([d0 w0] & _ & Hrest)%bind_Ok.
    apply bind_Ok in Hrest as (w1 & _ & Hrest).
    case_bool_decide as Hin; [done|]. injection Hrest as <- <- <-.
    split; [done|]. simpl. intros Hnd. apply NoDup_app.
    split; [done|]. split; [|apply NoDup_singleton].
    intros x Hx ->%list_elem_of_singleton. done.
  - intros path self w self' w'. unfold util.PathManager.rm_tempdir.
    case_bool_decide as Hin; [|done].
    intros (l & Hl & Hrest)%bind_Ok.
    apply bind_Ok in Hrest as (w1 & _ & [= <- <-]).
    intros Hnd. simpl. apply list_remove_Ok in Hl as [Hsub Hnot].
    split; [|by apply Hnot]. by eapply sublist_NoDup.
Qed.

(** X8. [cleanup] removes only every other temporary directory.  The loop
    reads [_temp_dirs] by position while [rm_tempdir] shortens it, so for a
    list without duplicates [rmtree] is called on the directories at the
    positions 0, 2, 4, ... (stopping at the first call that raises), and the
    directories at the positions 1, 3, 5, ... are still listed, and still on
    disk, when [cleanup] returns. *)
Theorem cleanup_skips {W : Type} (rmtree : string → W → result W)
    (self : util.PathManager.t) (w : W) :
  NoDup (util.PathManager._temp_dirs self) →
  util.PathManager.cleanup rmtree self w
  = Some (w' ← foldM (λ w d, rmtree d w)
                 (util.PathManager.even_index
                    (util.PathManager._temp_dirs self)) w;
          Ok (util.PathManager.set_temp_dirs self
                (util.PathManager.odd_index
                   (util.PathManager._temp_dirs self)), w')).
Proof.
  intros Hnd. destruct self as [r l]. unfold util.PathManager.cleanup.
  simpl in *.
  exact (cleanup_from_skips rmtree (length l) r [] l w Hnd (le_n _)).
Qed.

(** X6 for a class constructed with 5, then called with 7; and for a
    construction that raises. *)
Lemma Singleton_constructed_once_witness :
  util.Singleton.__call__ Examples.construct_positive "PathManager" 7%nat
    (<[ "PathManager" := 5%nat ]> ∅)
  = (Ok 5%nat, <[ "PathManager" := 5%nat ]> ∅)
  ∧ util.Singleton.__call__ Examples.construct_positive "PathManager" 7%nat
      (util.Singleton._reset "PathManager" (<[ "PathManager" := 5%nat ]> ∅))
    = (Ok 7%nat, <[ "PathManager" := 7%nat ]> (<[ "PathManager" := 5%nat ]> ∅)).
Proof.
  split.
  - destruct (Singleton_constructed_once Examples.construct_positive
                "PathManager" 5%nat ∅) as (Honce & _).
    apply (Honce 5%nat); reflexivity.
  - destruct (Singleton_constructed_once Examples.construct_positive
                "PathManager" 7%nat (<[ "PathManager" := 5%nat ]> ∅))
      as (_ & _ & Hreset & _).
    apply Hreset. reflexivity.
Defined.

(** X7 for a second temporary directory, and for the removal of the
    first. *)
Lemma temp_dirs_NoDup_witness :
  NoDup ["/tmp/MDTF_temp_a"; "/tmp/MDTF_temp_b"; "/tmp/MDTF_temp_c";
         "/tmp/MDTF_temp_d"]
  ∧ "/tmp/MDTF_temp_a" ∉ ["/tmp/MDTF_temp_b"; "/tmp/MDTF_temp_c"].
Proof.
  destruct (temp_dirs_NoDup Examples.new_dir_named (λ _ _, true)
              Examples.rmtree_log Examples.rmtree_log) as (_ & Hmake & Hrm).
  assert (NoDup (util.PathManager._temp_dirs Examples.paths_abc)) as Hnd
    by by_compute.
  split.
  - destruct (Hmake (Some "d") Examples.paths_abc [] "/tmp/MDTF_temp_d"
                (util.PathManager.set_temp_dirs Examples.paths_abc
                   ["/tmp/MDTF_temp_a"; "/tmp/MDTF_temp_b";
                    "/tmp/MDTF_temp_c"; "/tmp/MDTF_temp_d"]) [])
      as [_ Hnd']; [reflexivity|].
    by apply Hnd'.
  - destruct (Hrm "/tmp/MDTF_temp_a" Examples.paths_abc []
                (util.PathManager.set_temp_dirs Examples.paths_abc
                   ["/tmp/MDTF_temp_b"; "/tmp/MDTF_temp_c"])
                ["/tmp/MDTF_temp_a"]) as [_ Hnot]; [reflexivity|exact Hnd|].
    exact Hnot.
Defined.

(** X8 on three directories: the second is left. *)
Lemma cleanup_skips_witness :
  util.PathManager.cleanup Examples.rmtree_log Examples.paths_abc []
  = Some (Ok (util.PathManager.set_temp_dirs Examples.paths_abc
                ["/tmp/MDTF_temp_b"],
              ["/tmp/MDTF_temp_a"; "/tmp/MDTF_temp_c"])).
Proof.
  apply (cleanup_skips Examples.rmtree_log Examples.paths_abc []).
  by_compute.
Defined.

(** * Further properties of [util.py]: the configuration *)

Section caselist_facts.
Implicit Types (args d : gmap string util.pyval) (k : string).

Lemma copy_keys_lookup args (ks : list string) d k :
  foldl (λ d k, match args !! k with Some x => <[ k := x ]> d | None => d end)
    d ks !! k
  = match (if decide (k ∈ ks) then args !! k else None) with
    | Some x => Some x
    | None => d !! k
    end.
Proof.
  revert d. induction ks as [|k' ks IH]; intros d; cbn [foldl].
  - by rewrite decide_False by apply not_elem_of_nil.
  - rewrite IH.
    assert ((match args !! k' with Some x => <[ k' := x ]> d | None => d end) !! k
            = if decide (k = k') then
                match args !! k with Some x => Some x | None => d !! k end
              else d !! k) as ->.
    { destruct (decide (k = k')) as [<-|Hk].
      - destruct (args !! k); [by rewrite lookup_insert_eq|done].
      - destruct (args !! k'); [by rewrite lookup_insert_ne|done]. }
    destruct (decide (k = k')) as [->|Hne].
    + rewrite (decide_True (P := k' ∈ k' :: ks)) by left.
      case_decide; by destruct (args !! k').
    + destruct (decide (k ∈ ks)) as [Hin|Hnin].
      * by rewrite decide_True by (by right).
      * by rewrite decide_False by (by intros [?|?]%elem_of_cons).
Qed.
Lemma default_key_lookup d (k0 : string) (x0 : util.pyval) k :
  (match d !! k0 with Some _ => d | None => <[ k0 := x0 ]> d end) !! k
  = if decide (k = k0) then Some (default x0 (d !! k0)) else d !! k.
Proof.
  destruct (decide (k = k0)) as [->|Hne].
  - destruct (d !! k0) as [x|] eqn:Hx; [done|]. by rewrite lookup_insert_eq.
  - destruct (d !! k0); [done|]. by rewrite lookup_insert_ne.
Qed.

Lemma caselist_from_args_lookup args :
  ∃ d, util.caselist_from_args args = [d]
    ∧ ∀ k, d !! k
           = if decide (k = "root_dir") then
               match args !! "root_dir" with
               | Some x => Some x
               | None => args !! "CASE_ROOT_DIR"
               end
             else if decide (k = "model" ∨ k = "variable_convention") then
               Some (default (util.VStr "CMIP_GFDL") (args !! k))
             else if decide (k ∈ util.case_keys) then args !! k else None.
Proof.
  unfold util.caselist_from_args.
  set (d0 := foldl _ ∅ util.case_keys).
  assert (∀ k, d0 !! k = if decide (k ∈ util.case_keys) then args !! k else None)
    as Hd0.
  { intros k. unfold d0. rewrite copy_keys_lookup, lookup_empty.
    by destruct (if decide (k ∈ util.case_keys) then args !! k else None). }
  set (d1 := foldl _ d0 ["model"; "variable_convention"]).
  assert (∀ k, d1 !! k
               = if decide (k = "model" ∨ k = "variable_convention")
                 then Some (default (util.VStr "CMIP_GFDL") (args !! k))
                 else d0 !! k) as Hd1.
  { intros k. unfold d1. cbn [foldl]. rewrite !default_key_lookup, !Hd0.
    assert ("model" ∈ util.case_keys) by (unfold util.case_keys; set_solver).
    assert ("variable_convention" ∈ util.case_keys)
      by (unfold util.case_keys; set_solver).
    repeat case_decide; simplify_eq; try done; try tauto. }
  assert (∀ k, d1 !! k
               = if decide (k = "model" ∨ k = "variable_convention")
                 then Some (default (util.VStr "CMIP_GFDL") (args !! k))
                 else if decide (k ∈ util.case_keys) then args !! k else None)
    as Hd1'.
  { intros k. by rewrite Hd1, Hd0. }
  clearbody d1. clear Hd1 Hd0. clearbody d0.
  assert ("root_dir" ∈ util.case_keys) by (unfold util.case_keys; set_solver).
  eexists. split; [reflexivity|]. intros k.
  pose proof (Hd1' "root_dir") as Hr.
  rewrite decide_False, decide_True in Hr by (done || by intros [?|?]).
  rewrite Hr.
  destruct (decide (k = "root_dir")) as [->|Hk].
  - destruct (args !! "root_dir") as [x|]; [by rewrite Hr|].
    destruct (args !! "CASE_ROOT_DIR") as [y|]; [|by rewrite Hr].
    by rewrite lookup_insert_eq.
  - assert (∀ d2 : gmap string util.pyval,
              (d2 = d1 ∨ ∃ y, d2 = <[ "root_dir" := y ]> d1) →
              d2 !! k = d1 !! k) as Hframe.
    { intros d2 [->|[y ->]]; [done|]. by rewrite lookup_insert_ne. }
    rewrite Hframe, Hd1'.
    + by repeat case_decide.
    + destruct (args !! "root_dir"); [by left|].
      destruct (args !! "CASE_ROOT_DIR"); [right; eauto|by left].
Qed.
End caselist_facts.

(** X9. The case [caselist_from_args] builds.  It is one dict, whose keys
    are among the nine case keys; a case key that the arguments hold is
    copied with its value, whatever the value ([None] too); [model] and
    [variable_convention] are always there, with [CMIP_GFDL] when the
    arguments do not hold them; [root_dir] falls back on [CASE_ROOT_DIR];
    and no other key of the arguments gets into the case. *)
Theorem caselist_from_args_entries (args : gmap string util.pyval) :
  ∃ d, util.caselist_from_args args = [d]
    ∧ (∀ k, is_Some (d !! k) → k ∈ util.case_keys)
    ∧ (∀ k x, k ∈ util.case_keys → args !! k = Some x → d !! k = Some x)
    ∧ (∀ k, k ∈ ["model"; "variable_convention"] → args !! k = None →
         d !! k = Some (util.VStr "CMIP_GFDL"))
    ∧ (args !! "root_dir" = None → d !! "root_dir" = args !! "CASE_ROOT_DIR")
    ∧ (∀ k, k ∉ ["model"; "variable_convention"; "root_dir"] →
         args !! k = None → d !! k = None).
Proof.
  destruct (caselist_from_args_lookup args) as (d & Hd & Hlookup).
  exists d. split; [done|].
  assert ("root_dir" ∈ util.case_keys ∧ "model" ∈ util.case_keys
          ∧ "variable_convention" ∈ util.case_keys) as (Hr & Hm & Hv).
  { unfold util.case_keys. set_solver. }
  split_and!.
  - intros k [x Hx]. rewrite Hlookup in Hx.
    repeat case_decide; simplify_eq; try done. by destruct_or!; subst.
  - intros k x Hk Hx. rewrite Hlookup.
    repeat case_decide; simplify_eq; by rewrite ?Hx.
  - intros k Hk Hx. rewrite Hlookup.
    assert (k = "model" ∨ k = "variable_convention") as Hk' by set_solver.
    rewrite decide_False by (by destruct Hk' as [-> | ->]).
    rewrite decide_True by done. by rewrite Hx.
  - intros Hx. rewrite Hlookup. rewrite decide_True by done. by rewrite Hx.
  - intros k Hk Hx. rewrite Hlookup.
    repeat case_decide; simplify_eq; try done; set_solver.
Qed.

Section config_facts.
Context (isabs : string → bool) (join : string → string → string).
Context (normpath : string → string) (getcwd : string).
Implicit Types (args : gmap string util.pyval) (sec : list (string * util.pyval)).

Lemma dict_set_middle {A} (pre rest : list (string * A)) k (x y : A) :
  k ∉ dict_keys pre →
  dict_set k y (pre ++ (k, x) :: rest)%list = (pre ++ (k, y) :: rest)%list.
Proof.
  unfold dict_keys. induction pre as [|[k' z] pre IH]; simpl; intros Hk.
  - by rewrite decide_True.
  - apply not_elem_of_cons in Hk as [Hne Hk].
    rewrite decide_False by done. by rewrite IH.
Qed.

Lemma overwrite_fmap args sec :
  NoDup (dict_keys sec) →
  util.overwrite args sec = (λ '(k, x), (k, default x (args !! k))) <$> sec.
Proof.
  unfold util.overwrite. intros Hnd.
  set (g := λ '(k, x), (k, default x (args !! k))).
  enough (∀ rest pre,
            NoDup (dict_keys (pre ++ rest)%list) →
            foldl (λ section key,
                     match args !! key with
                     | Some x => dict_set key x section
                     | None => section
                     end) (pre ++ rest)%list (dict_keys rest)
            = (pre ++ (g <$> rest))%list) as Hgen.
  { exact (Hgen sec [] Hnd). }
  induction rest as [|[k x] rest IH]; intros pre Hnd'; simpl; [done|].
  assert (k ∉ dict_keys pre) as Hk.
  { unfold dict_keys in *. rewrite fmap_app in Hnd'.
    apply NoDup_app in Hnd' as (_ & Hdisj & _). intros Hin.
    apply (Hdisj k Hin). left. }
  assert (NoDup (dict_keys ((pre ++ [(k, default x (args !! k))]) ++ rest)%list))
    as Hnd''.
  { unfold dict_keys in *. rewrite <- app_assoc. simpl.
    by rewrite fmap_app in *. }
  destruct (args !! k) as [y|] eqn:Hy; simpl.
  - rewrite dict_set_middle by done.
    specialize (IH (pre ++ [(k, y)])%list Hnd'').
    rewrite <- !app_assoc in IH. exact IH.
  - specialize (IH (pre ++ [(k, x)])%list Hnd'').
    rewrite <- !app_assoc in IH. exact IH.
Qed.

Lemma overwrite_keys args sec :
  NoDup (dict_keys sec) → dict_keys (util.overwrite args sec) = dict_keys sec.
Proof.
  intros Hnd. rewrite overwrite_fmap by done. unfold dict_keys.
  rewrite <- list_fmap_compose. apply list_fmap_ext. by intros ? [??].
Qed.

Lemma resolve_loop (f : string → util.pyval → result string) sec :
  NoDup (dict_keys sec) →
  foldM (λ p '(key, val), x ← f key val; Ok (dict_set key (util.VStr x) p))
    sec sec
  = mapM (λ '(key, val), x ← f key val; Ok (key, util.VStr x)) sec.
Proof.
  intros Hnd.
  enough (∀ rest pre,
            NoDup (dict_keys (pre ++ rest)%list) →
            foldM (λ p '(key, val),
                     x ← f key val; Ok (dict_set key (util.VStr x) p))
              rest (pre ++ rest)%list
            = rest' ← mapM (λ '(key, val), x ← f key val;
                              Ok (key, util.VStr x)) rest;
              Ok (pre ++ rest')%list) as Hgen.
  { pose proof (Hgen sec [] Hnd) as Hg. simpl in Hg. rewrite Hg.
    by destruct (mapM _ sec). }
  induction rest as [|[k x] rest IH]; intros pre Hnd'; simpl.
  - by rewrite app_nil_r.
  - assert (k ∉ dict_keys pre) as Hk.
    { unfold dict_keys in *. rewrite fmap_app in Hnd'.
      apply NoDup_app in Hnd' as (_ & Hdisj & _). intros Hin.
      apply (Hdisj k Hin). left. }
    destruct (f k x) as [y|e]; simpl; [|done].
    rewrite dict_set_middle by done.
    assert (NoDup (dict_keys ((pre ++ [(k, util.VStr y)]) ++ rest)%list))
      as Hnd''.
    { unfold dict_keys in *. rewrite <- app_assoc. simpl.
      by rewrite fmap_app in *. }
    specialize (IH (pre ++ [(k, util.VStr y)])%list Hnd'').
    rewrite <- !app_assoc in IH. simpl in IH. rewrite IH.
    destruct (mapM _ rest); simpl; [|done]. by rewrite <- app_assoc.
Qed.

Lemma bind_ext {A B} (r : result A) (k1 k2 : A → result B) :
  (∀ a, k1 a = k2 a) → r ≫= k1 = r ≫= k2.
Proof. intros Hk. destruct r; simpl; [apply Hk|done]. Qed.

Lemma mapM_result_fmap {A B C} (f : B → result C) (g : A → B) (l : list A) :
  mapM f (g <$> l) = mapM (f ∘ g) l.
Proof.
  induction l as [|x l IH]; [done|]. rewrite fmap_cons. cbn [mapM].
  apply bind_ext. intros y. by rewrite IH.
Qed.

Lemma mapM_result_ext {A B} (f g : A → result B) (l : list A) :
  (∀ x, f x = g x) → mapM f l = mapM g l.
Proof.
  intros Hfg. induction l as [|x l IH]; [done|]. cbn [mapM].
  rewrite Hfg. apply bind_ext. intros y. by rewrite IH.
Qed.
End config_facts.

(** X10. [resolve_path] returns an absolute path as it is, without looking
    at the root; a relative path with a relative root fails the assertion;
    and, [os.getcwd()] being absolute and [normpath(join(r, p))] being
    absolute for an absolute [r], whatever it returns is absolute, so that
    resolving the result again, against any root, gives it back. *)
Theorem resolve_path_absolute
    (isabs : string → bool) (join : string → string → string)
    (normpath : string → string) (getcwd : string) :
  (∀ p root_path, isabs p = true →
     util.resolve_path isabs join normpath getcwd (util.VStr p) root_path
     = Ok p)
  ∧ (∀ p r, isabs p = false → r ≠ "" → isabs r = false →
       util.resolve_path isabs join normpath getcwd (util.VStr p) (util.VStr r)
       = Raise AssertionError)
  ∧ (isabs getcwd = true →
     (∀ r p, isabs r = true → isabs (normpath (join r p)) = true) →
     ∀ path root_path q,
       util.resolve_path isabs join normpath getcwd path root_path = Ok q →
       isabs q = true
       ∧ ∀ root_path',
           util.resolve_path isabs join normpath getcwd (util.VStr q) root_path'
           = Ok q).
Proof.
  unfold util.resolve_path. split; [|split].
  - intros p root_path ->. done.
  - intros p r -> Hr ->. rewrite decide_False by congruence. done.
  - intros Hcwd Hjoin path root_path q Hq.
    assert (isabs q = true) as Habs.
    { destruct path as [| | |p]; try done.
      destruct (isabs p) eqn:Hp; [by injection Hq as <-|].
      apply bind_Ok in Hq as (r & Hr & [= <-]). apply Hjoin.
      case_decide; [by injection Hr as <-|].
      destruct root_path as [| | |r']; try done.
      destruct (isabs r') eqn:Hr'; [by injection Hr as <-|done]. }
    split; [done|]. intros root_path'. by rewrite Habs.
Qed.

(** X11. [parse_mdtf_args] applies the precedence its docstring gives and
    nothing else.  Every key of the sections [paths] and [settings] of the
    defaults keeps its place and gets the value of the [frepp] arguments if
    they are in force and hold the key, else that of the command line if it
    holds the key, else its default; keys that only the command line or
    [frepp] hold are dropped.  The paths are then resolved in the order of
    the section, against the command line's [CODE_ROOT] if there is one, and
    the first path that does not resolve gives the error.  The case list
    comes from the [frepp] arguments in force if they hold [CASENAME], else
    from the command line if it does, else it is left as it was. *)
Theorem parse_mdtf_args_precedence
    (isabs : string → bool) (join : string → string → string)
    (normpath : string → string) (getcwd : string)
    (frepp_args : option (gmap string util.pyval))
    (cmdline_args : gmap string util.pyval) (default_args : util.Config)
    (rel_paths_root : util.pyval) :
  NoDup (dict_keys (util.paths default_args)) →
  NoDup (dict_keys (util.settings default_args)) →
  let pick := util.chosen frepp_args cmdline_args in
  let frepp := util.frepp_in_force frepp_args cmdline_args in
  let root := default rel_paths_root (cmdline_args !! "CODE_ROOT") in
  util.parse_mdtf_args isabs join normpath getcwd frepp_args cmdline_args
    default_args rel_paths_root
  = p ← mapM (λ '(k, x),
                y ← util.resolve_path isabs join normpath getcwd
                      (pick k x) root;
                Ok (k, util.VStr y))
             (util.paths default_args);
    Ok {| util.paths := p;
          util.settings :=
            (λ '(k, x), (k, pick k x)) <$> util.settings default_args;
          util.case_list :=
            match frepp !! "CASENAME", cmdline_args !! "CASENAME" with
            | Some _, _ => Some (util.caselist_from_args frepp)
            | None, Some _ => Some (util.caselist_from_args cmdline_args)
            | None, None => util.case_list default_args
            end |}.
Proof.
  intros Hp Hs pick frepp root.
  unfold util.parse_mdtf_args.
  assert (default rel_paths_root (cmdline_args !! "CODE_ROOT")
          = match cmdline_args !! "CODE_ROOT" with
            | Some x => x
            | None => rel_paths_root
            end) as Hroot by (by destruct (cmdline_args !! "CODE_ROOT")).
  fold root in Hroot. rewrite <- Hroot.
  assert (∀ sec, NoDup (dict_keys sec) →
            util.overwrite frepp (util.overwrite cmdline_args sec)
            = (λ '(k, x), (k, pick k x)) <$> sec) as Hover.
  { intros sec Hnd. rewrite (overwrite_fmap cmdline_args) by done.
    rewrite overwrite_fmap.
    - rewrite <- list_fmap_compose. apply list_fmap_ext. by intros ? [??].
    - by rewrite <- (overwrite_fmap cmdline_args), overwrite_keys. }
  assert (∀ sec, NoDup (dict_keys sec) →
            util.overwrite ∅ sec = sec) as Hempty.
  { intros sec Hnd. rewrite overwrite_fmap by done.
    rewrite <- (list_fmap_id sec) at 2. apply list_fmap_ext. by intros ? [??]. }
  (* the state before the paths are resolved *)
  assert (∀ (rest : list (string * util.pyval) * list (string * util.pyval)
                    * option (list (gmap string util.pyval))
                    → result util.Config),
            rest (match cmdline_args !! "frepp", frepp_args with
                  | Some f, Some frepp_args =>
                      if util.truthy f then
                        (util.overwrite frepp_args
                           (util.overwrite cmdline_args (util.paths default_args)),
                         util.overwrite frepp_args
                           (util.overwrite cmdline_args
                              (util.settings default_args)),
                         match frepp_args !! "CASENAME" with
                         | Some _ => Some (util.caselist_from_args frepp_args)
                         | None =>
                             match cmdline_args !! "CASENAME" with
                             | Some _ =>
                                 Some (util.caselist_from_args cmdline_args)
                             | None => util.case_list default_args
                             end
                         end)
                      else
                        (util.overwrite cmdline_args (util.paths default_args),
                         util.overwrite cmdline_args
                           (util.settings default_args),
                         match cmdline_args !! "CASENAME" with
                         | Some _ => Some (util.caselist_from_args cmdline_args)
                         | None => util.case_list default_args
                         end)
                  | _, _ =>
                      (util.overwrite cmdline_args (util.paths default_args),
                       util.overwrite cmdline_args (util.settings default_args),
                       match cmdline_args !! "CASENAME" with
                       | Some _ => Some (util.caselist_from_args cmdline_args)
                       | None => util.case_list default_args
                       end)
                  end)
            = rest ((λ '(k, x), (k, pick k x)) <$> util.paths default_args,
                    (λ '(k, x), (k, pick k x)) <$> util.settings default_args,
                    match frepp !! "CASENAME", cmdline_args !! "CASENAME" with
                    | Some _, _ => Some (util.caselist_from_args frepp)
                    | None, Some _ => Some (util.caselist_from_args cmdline_args)
                    | None, None => util.case_list default_args
                    end)) as Hstate.
  { intros rest. f_equal.
    rewrite <- !Hover by done. unfold frepp, util.frepp_in_force.
    destruct (cmdline_args !! "frepp") as [f|];
      [destruct frepp_args as [fa|]; [destruct (util.truthy f)|]|];
      rewrite ?Hempty, ?lookup_empty by (by rewrite ?overwrite_keys);
      done. }
  rewrite (Hstate (λ '(p, s, cl),
             p ← foldM (λ p '(key, val),
                          x ← util.resolve_path isabs join normpath getcwd
                                val root;
                          Ok (dict_set key (util.VStr x) p)) p p;
             Ok {| util.paths := p; util.settings := s;
                   util.case_list := cl |})).
  rewrite (resolve_loop
             (λ _ val, util.resolve_path isabs join normpath getcwd val root)).
  - rewrite mapM_result_fmap. f_equal.
    apply mapM_result_ext. by intros [k x].
  - rewrite <- Hover by done. by rewrite !overwrite_keys by (by rewrite ?overwrite_keys).
Qed.

(** X9 on the command line [cmdline]: [model] is given as [None] and stays
    so, [variable_convention] gets the default, [root_dir] comes from
    [CASE_ROOT_DIR], and [verbose] is not a key of the case. *)
Lemma caselist_from_args_entries_witness :
  ∃ d, util.caselist_from_args Examples.cmdline = [d]
    ∧ d !! "model" = Some util.VNone
    ∧ d !! "variable_convention" = Some (util.VStr "CMIP_GFDL")
    ∧ d !! "root_dir" = Some (util.VStr "/data")
    ∧ d !! "verbose" = None.
Proof.
  destruct (caselist_from_args_entries Examples.cmdline)
    as (d & Hd & Hkeys & Hcopy & Hdefault & Hroot & _).
  assert ("verbose" ∉ util.case_keys) as Hnot by by_compute.
  exists d. split; [exact Hd|]. split_and!.
  - apply Hcopy; by_compute.
  - apply Hdefault; by_compute.
  - rewrite Hroot; by vm_compute.
  - apply eq_None_not_Some. intros Hsome. apply Hnot, Hkeys, Hsome.
Defined.

(** X10 on POSIX paths. *)
Lemma resolve_path_absolute_witness :
  util.resolve_path Examples.isabs_posix Examples.join_posix id Examples.cwd
    (util.VStr "/code") (util.VStr "relative/root") = Ok "/code"
  ∧ util.resolve_path Examples.isabs_posix Examples.join_posix id Examples.cwd
      (util.VStr "obs") (util.VStr "relative/root") = Raise AssertionError
  ∧ Examples.isabs_posix "/home/mdtf/obs" = true
  ∧ util.resolve_path Examples.isabs_posix Examples.join_posix id Examples.cwd
      (util.VStr "/home/mdtf/obs") util.VNone = Ok "/home/mdtf/obs".
Proof.
  destruct (resolve_path_absolute Examples.isabs_posix Examples.join_posix id
              Examples.cwd) as (Habs & Hrel & Hres).
  assert (∀ r p, Examples.isabs_posix r = true →
                 Examples.isabs_posix (id (Examples.join_posix r p)) = true)
    as Hjoin.
  { intros [|c r] p; [done|]. simpl. by destruct c as [[] [] [] [] [] [] [] []]. }
  destruct (Hres eq_refl Hjoin (util.VStr "obs") (util.VStr "")
              "/home/mdtf/obs" eq_refl) as [Hq Hagain].
  split_and!.
  - by apply Habs.
  - by apply Hrel.
  - exact Hq.
  - apply Hagain.
Defined.

(** X11 on [defaults] and [cmdline]: the command line wins over the
    defaults, its keys that the defaults do not have are dropped, [frepp] is
    not in force, and the relative path is resolved against the working
    directory. *)
Lemma parse_mdtf_args_precedence_witness :
  util.parse_mdtf_args Examples.isabs_posix Examples.join_posix id Examples.cwd
    (Some Examples.frepp_opts) Examples.cmdline Examples.defaults (util.VStr "")
  = Ok {| util.paths := [("CODE_ROOT", util.VStr "/code");
                         ("OBS_DATA_ROOT", util.VStr "/home/mdtf/obs")];
          util.settings := [("verbose", util.VInt 2);
                            ("make_variab_tar", util.VBool true)];
          util.case_list := Some [Examples.case_QBOi] |}.
Proof.
  etrans.
  - apply (parse_mdtf_args_precedence Examples.isabs_posix Examples.join_posix
             id Examples.cwd (Some Examples.frepp_opts) Examples.cmdline
             Examples.defaults (util.VStr "")); by_compute.
  - by vm_compute.
Defined.

(** * Further properties of [preprocessor.py] *)

(** ** Stripping the attributes *)

Section str_strip_facts.

Lemma rev_app_rev_app (s1 s2 s3 : string) :
  String.rev_app (String.rev_app s1 s2) s3
  = String.rev_app s2 (s1 +:+ s3).
Proof.
  revert s2 s3. induction s1 as [|a s1 IH]; intros s2 s3; simpl; [done|].
  by rewrite IH.
Qed.

Lemma string_app_empty_r (s : string) : s +:+ "" = s.
Proof.
  induction s as [|a s IH]; [done|].
  change (String a (s +:+ "") = String a s). by rewrite IH.
Qed.

Lemma string_rev_involutive (s : string) : String.rev (String.rev s) = s.
Proof.
  unfold String.rev. rewrite rev_app_rev_app. simpl.
  apply string_app_empty_r.
Qed.

Lemma str_lstrip_head s c s' :
  str_lstrip s = String c s' → is_space c = false.
Proof.
  induction s as [|a s IH]; simpl; [done|].
  destruct (is_space a) eqn:Ha; [done|]. by intros [= <- _].
Qed.

Lemma str_lstrip_idemp s : str_lstrip (str_lstrip s) = str_lstrip s.
Proof.
  destruct (str_lstrip s) as [|c s'] eqn:Hs; [done|].
  simpl. by rewrite (str_lstrip_head s c s').
Qed.

(** Stripping the spaces at the head of a reversed string leaves a reversed
    string in front of the accumulator, unless it reaches the accumulator. *)
Lemma str_lstrip_rev_app (t acc : string) :
  (∃ t', str_lstrip (String.rev_app t acc) = String.rev_app t' acc)
  ∨ str_lstrip (String.rev_app t acc) = str_lstrip acc.
Proof.
  revert acc. induction t as [|a t IH]; intros acc; simpl; [by right|].
  destruct (IH (String a acc)) as [[t' Ht']|Hacc].
  - left. exists (String a t'). done.
  - rewrite Hacc. simpl. destruct (is_space a); [by right|].
    left. by exists (String a "").
Qed.

(** Stripping at the right end keeps a head that is not a space. *)
Lemma str_rstrip_no_lead (t : string) :
  str_lstrip t = t →
  str_lstrip (String.rev (str_lstrip (String.rev t)))
  = String.rev (str_lstrip (String.rev t)).
Proof.
  destruct t as [|c t]; [done|]. intros Ht.
  pose proof (str_lstrip_head _ _ _ Ht) as Hc.
  assert (∃ t', str_lstrip (String.rev (String c t))
                = String.rev_app t' (String c "")) as [t' ->].
  { unfold String.rev. simpl.
    destruct (str_lstrip_rev_app t (String c "")) as [?|Hacc]; [done|].
    exists "". rewrite Hacc. simpl. by rewrite Hc. }
  unfold String.rev. rewrite rev_app_rev_app. simpl. by rewrite Hc.
Qed.

Lemma str_strip_idemp s : str_strip (str_strip s) = str_strip s.
Proof.
  unfold str_strip.
  rewrite (str_rstrip_no_lead (str_lstrip s)) by apply str_lstrip_idemp.
  by rewrite string_rev_involutive, str_lstrip_idemp.
Qed.
End str_strip_facts.

Section strip_dict_facts.
Import xr preprocessor MDTFPreprocessorBase.
Context {A : Type}.
Implicit Types (d : list (string * A)) (k : string).

Lemma dict_get_set d k k' (x : A) :
  dict_get k (dict_set k' x d)
  = if decide (k' = k) then Some x else dict_get k d.
Proof.
  induction d as [|[k0 y] d IH]; simpl.
  - done.
  - destruct (decide (k0 = k')) as [->|Hne]; simpl.
    + by destruct (decide (k' = k)).
    + rewrite IH. destruct (decide (k0 = k)) as [->|?]; [|done].
      by rewrite decide_False by done.
Qed.

Lemma dict_set_new d k (x : A) :
  k ∉ dict_keys d → dict_set k x d = (d ++ [(k, x)])%list.
Proof.
  unfold dict_keys. induction d as [|[k0 y] d IH]; simpl; intros Hk; [done|].
  apply not_elem_of_cons in Hk as [Hne Hk].
  rewrite decide_False by done. by rewrite IH.
Qed.

Lemma dict_keys_set d k (x : A) :
  dict_keys (dict_set k x d)
  = if decide (k ∈ dict_keys d) then dict_keys d
    else (dict_keys d ++ [k])%list.
Proof.
  induction d as [|[k0 y] d IH].
  - by rewrite decide_False by apply not_elem_of_nil.
  - change (dict_set k x ((k0, y) :: d))
      with (if decide (k0 = k) then (k, x) :: d else (k0, y) :: dict_set k x d).
    change (dict_keys ((k0, y) :: d)) with (k0 :: dict_keys d).
    destruct (decide (k0 = k)) as [->|Hne].
    + by rewrite decide_True by left.
    + change (dict_keys ((k0, y) :: dict_set k x d))
        with (k0 :: dict_keys (dict_set k x d)).
      rewrite IH. destruct (decide (k ∈ dict_keys d)) as [Hin|Hnin].
      * by rewrite decide_True by (by right).
      * by rewrite decide_False by (by intros [?|?]%elem_of_cons).
Qed.

Lemma dict_set_NoDup d k (x : A) :
  NoDup (dict_keys d) → NoDup (dict_keys (dict_set k x d)).
Proof.
  intros Hnd. rewrite dict_keys_set. case_decide as Hk; [done|].
  apply NoDup_app. split; [done|]. split; [|apply NoDup_singleton].
  intros k' Hk' ->%list_elem_of_singleton. done.
Qed.

Lemma dict_set_Forall (P : string * A → Prop) d k (x : A) :
  Forall P d → P (k, x) → Forall P (dict_set k x d).
Proof.
  intros Hd Hx. induction Hd as [|[k0 y] d Hy Hd IH]; simpl.
  - by constructor.
  - case_decide; constructor; done.
Qed.
End strip_dict_facts.

Section strip_facts.
Import xr preprocessor MDTFPreprocessorBase.

Lemma strip_dict_snoc d k x :
  _strip_dict (d ++ [(k, x)])%list
  = dict_set (str_strip k) (_strip x) (_strip_dict d).
Proof. unfold _strip_dict. by rewrite foldl_app. Qed.

Lemma strip_idemp x : _strip (_strip x) = _strip x.
Proof. destruct x; simpl; [|done]. by rewrite str_strip_idemp. Qed.

Lemma strip_dict_NoDup d : NoDup (dict_keys (_strip_dict d)).
Proof.
  induction d as [|[k x] d IH] using rev_ind; [apply NoDup_nil_2|].
  rewrite strip_dict_snoc. by apply dict_set_NoDup.
Qed.

Lemma strip_dict_stripped d :
  Forall (λ '(k, x), str_strip k = k ∧ _strip x = x) (_strip_dict d).
Proof.
  induction d as [|[k x] d IH] using rev_ind; [constructor|].
  rewrite strip_dict_snoc. apply dict_set_Forall; [done|].
  split; [apply str_strip_idemp|apply strip_idemp].
Qed.

Lemma strip_dict_lookup d k :
  dict_get k (_strip_dict d)
  = dict_get k (reverse (prod_map str_strip _strip <$> d)).
Proof.
  induction d as [|[k0 x] d IH] using rev_ind; [done|].
  rewrite strip_dict_snoc, dict_get_set, fmap_app, reverse_app. simpl.
  by rewrite IH.
Qed.

Lemma strip_dict_fixed d :
  NoDup (dict_keys d) →
  Forall (λ '(k, x), str_strip k = k ∧ _strip x = x) d →
  _strip_dict d = d.
Proof.
  intros Hnd Hfix. induction d as [|[k x] d IH] using rev_ind; [done|].
  rewrite strip_dict_snoc.
  apply Forall_app in Hfix as [Hd Hx].
  apply Forall_singleton in Hx as [-> ->].
  unfold dict_keys in Hnd. rewrite fmap_app in Hnd.
  apply NoDup_app in Hnd as (Hnd & Hdisj & _).
  rewrite IH by done. apply dict_set_new.
  intros Hin. apply (Hdisj k Hin). simpl. left.
Qed.

Lemma strip_dict_idemp d : _strip_dict (_strip_dict d) = _strip_dict d.
Proof. apply strip_dict_fixed; [apply strip_dict_NoDup|apply strip_dict_stripped]. Qed.

Lemma strip_attrs_idemp ds : strip_attrs (strip_attrs ds) = strip_attrs ds.
Proof.
  unfold strip_attrs. simpl. rewrite strip_dict_idemp.
  rewrite <- !list_fmap_compose.
  f_equal; apply list_fmap_ext; intros ? [n da]; simpl;
    unfold strip_array; simpl; by rewrite strip_dict_idemp.
Qed.
End strip_facts.

(** X12. [_strip_dict] on names that collide.  The keys of the result are
    stripped and pairwise distinct, its values are stripped, and the value
    under a key is that of the last entry of the argument whose stripped name
    is the key: of two attributes whose names differ only by the white space
    around them, the later one wins. *)
Theorem strip_dict_last_wins (d : list (string * xr.attr)) :
  NoDup (dict_keys (preprocessor.MDTFPreprocessorBase._strip_dict d))
  ∧ Forall (λ '(k, x), str_strip k = k
                       ∧ preprocessor.MDTFPreprocessorBase._strip x = x)
      (preprocessor.MDTFPreprocessorBase._strip_dict d)
  ∧ ∀ k, dict_get k (preprocessor.MDTFPreprocessorBase._strip_dict d)
         = dict_get k
             (reverse (prod_map str_strip
                         preprocessor.MDTFPreprocessorBase._strip <$> d)).
Proof.
  split; [apply strip_dict_NoDup|]. split; [apply strip_dict_stripped|].
  apply strip_dict_lookup.
Qed.

(** X13. Stripping the attributes twice is stripping them once.  So
    [parse_cf_wrapper] on a dataset it has already been applied to leaves the
    attributes alone and decodes the same dataset again; this is what
    [process_file] does to the dataset [parse] has seen: its
    [parse_cf_wrapper] returns the dataset [parse] decoded, without an
    error. *)
Theorem strip_attrs_idempotent (rt : preprocessor.Runtime) (ds : xr.Dataset) :
  preprocessor.MDTFPreprocessorBase.strip_attrs
    (preprocessor.MDTFPreprocessorBase.strip_attrs ds)
  = preprocessor.MDTFPreprocessorBase.strip_attrs ds
  ∧ preprocessor.MDTFPreprocessorBase.parse_cf_wrapper rt
      (preprocessor.MDTFPreprocessorBase.strip_attrs ds)
    = preprocessor.MDTFPreprocessorBase.parse_cf_wrapper rt ds
  ∧ ∀ self self' ds1,
      preprocessor.MDTFPreprocessorBase.parse rt self ds = Ok (self', ds1) →
      ∃ decoded,
        preprocessor.decode_cf rt
          (preprocessor.MDTFPreprocessorBase.strip_attrs ds) = Ok decoded
        ∧ preprocessor.MDTFPreprocessorBase.parse_cf_wrapper rt ds1
          = Ok (ds1, decoded)
        ∧ preprocessor.MDTFPreprocessorBase.process_file rt self' ds1
          = foldM (λ ds func, preprocessor.func_process_file rt func ds self')
              (preprocessor.functions self') decoded.
Proof.
  assert (preprocessor.MDTFPreprocessorBase.parse_cf_wrapper rt
            (preprocessor.MDTFPreprocessorBase.strip_attrs ds)
          = preprocessor.MDTFPreprocessorBase.parse_cf_wrapper rt ds) as Hwrap.
  { unfold preprocessor.MDTFPreprocessorBase.parse_cf_wrapper.
    by rewrite strip_attrs_idemp. }
  split; [apply strip_attrs_idemp|]. split; [exact Hwrap|].
  intros self self' ds1 Hparse.
  destruct (parse_inv rt self ds self' ds1 Hparse) as (-> & _).
  unfold preprocessor.MDTFPreprocessorBase.parse in Hparse.
  apply bind_Ok in Hparse as ([d x] & Hdec & _).
  unfold preprocessor.MDTFPreprocessorBase.parse_cf_wrapper in Hdec.
  apply bind_Ok in Hdec as (decoded & Hdec & [= <- <-]).
  exists decoded. split; [done|].
  assert (preprocessor.MDTFPreprocessorBase.parse_cf_wrapper rt
            (preprocessor.MDTFPreprocessorBase.strip_attrs ds)
          = Ok (preprocessor.MDTFPreprocessorBase.strip_attrs ds, decoded))
    as Hagain.
  { unfold preprocessor.MDTFPreprocessorBase.parse_cf_wrapper.
    rewrite strip_attrs_idemp, Hdec. done. }
  split; [done|].
  unfold preprocessor.MDTFPreprocessorBase.process_file. by rewrite Hagain.
Qed.

(** ** Parsing *)

Section parse_post.
Import xr preprocessor MDTFPreprocessorBase.

Lemma lookup_axes_lookup rt ds var_name (ax : gmap string string) k d :
  lookup_axes rt ds var_name ax !! k = Some d →
  ax !! k = Some d ∨ k ∈ ["X"; "Y"; "Z"; "T"].
Proof.
  unfold lookup_axes, metpy_attrs. simpl.
  repeat (destruct (metpy_axis rt ds var_name _) as [?|]; [case_decide|]);
    intros Hk;
    repeat match type of Hk with
           | <[ ?k' := _ ]> _ !! _ = _ =>
               destruct (decide (k = k')) as [->|?];
               [right; set_solver|rewrite lookup_insert_ne in Hk by done]
           end; by left.
Qed.

Lemma lookup_axes_var rt ds var_name (ax : gmap string string) :
  lookup_axes rt ds var_name ax !! "var" = ax !! "var".
Proof.
  unfold lookup_axes, metpy_attrs. simpl.
  repeat (destruct (metpy_axis rt ds var_name _) as [?|]; [case_decide|]);
    by rewrite ?lookup_insert_ne by done.
Qed.

Lemma label_other_axes_lookup_ne others (ax : gmap string string) k :
  (∀ i : nat, k ≠ ("W" +:+ pretty i)) →
  label_other_axes others ax !! k = ax !! k.
Proof.
  intros Hk. induction others as [|x others IH] using rev_ind; [done|].
  rewrite label_other_axes_snoc, lookup_insert_ne; [done|]. intros Heq.
  by apply (Hk (length others)).
Qed.

Lemma not_W_tag k :
  k ∈ ["var"; "X"; "Y"; "Z"; "T"] → ∀ i : nat, k ≠ ("W" +:+ pretty i).
Proof.
  intros Hk i ->. simpl in Hk.
  repeat (apply elem_of_cons in Hk as [Hk|Hk]; [discriminate|]).
  by apply elem_of_nil in Hk.
Qed.

Lemma parse_axes_covers rt self ds self' :
  set_iter_valid rt → ax_names self = ∅ →
  parse_axes rt self ds = Ok self' →
  ∃ var_name w da,
    _find_var_name ds (name_in_model (v self)) = Ok (var_name, w)
    ∧ ds_getitem ds var_name = Ok da
    ∧ ax_names self' !! "var" = Some var_name
    ∧ ∀ d, d ∈ dims da → ∃ k, ax_names self' !! k = Some d.
Proof.
  intros Hvalid Hempty Hparse.
  destruct (parse_axes_eval rt self ds self' Hparse)
    as (var_name & w & da & Hfind & Hda & Hax).
  exists var_name, w, da. split; [done|]. split; [done|].
  rewrite Hempty in Hax. simpl in Hax. rewrite Hax.
  set (ax := lookup_axes rt ds var_name (<[ "var" := var_name ]> ∅)).
  split.
  - rewrite label_other_axes_lookup_ne by (apply not_W_tag; set_solver).
    unfold ax. by rewrite lookup_axes_var, lookup_insert_eq.
  - intros d Hd.
    destruct (decide (d ∈ (map_to_list ax).*2)) as [Hin|Hnot].
    + apply list_elem_of_fmap in Hin as ([k d'] & -> & Hin).
      apply elem_of_map_to_list in Hin. exists k.
      rewrite label_other_axes_lookup_ne; [done|]. apply not_W_tag.
      destruct (lookup_axes_lookup _ _ _ _ _ _ Hin) as [Hvar|Hk].
      * apply lookup_insert_Some in Hvar as [[<- _]|[_ Hvar]]; [left|].
        by rewrite lookup_empty in Hvar.
      * set_solver.
    + assert (d ∈ other_axes rt (dims da) ax) as Hother.
      { unfold other_axes. rewrite (Hvalid _ (unclaimed_dims_NoDup _ _)).
        unfold unclaimed_dims. apply list_elem_of_difference.
        split; [by apply elem_of_remove_dups|done]. }
      apply list_elem_of_lookup in Hother as [i Hi].
      exists ("W" +:+ pretty i). by apply label_other_axes_lookup.
Qed.
End parse_post.

(** X14. What holds after [parse] on an instance fresh from [__init__].
    The caller's dataset decodes; [ax_names] has the variable under [var], and
    this variable is in the decoded dataset; every dimension of the variable
    is the value of some key of [ax_names] (an axis metpy found, or a [W]
    tag); and the calendar is set if a time axis was found, and left as it was
    if not. *)
Theorem parse_postcondition (rt : preprocessor.Runtime)
    (self self' : preprocessor.Preprocessor) (ds ds1 : xr.Dataset) :
  preprocessor.set_iter_valid rt →
  preprocessor.ax_names self = ∅ →
  preprocessor.MDTFPreprocessorBase.parse rt self ds = Ok (self', ds1) →
  ∃ decoded var_name da,
    preprocessor.decode_cf rt ds1 = Ok decoded
    ∧ preprocessor.ax_names self' !! "var" = Some var_name
    ∧ xr.ds_getitem decoded var_name = Ok da
    ∧ (∀ d, d ∈ xr.dims da → ∃ k, preprocessor.ax_names self' !! k = Some d)
    ∧ (is_Some (preprocessor.ax_names self' !! "T") →
       is_Some (preprocessor.calendar self'))
    ∧ (preprocessor.ax_names self' !! "T" = None →
       preprocessor.calendar self' = preprocessor.calendar self).
Proof.
  intros Hvalid Hempty Hparse.
  unfold preprocessor.MDTFPreprocessorBase.parse,
    preprocessor.MDTFPreprocessorBase.parse_cf_wrapper in Hparse.
  apply bind_Ok in Hparse as ([d decoded] & Hdec & Hrest).
  apply bind_Ok in Hdec as (x' & Hdec & [= <- <-]).
  apply bind_Ok in Hrest as (self1 & Haxes & Hrest).
  apply bind_Ok in Hrest as (self2 & Hcal & Hrest).
  apply bind_Ok in Hrest as (us & _ & [= <- <-]).
  destruct (parse_axes_covers rt self x' self1 Hvalid Hempty Haxes)
    as (var_name & w & da & _ & Hda & Hvar & Hcover).
  apply parse_axes_inv in Haxes as [ax Hself1].
  exists x', var_name, da. split; [done|].
  case_bool_decide as HT.
  - apply parse_calendar_inv in Hcal as [c ->]. simpl.
    do 3 (split; [done|]). split.
    + intros _. by eexists.
    + intros Hnone. rewrite Hnone in HT. by destruct HT.
  - injection Hcal as <-. do 3 (split; [done|]). split.
    + intros Hsome. by destruct HT.
    + intros _. by rewrite Hself1.
Qed.

(** ** The hooks *)

Section hooks.
Import xr preprocessor MDTFPreprocessorBase.

Lemma foldM_hooks {A} (g : PreprocessorFunction → A → result A)
    (h : A → result A) (f0 : PreprocessorFunction)
    (fns : list PreprocessorFunction) (x : A) :
  g f0 = h → (∀ f, f ≠ f0 → g f = Ok) →
  foldM (λ ds func, g func ds) fns x
  = foldM (λ ds _, h ds) (filter (λ f, f = f0) fns) x.
Proof.
  intros Hf0 Hother. revert x. induction fns as [|f fns IH]; intros x; [done|].
  cbn [foldM]. destruct (decide (f = f0)) as [->|Hne].
  - rewrite filter_cons_True by done. cbn [foldM]. rewrite Hf0.
    apply bind_ext. intros y. apply IH.
  - rewrite filter_cons_False by done. rewrite (Hother f Hne). simpl. apply IH.
Qed.

Lemma foldM_const_length {A B} (h : A → result A) (l l' : list B) (x : A) :
  length l = length l' →
  foldM (λ ds _, h ds) l x = foldM (λ ds _, h ds) l' x.
Proof.
  revert l' x. induction l as [|b l IH]; intros [|b' l'] x Hlen;
    simplify_eq/=; [done|].
  apply bind_ext. intros y. by apply IH.
Qed.
End hooks.

(** X16. The order of the functions does not matter, only their kinds.
    [process_file] strips and decodes the file and then extracts the level
    once for every [ExtractLevelFunction] of the list; [process_dataset]
    crops the time axis once for every [CropDateRangeFunction]; the functions
    of the other kind do nothing there.  So extraction is done file by file
    and cropping on the merged dataset wherever the two stand in the list,
    and two lists that are rearrangements of each other give the same
    results. *)
Theorem hooks_by_kind (rt : preprocessor.Runtime)
    (self : preprocessor.Preprocessor)
    (fns : list preprocessor.PreprocessorFunction) (ds : xr.Dataset) :
  preprocessor.MDTFPreprocessorBase.process_file rt (preprocessor.set_functions self fns) ds
  = ('(_, x) ← preprocessor.MDTFPreprocessorBase.parse_cf_wrapper rt ds;
     foldM (λ ds _, preprocessor.ExtractLevelFunction.extract_level rt ds self)
       (filter (λ f, f = preprocessor.ExtractLevel) fns) x)
  ∧ preprocessor.MDTFPreprocessorBase.process_dataset rt (preprocessor.set_functions self fns) ds
    = foldM (λ ds _, preprocessor.CropDateRangeFunction.crop_time_axis rt ds self)
        (filter (λ f, f = preprocessor.CropDateRange) fns) ds
  ∧ ∀ fns', fns ≡ₚ fns' →
      preprocessor.MDTFPreprocessorBase.process_file rt
        (preprocessor.set_functions self fns) ds
      = preprocessor.MDTFPreprocessorBase.process_file rt
          (preprocessor.set_functions self fns') ds
      ∧ preprocessor.MDTFPreprocessorBase.process_dataset rt
          (preprocessor.set_functions self fns) ds
        = preprocessor.MDTFPreprocessorBase.process_dataset rt
            (preprocessor.set_functions self fns') ds.
Proof.
  assert (∀ fns x,
            foldM (λ ds func, preprocessor.func_process_file rt func ds (preprocessor.set_functions self fns))
              fns x
            = foldM (λ ds _, preprocessor.ExtractLevelFunction.extract_level rt ds self)
                (filter (λ f, f = preprocessor.ExtractLevel) fns) x) as Hfile.
  { intros fns0 x.
    apply (foldM_hooks
             (λ func ds, preprocessor.func_process_file rt func ds (preprocessor.set_functions self fns0))
             (λ ds, preprocessor.ExtractLevelFunction.extract_level rt ds self) preprocessor.ExtractLevel);
      [done|]. by intros []. }
  assert (∀ fns x,
            foldM (λ ds func, preprocessor.func_process_dataset rt func ds (preprocessor.set_functions self fns))
              fns x
            = foldM (λ ds _, preprocessor.CropDateRangeFunction.crop_time_axis rt ds self)
                (filter (λ f, f = preprocessor.CropDateRange) fns) x) as Hds.
  { intros fns0 x.
    apply (foldM_hooks
             (λ func ds, preprocessor.func_process_dataset rt func ds (preprocessor.set_functions self fns0))
             (λ ds, preprocessor.CropDateRangeFunction.crop_time_axis rt ds self) preprocessor.CropDateRange);
      [done|]. by intros []. }
  assert (∀ fns0, preprocessor.MDTFPreprocessorBase.process_file rt (preprocessor.set_functions self fns0) ds
            = ('(_, x) ← preprocessor.MDTFPreprocessorBase.parse_cf_wrapper rt ds;
               foldM (λ ds _, preprocessor.ExtractLevelFunction.extract_level rt ds self)
                 (filter (λ f, f = preprocessor.ExtractLevel) fns0) x)) as Hpf.
  { intros fns0. unfold preprocessor.MDTFPreprocessorBase.process_file. apply bind_ext. intros [d x]. apply Hfile. }
  split; [apply Hpf|]. split; [apply Hds|].
  intros fns' Hperm. split.
  - rewrite !Hpf. apply bind_ext. intros [d x].
    apply foldM_const_length. by rewrite Hperm.
  - unfold preprocessor.MDTFPreprocessorBase.process_dataset. cbn [preprocessor.functions preprocessor.set_functions]. rewrite !Hds.
    apply foldM_const_length. by rewrite Hperm.
Qed.

(** X20. What [crop_time_axis] does outside the conditions of C1.  Without a
    [T] axis the dataset is returned as it is.  With one, the four bounds
    are cast first, and the error of the first cast that fails is raised
    (a bound that the calendar does not have); then a time axis that is not
    in the dataset raises [KeyError], an empty one [IndexError], and a
    first time value that is not a date, or is a date of another calendar
    than the bound it is compared with, raises [TypeError]. *)
Theorem crop_time_axis_errors (rt : preprocessor.Runtime) (x : xr.Dataset)
    (self : preprocessor.Preprocessor) :
  (preprocessor.ax_names self !! "T" = None →
   preprocessor.CropDateRangeFunction.crop_time_axis rt x self = Ok x)
  ∧ ∀ time,
      preprocessor.ax_names self !! "T" = Some time →
      (∀ e,
         preprocessor.CropDateRangeFunction.dt_start_lower rt self = Raise e
         ∨ (is_ok (preprocessor.CropDateRangeFunction.dt_start_lower rt self)
            = true
            ∧ (preprocessor.CropDateRangeFunction.dt_start_upper rt self
               = Raise e
               ∨ (is_ok (preprocessor.CropDateRangeFunction.dt_start_upper
                           rt self) = true
                  ∧ (preprocessor.CropDateRangeFunction.dt_end_lower rt self
                     = Raise e
                     ∨ (is_ok (preprocessor.CropDateRangeFunction.dt_end_lower
                                 rt self) = true
                        ∧ preprocessor.CropDateRangeFunction.dt_end_upper
                            rt self = Raise e))))) →
         preprocessor.CropDateRangeFunction.crop_time_axis rt x self
         = Raise e)
      ∧ ∀ start_lower start_upper end_lower end_upper,
          preprocessor.CropDateRangeFunction.dt_start_lower rt self
          = Ok start_lower →
          preprocessor.CropDateRangeFunction.dt_start_upper rt self
          = Ok start_upper →
          preprocessor.CropDateRangeFunction.dt_end_lower rt self
          = Ok end_lower →
          preprocessor.CropDateRangeFunction.dt_end_upper rt self
          = Ok end_upper →
          (dict_get time (xr.variables x) = None →
           preprocessor.CropDateRangeFunction.crop_time_axis rt x self
           = Raise KeyError)
          ∧ ∀ time_ax,
              dict_get time (xr.variables x) = Some time_ax →
              (xr.values time_ax = [] →
               preprocessor.CropDateRangeFunction.crop_time_axis rt x self
               = Raise IndexError)
              ∧ (∀ z, first_item (xr.values time_ax) = Ok (xr.SNum z) →
                 preprocessor.CropDateRangeFunction.crop_time_axis rt x self
                 = Raise TypeError)
              ∧ (∀ t0, first_item (xr.values time_ax) = Ok (xr.STime t0) →
                 xr.dt_calendar t0 ≠ xr.dt_calendar start_upper →
                 preprocessor.CropDateRangeFunction.crop_time_axis rt x self
                 = Raise TypeError).
Proof.
  unfold preprocessor.CropDateRangeFunction.crop_time_axis. split.
  - by intros ->.
  - intros time ->. split.
    + intros e Hfail.
      destruct (preprocessor.CropDateRangeFunction.dt_start_lower rt self);
        [|naive_solver].
      destruct (preprocessor.CropDateRangeFunction.dt_start_upper rt self);
        [|naive_solver].
      destruct (preprocessor.CropDateRangeFunction.dt_end_lower rt self);
        [|naive_solver].
      destruct (preprocessor.CropDateRangeFunction.dt_end_upper rt self);
        naive_solver.
    + intros sl su el eu -> -> -> ->. simpl.
      unfold xr.ds_getitem, getitem. split.
      * by intros ->.
      * intros time_ax ->. simpl. split; [|split].
        -- intros ->. done.
        -- intros z ->. done.
        -- intros t0 -> Hcal. simpl. unfold xr.cf_gt, xr.same_calendar.
           by rewrite bool_decide_eq_false_2.
Qed.

(** ** The properties of [preprocessor.py] at concrete inputs *)

(** X13 on [ds_tas]: the dataset [parse] leaves is stripped already. *)
Lemma strip_attrs_idempotent_witness :
  ∃ decoded,
    preprocessor.decode_cf Examples.rt0 Examples.ds_tas_stripped = Ok decoded
    ∧ preprocessor.MDTFPreprocessorBase.parse_cf_wrapper Examples.rt0
        Examples.ds_tas_stripped
      = Ok (Examples.ds_tas_stripped, decoded).
Proof.
  destruct (strip_attrs_idempotent Examples.rt0 Examples.ds_tas)
    as (_ & _ & Hparse).
  destruct (Hparse
              (Examples.new_tas Examples.range_2000 [Examples.file_tas]
                 [preprocessor.CropDateRange])
              (Examples.parsed_tas Examples.range_2000 [Examples.file_tas]
                 [preprocessor.CropDateRange])
              Examples.ds_tas_stripped) as (decoded & Hdec & Hwrap & _);
    [by vm_compute|].
  exists decoded. split; [exact Hdec|exact Hwrap].
Defined.

(** X14 on [ds_tas]. *)
Lemma parse_postcondition_witness :
  ∃ decoded var_name da,
    preprocessor.decode_cf Examples.rt0 Examples.ds_tas_stripped = Ok decoded
    ∧ preprocessor.ax_names
        (Examples.parsed_tas Examples.range_2000 [Examples.file_tas]
           [preprocessor.CropDateRange]) !! "var" = Some var_name
    ∧ xr.ds_getitem decoded var_name = Ok da
    ∧ (∀ d, d ∈ xr.dims da →
            ∃ k, preprocessor.ax_names
                   (Examples.parsed_tas Examples.range_2000 [Examples.file_tas]
                      [preprocessor.CropDateRange]) !! k = Some d)
    ∧ (is_Some (preprocessor.ax_names
                  (Examples.parsed_tas Examples.range_2000 [Examples.file_tas]
                     [preprocessor.CropDateRange]) !! "T") →
       is_Some (preprocessor.calendar
                  (Examples.parsed_tas Examples.range_2000 [Examples.file_tas]
                     [preprocessor.CropDateRange])))
    ∧ (preprocessor.ax_names
         (Examples.parsed_tas Examples.range_2000 [Examples.file_tas]
            [preprocessor.CropDateRange]) !! "T" = None →
       preprocessor.calendar
         (Examples.parsed_tas Examples.range_2000 [Examples.file_tas]
            [preprocessor.CropDateRange])
       = preprocessor.calendar
           (Examples.new_tas Examples.range_2000 [Examples.file_tas]
              [preprocessor.CropDateRange])).
Proof.
  apply (parse_postcondition Examples.rt0
           (Examples.new_tas Examples.range_2000 [Examples.file_tas]
              [preprocessor.CropDateRange])
           (Examples.parsed_tas Examples.range_2000 [Examples.file_tas]
              [preprocessor.CropDateRange])
           Examples.ds_tas Examples.ds_tas_stripped).
  - intros l _. reflexivity.
  - reflexivity.
  - by vm_compute.
Defined.

(** X16 on [ds_temp]: the level is extracted whether
    [ExtractLevelFunction] comes after or before [CropDateRangeFunction]. *)
Lemma hooks_by_kind_witness :
  preprocessor.MDTFPreprocessorBase.process_file Examples.rt0
    (preprocessor.set_functions
       (Examples.self_temp (Some [("pressure", 500)]))
       [preprocessor.CropDateRange; preprocessor.ExtractLevel])
    Examples.ds_temp
  = preprocessor.MDTFPreprocessorBase.process_file Examples.rt0
      (preprocessor.set_functions
         (Examples.self_temp (Some [("pressure", 500)]))
         [preprocessor.ExtractLevel; preprocessor.CropDateRange])
      Examples.ds_temp.
Proof.
  destruct (hooks_by_kind Examples.rt0
              (Examples.self_temp (Some [("pressure", 500)]))
              [preprocessor.CropDateRange; preprocessor.ExtractLevel]
              Examples.ds_temp) as (_ & _ & Hperm).
  destruct (Hperm [preprocessor.ExtractLevel; preprocessor.CropDateRange])
    as [Hfile _]; [apply perm_swap|].
  exact Hfile.
Defined.

(** X20 on [ds_tas], whose dates are of the calendar [noleap]: the year
    2000 requested in the calendar [360_day], which has no 31 December, and
    in the calendar [gregorian]; and on [ds_temp], which has no time axis. *)
Lemma crop_time_axis_errors_witness :
  preprocessor.CropDateRangeFunction.crop_time_axis Examples.rt0
    Examples.ds_tas_stripped
    (preprocessor.set_calendar
       (Examples.parsed_tas Examples.range_2000 [Examples.file_tas]
          [preprocessor.CropDateRange])
       (Some "360_day"))
  = Raise (ValueError "invalid date for the calendar")
  ∧ preprocessor.CropDateRangeFunction.crop_time_axis Examples.rt0
      Examples.ds_tas_stripped
      (preprocessor.set_calendar
         (Examples.parsed_tas Examples.range_2000 [Examples.file_tas]
            [preprocessor.CropDateRange])
         (Some "gregorian"))
    = Raise TypeError
  ∧ preprocessor.CropDateRangeFunction.crop_time_axis Examples.rt0
      Examples.ds_temp (Examples.self_temp None)
    = Ok Examples.ds_temp.
Proof.
  split_and!.
  - destruct (crop_time_axis_errors Examples.rt0 Examples.ds_tas_stripped
                (preprocessor.set_calendar
                   (Examples.parsed_tas Examples.range_2000
                      [Examples.file_tas] [preprocessor.CropDateRange])
                   (Some "360_day"))) as [_ Htime].
    destruct (Htime "time") as [Hcast _]; [reflexivity|].
    apply Hcast. right. split; [reflexivity|]. left. reflexivity.
  - destruct (crop_time_axis_errors Examples.rt0 Examples.ds_tas_stripped
                (preprocessor.set_calendar
                   (Examples.parsed_tas Examples.range_2000
                      [Examples.file_tas] [preprocessor.CropDateRange])
                   (Some "gregorian"))) as [_ Htime].
    destruct (Htime "time") as [_ Hbounds]; [reflexivity|].
    destruct (Hbounds
                (xr.mk_datetime 2000 1 1 0 0 0 (Some "gregorian"))
                (xr.mk_datetime 2000 12 31 23 59 59 (Some "gregorian"))
                (xr.mk_datetime 2000 1 1 0 0 0 (Some "gregorian"))
                (xr.mk_datetime 2000 12 31 23 59 59 (Some "gregorian")))
      as [_ Hax]; [reflexivity..|].
    destruct (Hax Examples.time_axis_tas) as (_ & _ & Hcal); [reflexivity|].
    apply (Hcal (xr.mk_datetime 1999 6 1 0 0 0 (Some "noleap")));
      [reflexivity|discriminate].
  - destruct (crop_time_axis_errors Examples.rt0 Examples.ds_temp
                (Examples.self_temp None)) as [Hnone _].
    apply Hnone. reflexivity.
Defined.

(** * Further properties of [util.py]: [Namespace] and [DataSet] *)

Section pyobj_ind.
Import util util.Namespace.
Context (P : pyobj → Prop).
Context (HAtom : ∀ v, P (Atom v)).
Context (HDict : ∀ c items, Forall (λ p, P p.2) items → P (Dict c items)).
Context (HList : ∀ l, Forall P l → P (PyList l)).
Context (HTuple : ∀ l, Forall P l → P (PyTuple l)).

Lemma pyobj_nested_ind : ∀ x, P x.
Proof.
  fix IH 1. intros [v|c items|l|l].
  - apply HAtom.
  - apply HDict. induction items as [|[k y] items IHitems]; constructor;
      [apply IH|exact IHitems].
  - apply HList. induction l as [|y l IHl]; constructor; [apply IH|exact IHl].
  - apply HTuple. induction l as [|y l IHl]; constructor; [apply IH|exact IHl].
Qed.
End pyobj_ind.

Section Namespace_facts.
Import util util.Namespace.

Lemma toDict_fromDict x : _toDict (fromDict x) = _toDict x.
Proof.
  induction x as [v|c items IH|l IH|l IH] using pyobj_nested_ind; simpl;
    [done|f_equal..].
  - rewrite <- list_fmap_compose. apply Forall_fmap_ext_1.
    eapply Forall_impl; [exact IH|]. intros [k y] Hy. simpl in *. by rewrite Hy.
  - rewrite <- list_fmap_compose. by apply Forall_fmap_ext_1.
  - rewrite <- list_fmap_compose. by apply Forall_fmap_ext_1.
Qed.

Lemma fromDict_toDict x : fromDict (_toDict x) = fromDict x.
Proof.
  induction x as [v|c items IH|l IH|l IH] using pyobj_nested_ind; simpl;
    [done|f_equal..].
  - rewrite <- list_fmap_compose. apply Forall_fmap_ext_1.
    eapply Forall_impl; [exact IH|]. intros [k y] Hy. simpl in *. by rewrite Hy.
  - rewrite <- list_fmap_compose. by apply Forall_fmap_ext_1.
  - rewrite <- list_fmap_compose. by apply Forall_fmap_ext_1.
Qed.

Lemma forallb_fmap_true {A B} (p : B → bool) (f : A → B) (l : list A) :
  Forall (λ a, p (f a) = true) l → forallb p (f <$> l) = true.
Proof.
  induction 1 as [|a l Ha _ IH]; [done|].
  rewrite fmap_cons. cbn [forallb]. by rewrite Ha, IH.
Qed.

Lemma toDict_plain x : has_class PlainDict (_toDict x) = true.
Proof.
  induction x as [v|c items IH|l IH|l IH] using pyobj_nested_ind; simpl;
    [done|..]; by apply forallb_fmap_true.
Qed.

Lemma fromDict_namespaces x : has_class NamespaceClass (fromDict x) = true.
Proof.
  induction x as [v|c items IH|l IH|l IH] using pyobj_nested_ind; simpl;
    [done|..]; by apply forallb_fmap_true.
Qed.

Lemma fmap_fixed {A} (f : A → A) (l : list A) :
  Forall (λ a, f a = a) l → f <$> l = l.
Proof.
  induction 1 as [|a l Ha _ IH]; [done|].
  rewrite fmap_cons. by rewrite Ha, IH.
Qed.

Lemma forallb_Forall_impl {A} (p : A → bool) (P : A → Prop) (l : list A) :
  Forall (λ a, p a = true → P a) l → forallb p l = true → Forall P l.
Proof.
  induction 1 as [|a l Ha _ IH]; simpl; [done|].
  intros [Hpa Hl]%andb_prop. constructor; auto.
Qed.

Lemma toDict_fixed x : has_class PlainDict x = true → _toDict x = x.
Proof.
  induction x as [v|c items IH|l IH|l IH] using pyobj_nested_ind; simpl;
    [done|..].
  - intros [Hc Hitems]%andb_prop. apply bool_decide_eq_true in Hc as ->.
    f_equal. apply fmap_fixed.
    apply (forallb_Forall_impl (λ p, has_class PlainDict p.2)
             (λ p, (p.1, _toDict p.2) = p)); [|done].
    eapply Forall_impl; [exact IH|]. intros [k y] Hy Hp. simpl in *.
    by rewrite Hy.
  - intros Hl. f_equal. apply fmap_fixed.
    by apply (forallb_Forall_impl (has_class PlainDict)).
  - intros Hl. f_equal. apply fmap_fixed.
    by apply (forallb_Forall_impl (has_class PlainDict)).
Qed.

Lemma fromDict_fixed x : has_class NamespaceClass x = true → fromDict x = x.
Proof.
  induction x as [v|c items IH|l IH|l IH] using pyobj_nested_ind; simpl;
    [done|..].
  - intros [Hc Hitems]%andb_prop. apply bool_decide_eq_true in Hc as ->.
    f_equal. apply fmap_fixed.
    apply (forallb_Forall_impl (λ p, has_class NamespaceClass p.2)
             (λ p, (p.1, fromDict p.2) = p)); [|done].
    eapply Forall_impl; [exact IH|]. intros [k y] Hy Hp. simpl in *.
    by rewrite Hy.
  - intros Hl. f_equal. apply fmap_fixed.
    by apply (forallb_Forall_impl (has_class NamespaceClass)).
  - intros Hl. f_equal. apply fmap_fixed.
    by apply (forallb_Forall_impl (has_class NamespaceClass)).
Qed.
End Namespace_facts.

(** X17. [toDict] and [fromDict] on nested values.  [toDict] leaves no
    [Namespace] at any depth and [fromDict] no plain dict; each undoes the
    other as far as it can: converting the result of the one with the other
    is converting the value itself, so that a value made of plain dicts
    survives [fromDict] followed by [toDict], and a value made of
    [Namespace]s survives [toDict] followed by [fromDict]. *)
Theorem Namespace_round_trip (x : util.Namespace.pyobj) :
  util.Namespace._toDict (util.Namespace.fromDict x) = util.Namespace._toDict x
  ∧ util.Namespace.fromDict (util.Namespace._toDict x) = util.Namespace.fromDict x
  ∧ util.Namespace.has_class util.Namespace.PlainDict (util.Namespace._toDict x) = true
  ∧ util.Namespace.has_class util.Namespace.NamespaceClass (util.Namespace.fromDict x) = true
  ∧ (util.Namespace.has_class util.Namespace.PlainDict x = true → util.Namespace._toDict (util.Namespace.fromDict x) = x)
  ∧ (util.Namespace.has_class util.Namespace.NamespaceClass x = true → util.Namespace.fromDict (util.Namespace._toDict x) = x).
Proof.
  split_and!.
  - apply toDict_fromDict.
  - apply fromDict_toDict.
  - apply toDict_plain.
  - apply fromDict_namespaces.
  - intros Hx. rewrite toDict_fromDict. by apply toDict_fixed.
  - intros Hx. rewrite fromDict_toDict. by apply fromDict_fixed.
Qed.

(** X18. What [==] on [Namespace]s sees.  The two sides are compared by
    the tuples of the [repr]s of their values, taken in the order of the
    sorted keys.  So a [Namespace] whose keys [namedtuple] accepts is equal to
    itself and to its copy; one with a key that [namedtuple] rejects cannot
    be compared at all: [==] raises [ValueError]; a plain dict with the same
    items is not equal to it; and the names of the keys are not compared: two
    [Namespace]s with one key each are equal as soon as their values are. *)
Theorem Namespace_eq_blind (repr : util.Namespace.pyobj → string)
    (field_names_error : list string → option string)
    (self : list (string * util.Namespace.pyobj)) :
  (field_names_error (merge_sort String.le (dict_keys self)) = None →
   util.Namespace.__eq__ repr field_names_error self (util.Namespace.copy self) = Ok true
   ∧ util.Namespace.__eq__ repr field_names_error self (util.Namespace.Dict util.Namespace.NamespaceClass self) = Ok true)
  ∧ (∀ msg other,
       field_names_error (merge_sort String.le (dict_keys self)) = Some msg →
       util.Namespace.__eq__ repr field_names_error self (util.Namespace.Dict util.Namespace.NamespaceClass other)
       = Raise (ValueError msg))
  ∧ (∀ other, util.Namespace.__eq__ repr field_names_error self (util.Namespace.Dict util.Namespace.PlainDict other)
              = Ok false)
  ∧ (∀ k1 k2 x,
       field_names_error [k1] = None → field_names_error [k2] = None →
       util.Namespace.__eq__ repr field_names_error [(k1, x)] (util.Namespace.Dict util.Namespace.NamespaceClass [(k2, x)])
       = Ok true).
Proof.
  assert (∀ items : list (string * util.Namespace.pyobj),
            dict_keys ((λ p, (p.1, util.Namespace._toDict p.2)) <$> items) = dict_keys items)
    as Hkeys.
  { intros items. unfold dict_keys. rewrite <- list_fmap_compose.
    by apply list_fmap_ext. }
  split_and!.
  - intros Hok.
    assert (∃ a, util.Namespace._freeze repr field_names_error self = Ok a) as [a Ha].
    { unfold util.Namespace._freeze. cbn [util.Namespace._toDict]. rewrite Hkeys, Hok. by eexists. }
    assert (util.Namespace._freeze repr field_names_error
              ((λ p, (p.1, util.Namespace.fromDict p.2)) <$> self) = Ok a) as Hcopy.
    { unfold util.Namespace._freeze in *.
      change (util.Namespace.Dict util.Namespace.NamespaceClass ((λ p, (p.1, util.Namespace.fromDict p.2)) <$> self))
        with (util.Namespace.fromDict (util.Namespace.Dict util.Namespace.NamespaceClass self)).
      by rewrite toDict_fromDict. }
    unfold util.Namespace.copy, util.Namespace.__eq__. cbn [util.Namespace.fromDict]. rewrite Ha, Hcopy. simpl.
    by rewrite bool_decide_eq_true_2.
  - intros msg other Hbad. unfold util.Namespace.__eq__, util.Namespace._freeze. cbn [util.Namespace._toDict].
    by rewrite !Hkeys, Hbad.
  - done.
  - intros k1 k2 x H1 H2. unfold util.Namespace.__eq__, util.Namespace._freeze. cbn [util.Namespace._toDict].
    cbn. rewrite H1, H2. cbn. rewrite !decide_True by done.
    by rewrite bool_decide_eq_true_2.
Qed.

Section DataSet_facts.
Import util util.Namespace util.DataSet.
Context (DateFrequency : pyobj → result pyobj).

Lemma set_missing_lookup keys x (self : gmap string pyobj) k :
  set_missing keys x self !! k
  = match self !! k with
    | Some y => Some y
    | None => if decide (k ∈ keys) then Some x else None
    end.
Proof.
  unfold set_missing. revert self.
  induction keys as [|k0 keys IH]; intros self; cbn [foldl].
  - rewrite decide_False by apply not_elem_of_nil. by destruct (self !! k).
  - rewrite IH. destruct (decide (k = k0)) as [->|Hne].
    + rewrite (decide_True (P := k0 ∈ k0 :: keys)) by left.
      destruct (self !! k0) as [y|] eqn:Hy; [by rewrite Hy|].
      by rewrite lookup_insert_eq.
    + assert ((match self !! k0 with
               | Some _ => self
               | None => <[ k0 := x ]> self
               end) !! k = self !! k) as ->.
      { destruct (self !! k0); [done|]. by rewrite lookup_insert_ne. }
      destruct (self !! k); [done|].
      destruct (decide (k ∈ keys)) as [Hin|Hnin].
      * by rewrite decide_True by (by right).
      * by rewrite decide_False by (by intros [?|?]%elem_of_cons).
Qed.

Lemma set_missing_fixed keys x (self : gmap string pyobj) :
  (∀ k, k ∈ keys → is_Some (self !! k)) → set_missing keys x self = self.
Proof.
  intros Hall. apply map_eq. intros k. rewrite set_missing_lookup.
  destruct (self !! k) as [y|] eqn:Hy; [done|].
  case_decide as Hk; [|done]. apply Hall in Hk as [y Hy']. congruence.
Qed.
End DataSet_facts.

Ltac map_lookups :=
  repeat first
    [ rewrite lookup_delete_eq
    | rewrite lookup_delete_ne by done
    | rewrite lookup_insert_eq
    | rewrite lookup_insert_ne by done ].

Section DataSet_post.
Import util util.Namespace util.DataSet.
Context (DateFrequency : pyobj → result pyobj).

Lemma DataSet_init_fixed self :
  normal self → __init__ DateFrequency self = Ok self.
Proof.
  intros (Hkeys & Hvar & Hfreq). unfold __init__.
  rewrite (set_missing_fixed _ _ self)
    by (intros k Hk; apply Hkeys; unfold default_keys; set_solver).
  rewrite (set_missing_fixed _ _ self)
    by (intros k Hk; apply Hkeys; unfold default_keys; set_solver).
  destruct (self !! "var_name") as [x|] eqn:Hx.
  - destruct (self !! "name") as [[[]| | |]|] eqn:Hn;
      try (by destruct Hvar; [eauto|]).
    all: destruct (self !! "freq") as [y|] eqn:Hy; [|done].
    all: destruct (self !! "date_freq") as [[[]| | |]|] eqn:Hd; try done.
    all: by destruct Hfreq; [eauto|].
  - destruct (self !! "freq") as [y|] eqn:Hy; [|done].
    destruct (self !! "date_freq") as [[[]| | |]|] eqn:Hd; try done.
    by destruct Hfreq; [eauto|].
Qed.
End DataSet_post.

Section DataSet_steps.
Import util util.Namespace util.DataSet.
Context (f : pyobj → result pyobj).

Lemma Atom_VNone_dec (d : pyobj) : {d = Atom VNone} + {d ≠ Atom VNone}.
Proof. destruct d as [[]| | |]; (by left) || (by right). Qed.

(** A step of [__init__]: the attribute [src] becomes the attribute [dst]
    when [dst] is [None]. *)
Lemma rename_step (s s' : gmap string pyobj) (src dst : string) :
  src ≠ dst →
  match s !! src, s !! dst with
  | Some x, Some (Atom VNone) =>
      y ← f x; Ok (delete src (<[ dst := y ]> s))
  | _, _ => Ok s
  end = Ok s' →
  (∀ k, k ≠ src → k ≠ dst → s' !! k = s !! k)
  ∧ (is_Some (s !! dst) → is_Some (s' !! dst))
  ∧ (is_Some (s' !! src) → s' !! dst ≠ Some (Atom VNone))
  ∧ (∀ x, s !! dst = Some x → x ≠ Atom VNone → s' = s)
  ∧ (∀ x, s !! src = Some x → s !! dst = Some (Atom VNone) →
          ∃ y, f x = Ok y ∧ s' !! dst = Some y ∧ s' !! src = None).
Proof.
  intros Hne Hstep.
  destruct (s !! src) as [x|] eqn:Hsrc.
  - destruct (s !! dst) as [d|] eqn:Hdst.
    + destruct (Atom_VNone_dec d) as [->|Hd].
      * destruct (f x) as [y|e] eqn:Hy; [|done]. injection Hstep as <-.
        split_and!.
        -- intros k Hk1 Hk2. by map_lookups.
        -- intros _. map_lookups. by eexists.
        -- map_lookups. by intros [? ?].
        -- intros x' [= <-] Hx'. done.
        -- intros x' [= <-] _. exists y. split; [done|]. by map_lookups.
      * assert (s' = s) as ->.
        { destruct d as [[]| | |]; first [congruence | by injection Hstep]. }
        split_and!; rewrite ?Hdst, ?Hsrc; try done; try congruence.
    + injection Hstep as <-.
      split_and!; rewrite ?Hdst, ?Hsrc; try done; try congruence.
  - assert (s' = s) as -> by (by injection Hstep).
    split_and!; rewrite ?Hsrc; try done; try congruence; by intros [? ?].
Qed.
End DataSet_steps.

(** X19. What [DataSet.__init__] establishes.  The seven attributes with
    a default are defined; [var_name] is never left beside a [name] that is
    [None], nor [freq] beside a [date_freq] that is [None]; a [name] given
    and not [None] is kept, and [var_name] with it; [var_name] becomes the
    [name] when no [name], or [None], is given; initialising the result again
    changes nothing; and the only error is the one [DateFrequency] raises on
    the [freq] given. *)
Theorem DataSet_init_normal (DateFrequency : util.Namespace.pyobj → result util.Namespace.pyobj)
    (kwargs : gmap string util.Namespace.pyobj) :
  (∀ self,
     util.DataSet.__init__ DateFrequency kwargs = Ok self →
     (∀ k, k ∈ util.DataSet.default_keys → is_Some (self !! k))
     ∧ (is_Some (self !! "var_name") → self !! "name" ≠ Some (util.Namespace.Atom util.VNone))
     ∧ (is_Some (self !! "freq") → self !! "date_freq" ≠ Some (util.Namespace.Atom util.VNone))
     ∧ (∀ x, kwargs !! "name" = Some x → x ≠ util.Namespace.Atom util.VNone →
             self !! "name" = Some x
             ∧ self !! "var_name" = kwargs !! "var_name")
     ∧ (∀ x, kwargs !! "var_name" = Some x →
             kwargs !! "name" = None ∨ kwargs !! "name" = Some (util.Namespace.Atom util.VNone) →
             self !! "name" = Some x ∧ self !! "var_name" = None)
     ∧ util.DataSet.__init__ DateFrequency self = Ok self)
  ∧ (∀ e,
       util.DataSet.__init__ DateFrequency kwargs = Raise e →
       ∃ x, kwargs !! "freq" = Some x ∧ DateFrequency x = Raise e).
Proof.
  unfold util.DataSet.__init__ at 1 3.
  set (s1 := util.DataSet.set_missing ["_remote_data"; "alternates"] (util.Namespace.PyList [])
               (util.DataSet.set_missing
                  ["name"; "units"; "date_range"; "date_freq"; "_local_data"]
                  (util.Namespace.Atom util.VNone) kwargs)).
  assert (∀ k, s1 !! k
               = match kwargs !! k with
                 | Some y => Some y
                 | None =>
                     if decide (k ∈ ["name"; "units"; "date_range"; "date_freq";
                                     "_local_data"])
                     then Some (util.Namespace.Atom util.VNone)
                     else if decide (k ∈ ["_remote_data"; "alternates"])
                          then Some (util.Namespace.PyList []) else None
                 end) as Hs1.
  { intros k. unfold s1. rewrite !set_missing_lookup.
    destruct (kwargs !! k); [done|]. by case_decide. }
  clearbody s1.
  set (s2 := match s1 !! "var_name", s1 !! "name" with
             | Some x, Some (util.Namespace.Atom util.VNone) =>
                 delete "var_name" (<[ "name" := x ]> s1)
             | _, _ => s1
             end).
  assert (match s1 !! "var_name", s1 !! "name" with
          | Some x, Some (util.Namespace.Atom util.VNone) =>
              y ← Ok x; Ok (delete "var_name" (<[ "name" := y ]> s1))
          | _, _ => Ok s1
          end = Ok s2) as HA.
  { unfold s2. destruct (s1 !! "var_name"); [|done].
    by destruct (s1 !! "name") as [[[]| | |]|]. }
  apply (rename_step Ok) in HA as (HA1 & HA2 & HA3 & HA4 & HA5); [|done].
  clearbody s2.
  assert (s1 !! "name" = Some (default (util.Namespace.Atom util.VNone) (kwargs !! "name"))) as Hn1.
  { rewrite Hs1. destruct (kwargs !! "name"); [done|].
    by rewrite decide_True by set_solver. }
  assert (s1 !! "var_name" = kwargs !! "var_name") as Hv1.
  { rewrite Hs1. destruct (kwargs !! "var_name"); [done|].
    by rewrite !decide_False by set_solver. }
  assert (s2 !! "freq" = kwargs !! "freq") as Hf2.
  { rewrite HA1, Hs1 by done. destruct (kwargs !! "freq"); [done|].
    by rewrite !decide_False by set_solver. }
  split.
  - intros self Hinit.
    apply (rename_step DateFrequency) in Hinit
      as (HB1 & HB2 & HB3 & HB4 & HB5); [|done].
    assert ((∀ k, k ∈ util.DataSet.default_keys → is_Some (self !! k))
            ∧ (is_Some (self !! "var_name") →
               self !! "name" ≠ Some (util.Namespace.Atom util.VNone))
            ∧ (is_Some (self !! "freq") →
               self !! "date_freq" ≠ Some (util.Namespace.Atom util.VNone))) as Hnormal.
    { split_and!.
      - intros k Hk.
        destruct (decide (k = "name")) as [->|Hkn].
        { rewrite HB1 by done. apply HA2. rewrite Hn1. by eexists. }
        destruct (decide (k = "date_freq")) as [->|Hkd].
        { apply HB2. rewrite HA1, Hs1 by done.
          destruct (kwargs !! "date_freq"); [by eexists|].
          rewrite decide_True by set_solver. by eexists. }
        assert (k ≠ "var_name" ∧ k ≠ "freq") as [??].
        { unfold util.DataSet.default_keys in Hk. set_solver. }
        rewrite HB1, HA1, Hs1 by done.
        destruct (kwargs !! k); [by eexists|].
        unfold util.DataSet.default_keys in Hk.
        repeat case_decide; try (by eexists). set_solver.
      - rewrite !HB1 by done. apply HA3.
      - apply HB3. }
    destruct Hnormal as (Hkeys & Hvar & Hfreq).
    split_and!; try done.
    + intros x Hx Hnone. rewrite !HB1 by done.
      rewrite Hx in Hn1. simpl in Hn1.
      rewrite (HA4 x Hn1 Hnone). by rewrite Hn1, Hv1.
    + intros x Hx Hname. rewrite !HB1 by done.
      destruct (HA5 x) as (y & [= <-] & Hy1 & Hy2).
      * by rewrite Hv1.
      * rewrite Hn1. by destruct Hname as [-> | ->].
      * done.
    + by apply DataSet_init_fixed.
  - intros e Hinit. rewrite Hf2 in Hinit.
    destruct (kwargs !! "freq") as [x|]; [|done].
    exists x. split; [done|].
    destruct (s2 !! "date_freq") as [[[]| | |]|]; try done.
    destruct (DateFrequency x); simpl in Hinit; congruence.
Qed.

(** ** The properties of [Namespace] and [DataSet] at concrete inputs *)

(** X17 on [settings_plain]. *)
Lemma Namespace_round_trip_witness :
  util.Namespace._toDict (util.Namespace.fromDict Examples.settings_plain)
  = Examples.settings_plain
  ∧ util.Namespace.fromDict
      (util.Namespace._toDict
         (util.Namespace.fromDict Examples.settings_plain))
    = util.Namespace.fromDict Examples.settings_plain.
Proof.
  split.
  - destruct (Namespace_round_trip Examples.settings_plain)
      as (_ & _ & _ & _ & Hplain & _).
    apply Hplain. reflexivity.
  - destruct (Namespace_round_trip
                (util.Namespace.fromDict Examples.settings_plain))
      as (_ & _ & _ & _ & _ & Hns).
    apply Hns. reflexivity.
Defined.

(** X18: a [Namespace] with the key [a] equals one with the key [b], the
    values being the same; and one with the key [_a] cannot be compared. *)
Lemma Namespace_eq_blind_witness :
  util.Namespace.__eq__ Examples.repr_atom Examples.no_underscore
    [("a", util.Namespace.Atom (util.VInt 1))]
    (util.Namespace.Dict util.Namespace.NamespaceClass
       [("b", util.Namespace.Atom (util.VInt 1))]) = Ok true
  ∧ util.Namespace.__eq__ Examples.repr_atom Examples.no_underscore
      [("_a", util.Namespace.Atom (util.VInt 1))]
      (util.Namespace.Dict util.Namespace.NamespaceClass
         [("_a", util.Namespace.Atom (util.VInt 1))])
    = Raise (ValueError "Field names cannot start with an underscore")
  ∧ util.Namespace.__eq__ Examples.repr_atom Examples.no_underscore
      [("a", util.Namespace.Atom (util.VInt 1))]
      (util.Namespace.copy [("a", util.Namespace.Atom (util.VInt 1))])
    = Ok true.
Proof.
  split_and!.
  - destruct (Namespace_eq_blind Examples.repr_atom Examples.no_underscore [])
      as (_ & _ & _ & Hkeys).
    apply Hkeys; reflexivity.
  - destruct (Namespace_eq_blind Examples.repr_atom Examples.no_underscore
                [("_a", util.Namespace.Atom (util.VInt 1))])
      as (_ & Hbad & _).
    apply Hbad. reflexivity.
  - destruct (Namespace_eq_blind Examples.repr_atom Examples.no_underscore
                [("a", util.Namespace.Atom (util.VInt 1))])
      as (Hcopy & _).
    apply Hcopy. reflexivity.
Defined.

(** X19 on [kwargs_pr]: the variable is named by [var_name], which then
    goes, and initialising the result again gives it back. *)
Lemma DataSet_init_normal_witness :
  ∃ self,
    util.DataSet.__init__ Ok Examples.kwargs_pr = Ok self
    ∧ self !! "name" = Some (util.Namespace.Atom (util.VStr "pr"))
    ∧ self !! "var_name" = None
    ∧ is_Some (self !! "alternates")
    ∧ util.DataSet.__init__ Ok self = Ok self.
Proof.
  destruct (util.DataSet.__init__ Ok Examples.kwargs_pr) as [self|e] eqn:Hinit;
    [|by vm_compute in Hinit].
  exists self. split; [done|].
  destruct (DataSet_init_normal Ok Examples.kwargs_pr) as [Hok _].
  destruct (Hok self Hinit) as (Hkeys & _ & _ & _ & Hvar & Hfixed).
  destruct (Hvar (util.Namespace.Atom (util.VStr "pr"))) as [Hname Hgone];
    [reflexivity|by left|].
  split_and!; try done.
  apply Hkeys. by_compute.
Defined.
